(** * RideConnect backend: authorization and relationship-consistency layer

    A shallow embedding of [backend/server.py].  The MongoDB collections
    are lists of documents in insertion order; [find_one], [update_one]
    and [delete_one] act on the first document matching the filter.
    Every endpoint is a computation over a [World]: the database plus the
    two sources of non-determinism the handlers read, the wall clock
    ([datetime.now(timezone.utc)]) and the random generator ([uuid.uuid4],
    [secrets.token_urlsafe]).  A handler either returns its JSON payload
    or raises an [HTTPException]; writes made before a raise persist. *)

From Stdlib Require Import ZArith List String Ascii Bool Lia.
From Stdlib Require Import Floats.PrimFloat.
From Stdlib Require Import DecimalString.
From Stdlib Require Import Sorted.
Import ListNotations.

Local Open Scope string_scope.
Local Open Scope list_scope.
Local Open Scope Z_scope.

(* ================================================================== *)
(** ** Python values *)

(** [datetime]: a wall-clock reading in microseconds together with its
    [tzinfo], the UTC offset in microseconds, absent for a naive value.
    The year range of the Python type is not modelled. *)
Record datetime := mk_datetime { wall : Z; tzinfo : option Z }.

(** [expires_at.replace(tzinfo=timezone.utc)] *)
Definition replace_tzinfo_utc (d : datetime) : datetime :=
  {| wall := wall d; tzinfo := Some 0 |}.

(** The instant an aware datetime denotes, on the UTC time line. *)
Definition utc_instant (d : datetime) : Z :=
  match tzinfo d with
  | Some off => wall d - off
  | None => wall d
  end.

(** [a <= b] on aware datetimes compares instants. *)
Definition datetime_le (a b : datetime) : bool := utc_instant a <=? utc_instant b.

(** What the store keeps of a datetime and hands back on a read: BSON
    dates are whole milliseconds since the epoch in UTC (a naive value
    is taken as UTC, the microseconds below a millisecond are dropped),
    and the driver decodes them to naive values. *)
Definition bson_datetime (d : datetime) : datetime :=
  {| wall := 1000 * (utc_instant d / 1000); tzinfo := None |}.

(** The integers the driver can encode: signed 64-bit.  For any other
    [int] it raises [OverflowError] before anything is sent. *)
Definition int64_ok (n : Z) : bool := (- 2 ^ 63 <=? n) && (n <? 2 ^ 63).

(** [d + timedelta(days=n)] *)
Definition add_days (d : datetime) (n : Z) : datetime :=
  {| wall := wall d + n * 86400000000; tzinfo := tzinfo d |}.

(** Truth value of an [Optional[str]]: [None] and the empty string are
    falsy. *)
Definition truthy (o : option string) : bool :=
  match o with
  | Some s => negb (s =? "")%string
  | None => false
  end.

(** [s.replace(pat, rep)] for a non-empty [pat]: every non-overlapping
    occurrence, scanning from the left.  [skip] counts the characters of
    an occurrence still to be dropped. *)
Fixpoint str_replace_from (pat rep s : string) (skip : nat) : string :=
  match s with
  | EmptyString => EmptyString
  | String c s' =>
      match skip with
      | S k => str_replace_from pat rep s' k
      | O =>
          if String.prefix pat s
          then String.append rep (str_replace_from pat rep s' (Nat.pred (String.length pat)))
          else String c (str_replace_from pat rep s' O)
      end
  end.

Definition str_replace (pat rep s : string) : string := str_replace_from pat rep s O.

Definition opt_str_eqb (o : option string) (s : string) : bool :=
  match o with
  | Some x => (x =? s)%string
  | None => false
  end.

(* ================================================================== *)
(** ** Documents (the pydantic models and the dicts stored in MongoDB) *)

Module User.
Record t := mk {
  user_id : string;
  email : option string;
  phone : option string;
  name : string;
  profile_picture : option string;
  bio : option string;
  profile_type : string;
  is_public : bool;
  auth_type : string;
  created_at : datetime
}.
End User.

Module Password.
Record t := mk { user_id : string; password_hash : string }.
End Password.

Module Session.
Record t := mk {
  user_id : string;
  session_token : string;
  expires_at : datetime;
  created_at : datetime
}.
End Session.

Module Follow.
Record t := mk {
  follow_id : string;
  follower_id : string;
  following_id : string;
  status : string;
  created_at : datetime
}.
Definition set_status (s : string) (f : t) : t :=
  mk (follow_id f) (follower_id f) (following_id f) s (created_at f).
End Follow.

Module Ride.
Record t := mk {
  ride_id : string;
  user_id : string;
  origin : string;
  destination : string;
  date_time : datetime;
  available_seats : Z;
  price : option float;
  car_details : option string;
  preferences : option string;
  ride_type : string;
  status : string;
  created_at : datetime
}.
(** [{"$inc": {"available_seats": n}}] *)
Definition inc_available_seats (n : Z) (r : t) : t :=
  mk (ride_id r) (user_id r) (origin r) (destination r) (date_time r)
       (available_seats r + n) (price r) (car_details r) (preferences r)
       (ride_type r) (status r) (created_at r).
End Ride.

Module RideRequest.
Record t := mk {
  request_id : string;
  ride_id : string;
  requester_id : string;
  status : string;
  message : option string;
  created_at : datetime
}.
Definition set_status (s : string) (q : t) : t :=
  mk (request_id q) (ride_id q) (requester_id q) s (message q) (created_at q).
End RideRequest.

(** [RideUpdate]: the body of [PUT /rides/{ride_id}]. *)
Module RideUpdate.
Record t := mk {
  origin : option string;
  destination : option string;
  date_time : option datetime;
  available_seats : option Z;
  price : option float;
  car_details : option string;
  preferences : option string;
  status : option string
}.
End RideUpdate.

(** [UserLogin], [FollowRequest], [RideRequestCreate]: request bodies. *)
Module UserLogin.
Record t := mk { email : option string; phone : option string; password : string }.
End UserLogin.

Module FollowRequest.
Record t := mk { following_id : string }.
End FollowRequest.

Module RideRequestCreate.
Record t := mk { ride_id : string; message : option string }.
End RideRequestCreate.

(** The user and ride documents as the store keeps them and hands them
    back: their dates go through [bson_datetime]. *)
Definition stored_user (u : User.t) : User.t :=
  User.mk (User.user_id u) (User.email u) (User.phone u) (User.name u)
          (User.profile_picture u) (User.bio u) (User.profile_type u)
          (User.is_public u) (User.auth_type u) (bson_datetime (User.created_at u)).

Definition stored_ride (r : Ride.t) : Ride.t :=
  Ride.mk (Ride.ride_id r) (Ride.user_id r) (Ride.origin r) (Ride.destination r)
          (bson_datetime (Ride.date_time r)) (Ride.available_seats r) (Ride.price r)
          (Ride.car_details r) (Ride.preferences r) (Ride.ride_type r) (Ride.status r)
          (bson_datetime (Ride.created_at r)).

(** What a handler reads of the incoming [Request]. *)
Record Request := mk_request {
  cookie_session_token : option string;   (* request.cookies.get("session_token") *)
  header_authorization : option string    (* request.headers.get("Authorization") *)
}.

(* ================================================================== *)
(** ** The store *)

Record DB := mk_db {
  users : list User.t;
  user_passwords : list Password.t;
  user_sessions : list Session.t;
  follows : list Follow.t;
  rides : list Ride.t;
  ride_requests : list RideRequest.t
}.

Definition set_follows (l : list Follow.t) (d : DB) : DB :=
  mk_db (users d) (user_passwords d) (user_sessions d) l (rides d) (ride_requests d).
Definition set_rides (l : list Ride.t) (d : DB) : DB :=
  mk_db (users d) (user_passwords d) (user_sessions d) (follows d) l (ride_requests d).
Definition set_ride_requests (l : list RideRequest.t) (d : DB) : DB :=
  mk_db (users d) (user_passwords d) (user_sessions d) (follows d) (rides d) l.
Definition set_user_sessions (l : list Session.t) (d : DB) : DB :=
  mk_db (users d) (user_passwords d) l (follows d) (rides d) (ride_requests d).

Section Collections.
Context {A : Type}.

(** [find_one(filter)]: the first matching document. *)
Definition find_one (flt : A -> bool) (l : list A) : option A := List.find flt l.

(** [update_one(filter, update)]: rewrites the first matching document. *)
Fixpoint update_one (flt : A -> bool) (upd : A -> A) (l : list A) : list A :=
  match l with
  | [] => []
  | x :: l' => if flt x then upd x :: l' else x :: update_one flt upd l'
  end.

(** [delete_one(filter)]: removes the first matching document. *)
Fixpoint delete_one (flt : A -> bool) (l : list A) : list A :=
  match l with
  | [] => []
  | x :: l' => if flt x then l' else x :: delete_one flt l'
  end.

(** [result.deleted_count] of a [delete_one]. *)
Definition deleted_count (flt : A -> bool) (l : list A) : Z :=
  if existsb flt l then 1 else 0.

(** [insert_one(doc)] *)
Definition insert_one (doc : A) (l : list A) : list A := l ++ [doc].

(** [count_documents(filter)] *)
Definition count_documents (flt : A -> bool) (l : list A) : Z :=
  Z.of_nat (List.length (List.filter flt l)).
End Collections.

(* ================================================================== *)
(** ** Handlers as computations *)

Record World := mk_world {
  db : DB;
  clock : nat -> Z;        (* the k-th reading of the UTC clock, microseconds *)
  ticks : nat;             (* clock readings taken so far *)
  entropy : nat -> string; (* the k-th random draw, as text *)
  draws : nat              (* random draws taken so far *)
}.

Record HTTPException := mk_exn { status_code : Z; detail : string }.

Inductive Outcome (A : Type) : Type :=
| Return (a : A)
| Raise (e : HTTPException).
Arguments Return {A} a.
Arguments Raise {A} e.

Definition M (A : Type) : Type := World -> Outcome A * World.

Definition ret {A} (a : A) : M A := fun w => (Return a, w).

Definition bind {A B} (c : M A) (k : A -> M B) : M B :=
  fun w =>
    match c w with
    | (Return a, w') => k a w'
    | (Raise e, w') => (Raise e, w')
    end.

Definition raise {A} (code : Z) (msg : string) : M A :=
  fun w => (Raise (mk_exn code msg), w).

Notation "x <- c ;; k" := (bind c (fun x => k))
  (at level 61, c at next level, right associativity).
Notation "c ;;; k" := (bind c (fun _ => k))
  (at level 61, right associativity).

(** A query against the store. *)
Definition query {A} (f : DB -> A) : M A := fun w => (Return (f (db w)), w).

(** The world with its store replaced. *)
Definition with_db (d : DB) (w : World) : World :=
  mk_world d (clock w) (ticks w) (entropy w) (draws w).

(** A write to the store. *)
Definition write (f : DB -> DB) : M unit :=
  fun w => (Return tt, with_db (f (db w)) w).

(** [datetime.now(timezone.utc)] *)
Definition datetime_now_utc : M datetime :=
  fun w => (Return (mk_datetime (clock w (ticks w)) (Some 0)),
            mk_world (db w) (clock w) (S (ticks w)) (entropy w) (draws w)).

(** [uuid.uuid4().hex] and [secrets.token_urlsafe(32)] *)
Definition random_text : M string :=
  fun w => (Return (entropy w (draws w)),
            mk_world (db w) (clock w) (ticks w) (entropy w) (S (draws w))).

(** [f"{tag}_{uuid.uuid4().hex[:12]}"] *)
Definition fresh_id (tag : string) : M string :=
  hex <- random_text ;;
  ret (String.append tag (String.append "_" (String.substring 0 12 hex))).

(* ================================================================== *)
(** ** AUTH HELPERS *)

(** The filters [{"session_token": t}] and [{"user_id": u}]. *)
Definition session_filter (session_token : string) (s : Session.t) : bool :=
  (Session.session_token s =? session_token)%string.

Definition user_filter (user_id : string) (u : User.t) : bool :=
  (User.user_id u =? user_id)%string.

(** The token a request carries: the cookie first, the Authorization
    header as fallback (first lines of [get_current_user], repeated in
    [logout]). *)
Definition request_session_token (request : Request) : option string :=
  let session_token := cookie_session_token request in
  if negb (truthy session_token) then
    match header_authorization request with
    | Some auth_header =>
        if truthy (Some auth_header) && String.prefix "Bearer " auth_header
        then Some (str_replace "Bearer " "" auth_header)
        else session_token
    | None => session_token
    end
  else session_token.

Definition get_current_user (request : Request) : M (option User.t) :=
  let session_token := request_session_token request in
  if negb (truthy session_token) then ret None else
  match session_token with
  | None => ret None
  | Some tok =>
      session <- query (fun d => find_one (session_filter tok) (user_sessions d)) ;;
      match session with
      | None => ret None
      | Some session =>
          let expires_at := Session.expires_at session in
          let expires_at :=
            match tzinfo expires_at with
            | None => replace_tzinfo_utc expires_at
            | Some _ => expires_at
            end in
          now <- datetime_now_utc ;;
          if datetime_le expires_at now then ret None else
          user_doc <- query (fun d =>
            find_one (user_filter (Session.user_id session)) (users d)) ;;
          ret user_doc
      end
  end.

Definition require_auth (request : Request) : M User.t :=
  user <- get_current_user request ;;
  match user with
  | None => raise 401 "Not authenticated"
  | Some user => ret user
  end.

(** An exception no handler catches (a [TypeError] when a model is
    built from [None], or what a library call raises): FastAPI answers
    500. *)
Definition internal_server_error {A} : M A := raise 500 "Internal Server Error".

(** [{"message": ...}] *)
Record Message := mk_message { message : string }.

(** [response.set_cookie(key="session_token", value=..., httponly=True,
    secure=True, samesite="none", path="/", max_age=7*24*60*60)] *)
Record Cookie := mk_cookie {
  cookie_key : string;
  cookie_value : string;
  cookie_httponly : bool;
  cookie_secure : bool;
  cookie_samesite : string;
  cookie_path : string;
  cookie_max_age : Z
}.

Definition session_cookie (session_token : string) : Cookie :=
  mk_cookie "session_token" session_token true true "none" "/" (7 * 24 * 60 * 60).

(** [{"user_id": ..., "session_token": ..., "name": ...}] *)
Module AuthResponse.
Record t := mk { user_id : string; session_token : string; name : string }.
End AuthResponse.

(* ================================================================== *)
(** ** AUTH ENDPOINTS *)

Section Login.

(** [bcrypt.checkpw(password.encode(), hashed.encode())]: [Some b] when
    the library returns [b], [None] when it raises [ValueError] (as it
    does, from version 5.0 on, for a password longer than 72 bytes). *)
Variable checkpw : string -> string -> option bool.

(** [verify_password]: nothing catches the library's exception, so it
    leaves the handler as a 500. *)
Definition verify_password (password hashed : string) : M bool :=
  match checkpw password hashed with
  | Some b => ret b
  | None => internal_server_error
  end.

(** The filter [{"user_id": user_id}] on [user_passwords]. *)
Definition password_filter (user_id : string) (p : Password.t) : bool :=
  (Password.user_id p =? user_id)%string.

(** The user a login names (the [if credentials.email: ... elif
    credentials.phone: ...] lookup at the head of [login]). *)
Definition login_lookup (credentials : UserLogin.t) (d : DB) : option User.t :=
  if truthy (UserLogin.email credentials) then
    find_one (fun u => match UserLogin.email credentials with
                       | Some e => opt_str_eqb (User.email u) e
                       | None => false
                       end) (users d)
  else if truthy (UserLogin.phone credentials) then
    find_one (fun u => match UserLogin.phone credentials with
                       | Some p => opt_str_eqb (User.phone u) p
                       | None => false
                       end) (users d)
  else None.

Definition login (credentials : UserLogin.t) : M (AuthResponse.t * Cookie) :=
  user <- query (login_lookup credentials) ;;
  match user with
  | None => raise 401 "Invalid credentials"
  | Some user =>
      password_doc <- query (fun d =>
        find_one (password_filter (User.user_id user)) (user_passwords d)) ;;
      refused <-
        match password_doc with
        | None => ret true
        | Some password_doc =>
            ok <- verify_password (UserLogin.password credentials)
                                  (Password.password_hash password_doc) ;;
            ret (negb ok)
        end ;;
      if refused : bool
      then raise 401 "Invalid credentials"
      else
        session_token <- random_text ;;
        expires <- datetime_now_utc ;;
        created <- datetime_now_utc ;;
        write (fun d => set_user_sessions
                 (insert_one (Session.mk (User.user_id user) session_token
                                         (bson_datetime (add_days expires 7))
                                         (bson_datetime created))
                             (user_sessions d)) d) ;;;
        ret (AuthResponse.mk (User.user_id user) session_token (User.name user),
             session_cookie session_token)
  end.

End Login.

(* ================================================================== *)
(** ** USER ENDPOINTS *)

(** What [GET /users/{user_id}] answers: the whole [UserBase], or the
    limited dict for a private profile. *)
Inductive ProfileView :=
| FullProfile (user_obj : User.t)
| LimitedProfile (user_id name : string) (profile_picture : option string)
                 (profile_type : string) (is_public is_private : bool).

(** The filter [{"follower_id": a, "following_id": b, "status":
    "accepted"}]. *)
Definition accepted_edge_filter (a b : string) (f : Follow.t) : bool :=
  (Follow.follower_id f =? a)%string
  && (Follow.following_id f =? b)%string
  && (Follow.status f =? "accepted")%string.

Definition get_user (user_id : string) (request : Request) : M ProfileView :=
  current_user <- get_current_user request ;;
  user <- query (fun d => find_one (user_filter user_id) (users d)) ;;
  match user with
  | None => raise 404 "User not found"
  | Some user_obj =>
      if negb (User.is_public user_obj) then
        match current_user with
        | Some current_user =>
            follow <- query (fun d =>
              find_one (accepted_edge_filter (User.user_id current_user) user_id)
                       (follows d)) ;;
            if match follow with None => true | Some _ => false end
               && negb (User.user_id current_user =? user_id)%string
            then ret (LimitedProfile (User.user_id user_obj) (User.name user_obj)
                                     (User.profile_picture user_obj)
                                     (User.profile_type user_obj)
                                     (User.is_public user_obj) true)
            else ret (FullProfile user_obj)
        | None => ret (FullProfile user_obj)
        end
      else ret (FullProfile user_obj)
  end.

(* ================================================================== *)
(** ** FOLLOW ENDPOINTS *)

(** [{"message": ..., "status": ...}] *)
Module FollowResponse.
Record t := mk { message : string; status : string }.
End FollowResponse.

(** The filter [{"follower_id": a, "following_id": b}]. *)
Definition edge_filter (a b : string) (f : Follow.t) : bool :=
  (Follow.follower_id f =? a)%string && (Follow.following_id f =? b)%string.

Definition follow_user (request : Request) (follow_req : FollowRequest.t)
  : M FollowResponse.t :=
  user <- require_auth request ;;
  if (User.user_id user =? FollowRequest.following_id follow_req)%string
  then raise 400 "Cannot follow yourself" else
  target_user <- query (fun d =>
    find_one (user_filter (FollowRequest.following_id follow_req)) (users d)) ;;
  match target_user with
  | None => raise 404 "User not found"
  | Some target_user =>
      existing <- query (fun d =>
        find_one (edge_filter (User.user_id user) (FollowRequest.following_id follow_req))
                 (follows d)) ;;
      match existing with
      | Some existing =>
          ret (FollowResponse.mk "Already following or request pending"
                                 (Follow.status existing))
      | None =>
          let target_is_public := User.is_public target_user in
          follow_id <- fresh_id "follow" ;;
          created <- datetime_now_utc ;;
          let follow_doc :=
            Follow.mk follow_id (User.user_id user)
                      (FollowRequest.following_id follow_req)
                      (if target_is_public then "accepted" else "pending")
                      created in
          write (fun d => set_follows (insert_one follow_doc (follows d)) d) ;;;
          ret (FollowResponse.mk
                 (if negb target_is_public then "Follow request sent" else "Now following")
                 (Follow.status follow_doc))
      end
  end.

(** [new_status = "accepted" if action == "accept" else "rejected"], the
    expression both respond handlers compute. *)
Definition new_status (action : string) : string :=
  if (action =? "accept")%string then "accepted" else "rejected".

Definition unfollow_user (user_id : string) (request : Request) : M Message :=
  user <- require_auth request ;;
  deleted <- query (fun d => deleted_count (edge_filter (User.user_id user) user_id) (follows d)) ;;
  write (fun d => set_follows
           (delete_one (edge_filter (User.user_id user) user_id) (follows d)) d) ;;;
  if deleted =? 0 then raise 404 "Not following this user"
  else ret (mk_message "Unfollowed").

(** The filter [{"follow_id": i, "following_id": u, "status": "pending"}]. *)
Definition pending_follow_filter (follow_id user_id : string) (f : Follow.t) : bool :=
  (Follow.follow_id f =? follow_id)%string
  && (Follow.following_id f =? user_id)%string
  && (Follow.status f =? "pending")%string.

(** The filter [{"follow_id": i}]. *)
Definition follow_id_filter (follow_id : string) (f : Follow.t) : bool :=
  (Follow.follow_id f =? follow_id)%string.

Definition respond_follow_request (follow_id : string) (request : Request)
                                  (action : string) : M Message :=
  user <- require_auth request ;;
  follow <- query (fun d =>
    find_one (pending_follow_filter follow_id (User.user_id user)) (follows d)) ;;
  match follow with
  | None => raise 404 "Follow request not found"
  | Some _ =>
      let new_status := new_status action in
      write (fun d => set_follows
               (update_one (follow_id_filter follow_id)
                           (Follow.set_status new_status) (follows d)) d) ;;;
      ret (mk_message (String.append "Follow request " new_status))
  end.

(* ================================================================== *)
(** ** RIDE ENDPOINTS *)

(** [update_dict = {k: v for k, v in update_data.dict().items() if v is
    not None}], tested for emptiness. *)
Definition update_dict_nonempty (u : RideUpdate.t) : bool :=
  match RideUpdate.origin u, RideUpdate.destination u, RideUpdate.date_time u,
        RideUpdate.available_seats u, RideUpdate.price u, RideUpdate.car_details u,
        RideUpdate.preferences u, RideUpdate.status u with
  | None, None, None, None, None, None, None, None => false
  | _, _, _, _, _, _, _, _ => true
  end.

Definition or_keep {A} (new : option A) (old : A) : A :=
  match new with Some v => v | None => old end.

Definition or_keep_opt {A} (new : option A) (old : option A) : option A :=
  match new with Some v => Some v | None => old end.

(** Can the driver encode [update_dict]?  The only [int] in it is
    [available_seats]. *)
Definition update_dict_encodable (u : RideUpdate.t) : bool :=
  match RideUpdate.available_seats u with
  | Some n => int64_ok n
  | None => true
  end.

(** [{"$set": update_dict}] on a ride document, as the store keeps it:
    a new [date_time] goes through [bson_datetime]. *)
Definition ride_set (u : RideUpdate.t) (r : Ride.t) : Ride.t :=
  Ride.mk (Ride.ride_id r) (Ride.user_id r)
          (or_keep (RideUpdate.origin u) (Ride.origin r))
          (or_keep (RideUpdate.destination u) (Ride.destination r))
          (or_keep (option_map bson_datetime (RideUpdate.date_time u)) (Ride.date_time r))
          (or_keep (RideUpdate.available_seats u) (Ride.available_seats r))
          (or_keep_opt (RideUpdate.price u) (Ride.price r))
          (or_keep_opt (RideUpdate.car_details u) (Ride.car_details r))
          (or_keep_opt (RideUpdate.preferences u) (Ride.preferences r))
          (Ride.ride_type r)
          (or_keep (RideUpdate.status u) (Ride.status r))
          (Ride.created_at r).

(** The filter [{"ride_id": ride_id}]. *)
Definition ride_filter (ride_id : string) (r : Ride.t) : bool :=
  (Ride.ride_id r =? ride_id)%string.

Definition update_ride (ride_id : string) (request : Request)
                       (update_data : RideUpdate.t) : M Ride.t :=
  user <- require_auth request ;;
  ride <- query (fun d => find_one (ride_filter ride_id) (rides d)) ;;
  match ride with
  | None => raise 404 "Ride not found"
  | Some ride =>
      if negb (Ride.user_id ride =? User.user_id user)%string
      then raise 403 "Not authorized" else
      (if update_dict_nonempty update_data
       then
         if update_dict_encodable update_data
         then write (fun d => set_rides
                       (update_one (ride_filter ride_id) (ride_set update_data) (rides d)) d)
         else internal_server_error
       else ret tt) ;;;
      updated_ride <- query (fun d => find_one (ride_filter ride_id) (rides d)) ;;
      match updated_ride with
      | Some updated_ride => ret updated_ride
      | None => internal_server_error
      end
  end.

Definition delete_ride (ride_id : string) (request : Request) : M Message :=
  user <- require_auth request ;;
  ride <- query (fun d => find_one (ride_filter ride_id) (rides d)) ;;
  match ride with
  | None => raise 404 "Ride not found"
  | Some ride =>
      if negb (Ride.user_id ride =? User.user_id user)%string
      then raise 403 "Not authorized" else
      write (fun d => set_rides (delete_one (ride_filter ride_id) (rides d)) d) ;;;
      ret (mk_message "Ride deleted")
  end.

(* ================================================================== *)
(** ** RIDE REQUEST ENDPOINTS *)

(** The filter [{"ride_id": r, "requester_id": u, "status": {"$in":
    ["pending", "accepted"]}}]. *)
Definition open_request_filter (ride_id requester_id : string) (q : RideRequest.t) : bool :=
  (RideRequest.ride_id q =? ride_id)%string
  && (RideRequest.requester_id q =? requester_id)%string
  && existsb (String.eqb (RideRequest.status q)) ["pending"; "accepted"].

(** The filter [{"request_id": request_id}]. *)
Definition request_filter (request_id : string) (q : RideRequest.t) : bool :=
  (RideRequest.request_id q =? request_id)%string.

Definition request_ride (request : Request) (req_data : RideRequestCreate.t)
  : M RideRequest.t :=
  user <- require_auth request ;;
  ride <- query (fun d => find_one (ride_filter (RideRequestCreate.ride_id req_data)) (rides d)) ;;
  match ride with
  | None => raise 404 "Ride not found"
  | Some ride =>
      if (Ride.user_id ride =? User.user_id user)%string
      then raise 400 "Cannot request your own ride" else
      existing <- query (fun d =>
        find_one (open_request_filter (RideRequestCreate.ride_id req_data)
                                      (User.user_id user)) (ride_requests d)) ;;
      match existing with
      | Some _ => raise 400 "Already requested this ride"
      | None =>
          request_id <- fresh_id "req" ;;
          created <- datetime_now_utc ;;
          let request_doc :=
            RideRequest.mk request_id (RideRequestCreate.ride_id req_data)
                           (User.user_id user) "pending"
                           (RideRequestCreate.message req_data) created in
          write (fun d => set_ride_requests (insert_one request_doc (ride_requests d)) d) ;;;
          ret request_doc
      end
  end.

Definition respond_ride_request (request_id : string) (request : Request)
                                (action : string) : M Message :=
  user <- require_auth request ;;
  ride_request <- query (fun d => find_one (request_filter request_id) (ride_requests d)) ;;
  match ride_request with
  | None => raise 404 "Request not found"
  | Some ride_request =>
      ride <- query (fun d =>
        find_one (ride_filter (RideRequest.ride_id ride_request)) (rides d)) ;;
      match ride with
      | None => raise 403 "Not authorized"
      | Some ride =>
          if negb (Ride.user_id ride =? User.user_id user)%string
          then raise 403 "Not authorized" else
          let new_status := new_status action in
          write (fun d => set_ride_requests
                   (update_one (request_filter request_id)
                               (RideRequest.set_status new_status) (ride_requests d)) d) ;;;
          (if (new_status =? "accepted")%string && (0 <? Ride.available_seats ride)
           then write (fun d => set_rides
                         (update_one (ride_filter (RideRequest.ride_id ride_request))
                                     (Ride.inc_available_seats (-1)) (rides d)) d)
           else ret tt) ;;;
          ret (mk_message (String.append "Request " new_status))
      end
  end.

(* ================================================================== *)
(** ** Stores reached by a successful call *)

(** The store after the owner's response went through: the status write,
    then the seat decrement when the response accepts and the ride read
    at the start of the call had a free seat. *)
Definition responded_store (request_id : string) (rr : RideRequest.t) (ride : Ride.t)
                           (action : string) (d : DB) : DB :=
  let d1 := set_ride_requests
              (update_one (request_filter request_id)
                          (RideRequest.set_status (new_status action)) (ride_requests d)) d in
  if (new_status action =? "accepted")%string && (0 <? Ride.available_seats ride)
  then set_rides (update_one (ride_filter (RideRequest.ride_id rr))
                             (Ride.inc_available_seats (-1)) (rides d1)) d1
  else d1.

(** The document [request_ride] stores, built from the next random draw
    and the next clock reading of the world the handler body starts in. *)
Definition new_request_doc (user : User.t) (req_data : RideRequestCreate.t) (w1 : World)
  : RideRequest.t :=
  RideRequest.mk (String.append "req" (String.append "_" (String.substring 0 12
                                                           (entropy w1 (draws w1)))))
                 (RideRequestCreate.ride_id req_data) (User.user_id user) "pending"
                 (RideRequestCreate.message req_data)
                 (mk_datetime (clock w1 (ticks w1)) (Some 0)).

(** The edge [follow_user] stores, built from the next random draw and
    the next clock reading of the world the handler body starts in. *)
Definition new_follow_doc (user : User.t) (follow_req : FollowRequest.t)
                          (target_user : User.t) (w1 : World) : Follow.t :=
  Follow.mk (String.append "follow" (String.append "_" (String.substring 0 12
                                                          (entropy w1 (draws w1)))))
            (User.user_id user) (FollowRequest.following_id follow_req)
            (if User.is_public target_user then "accepted" else "pending")
            (mk_datetime (clock w1 (ticks w1)) (Some 0)).

(** The shape of the follow collection the handlers maintain: no edge
    from a user to itself, and every edge points at a stored user. *)
Definition follows_wf (d : DB) : Prop :=
  forall e, In e (follows d) ->
    Follow.follower_id e <> Follow.following_id e /\
    exists u, find_one (user_filter (Follow.following_id e)) (users d) = Some u.

(* ================================================================== *)
(** ** A small deployment used to run the handlers *)

Module Demo.

Definition t0 : datetime := mk_datetime 0 None.

Definition alice : User.t :=
  User.mk "user_alice" (Some "alice@example.com") None "Alice" None (Some "driver")
          "rider" true "email" t0.
Definition bob : User.t :=
  User.mk "user_bob" (Some "bob@example.com") (Some "555-0101") "Bob" None (Some "hiker")
          "passenger" false "email" t0.
Definition carol : User.t :=
  User.mk "user_carol" None (Some "555-0199") "Carol" None None
          "passenger" true "phone" t0.

(** Alice's and Bob's sessions are live at every clock reading below
    1000; Carol's expired at 5 and its row is still stored; the last
    session points at a user that does not exist. *)
Definition sessions : list Session.t :=
  [ Session.mk "user_alice" "tok-alice" (mk_datetime 1000 None) t0;
    Session.mk "user_bob" "tok-bob" (mk_datetime 1000 (Some 0)) t0;
    Session.mk "user_carol" "tok-carol" (mk_datetime 5 None) t0;
    Session.mk "user_ghost" "tok-ghost" (mk_datetime 1000 None) t0 ].

Definition passwords : list Password.t :=
  [ Password.mk "user_alice" "hash:wonderland" ].

Definition ride (seats : Z) : Ride.t :=
  Ride.mk "ride_1" "user_alice" "Lyon" "Paris" t0 seats None None None
          "offering" "active" t0.

Definition ask (status : string) : RideRequest.t :=
  RideRequest.mk "req_1" "ride_1" "user_bob" status (Some "please") t0.

Definition edge (status : string) : Follow.t :=
  Follow.mk "follow_1" "user_alice" "user_bob" status t0.

Definition store (fs : list Follow.t) (rs : list Ride.t) (qs : list RideRequest.t) : DB :=
  mk_db [alice; bob; carol] passwords sessions fs rs qs.

(** The clock reads 10, 11, 12, ...; the generator yields the same hex
    text at every draw. *)
Definition world (d : DB) : World :=
  mk_world d (fun k => 10 + Z.of_nat k) 0 (fun _ => "0123456789abcdef0123456789abcdef") 0.

Definition as_user (tok : string) : Request := mk_request (Some tok) None.
Definition with_bearer (tok : string) : Request :=
  mk_request None (Some (String.append "Bearer " tok)).
Definition anonymous : Request := mk_request None None.

(** A stand-in for [bcrypt.checkpw] that never raises: the stored text
    is the password behind a fixed tag. *)
Definition checkpw (password hashed : string) : option bool :=
  Some (String.append "hash:" password =? hashed)%string.

(** The same comparison with the length test of bcrypt 5.0: a password
    longer than 72 bytes raises. *)
Definition checkpw_72 (password hashed : string) : option bool :=
  if (72 <? String.length password)%nat then None else checkpw password hashed.

(** Stand-ins for [bcrypt.hashpw]: the tag in front of the password,
    whatever the salt, without and with the length test. *)
Definition hashpw (password salt : string) : option string :=
  Some (String.append "hash:" password).
Definition hashpw_72 (password salt : string) : option string :=
  if (72 <? String.length password)%nat then None else hashpw password salt.

(** A password of 73 bytes. *)
Definition long_password : string :=
  "0123456789012345678901234567890123456789012345678901234567890123456789012".

End Demo.

(* ================================================================== *)
(** ** The remaining request bodies *)

(** [UserCreate]: the body of [POST /auth/register]. *)
Module UserCreate.
Record t := mk {
  email : option string;
  phone : option string;
  password : option string;
  name : string;
  auth_type : string
}.
End UserCreate.

(** [UserUpdate]: the body of [PUT /users/me]. *)
Module UserUpdate.
Record t := mk {
  name : option string;
  bio : option string;
  profile_picture : option string;
  profile_type : option string;
  is_public : option bool
}.
End UserUpdate.

(** [RideCreate]: the body of [POST /rides]. *)
Module RideCreate.
Record t := mk {
  origin : string;
  destination : string;
  date_time : datetime;
  available_seats : Z;
  price : option float;
  car_details : option string;
  preferences : option string;
  ride_type : string
}.
End RideCreate.

(** What the identity provider answers for a session id: the fields
    [google_callback] reads of [resp.json()]. *)
Module SessionData.
Record t := mk {
  email : string;
  name : string;
  picture : option string;
  session_token : string
}.
End SessionData.

(** [str(n)] for an [int]. *)
Definition str_of_int (n : Z) : string := NilZero.string_of_int (Z.to_int n).

(** The filters [{"email": e}], [{"phone": p}] and [{"auth_type": a}] on
    [users]. *)
Definition email_filter (e : string) (u : User.t) : bool := opt_str_eqb (User.email u) e.
Definition phone_filter (p : string) (u : User.t) : bool := opt_str_eqb (User.phone u) p.
Definition auth_type_filter (a : string) (u : User.t) : bool :=
  (User.auth_type u =? a)%string.

Definition set_users (l : list User.t) (d : DB) : DB :=
  mk_db l (user_passwords d) (user_sessions d) (follows d) (rides d) (ride_requests d).
Definition set_user_passwords (l : list Password.t) (d : DB) : DB :=
  mk_db (users d) l (user_sessions d) (follows d) (rides d) (ride_requests d).

(** The block every sign-in handler ends with: the session row, valid
    for seven days from the first clock reading, created at the second;
    the store keeps both dates as [bson_datetime] has them. *)
Definition insert_session (user_id session_token : string) : M unit :=
  expires <- datetime_now_utc ;;
  created <- datetime_now_utc ;;
  write (fun d => set_user_sessions
           (insert_one (Session.mk user_id session_token
                                   (bson_datetime (add_days expires 7))
                                   (bson_datetime created))
                       (user_sessions d)) d).

(* ================================================================== *)
(** ** AUTH ENDPOINTS, continued *)

Section Register.

(** [bcrypt.hashpw(password.encode(), salt).decode()]: [Some h] when
    the library returns [h], [None] when it raises [ValueError] (as it
    does, from version 5.0 on, for a password longer than 72 bytes). *)
Variable hashpw : string -> string -> option string.

(** [hash_password]: the salt is a random draw ([bcrypt.gensalt()]);
    nothing catches the library's exception. *)
Definition hash_password (password : string) : M string :=
  salt <- random_text ;;
  match hashpw password salt with
  | Some password_hash => ret password_hash
  | None => internal_server_error
  end.

Definition register (user_data : UserCreate.t) : M (AuthResponse.t * Cookie) :=
  (match UserCreate.email user_data with
   | Some e =>
       if truthy (Some e) then
         existing <- query (fun d => find_one (email_filter e) (users d)) ;;
         match existing with
         | Some _ => raise 400 "Email already registered"
         | None => ret tt
         end
       else ret tt
   | None => ret tt
   end) ;;;
  (match UserCreate.phone user_data with
   | Some p =>
       if truthy (Some p) then
         existing <- query (fun d => find_one (phone_filter p) (users d)) ;;
         match existing with
         | Some _ => raise 400 "Phone already registered"
         | None => ret tt
         end
       else ret tt
   | None => ret tt
   end) ;;;
  user_id <- fresh_id "user" ;;
  created <- datetime_now_utc ;;
  let user_doc :=
    User.mk user_id (UserCreate.email user_data) (UserCreate.phone user_data)
            (UserCreate.name user_data) None None "passenger" true
            (UserCreate.auth_type user_data) created in
  (match UserCreate.password user_data with
   | Some password =>
       if truthy (Some password) && (UserCreate.auth_type user_data =? "email")%string then
         password_hash <- hash_password password ;;
         write (fun d => set_user_passwords
                  (insert_one (Password.mk user_id password_hash) (user_passwords d)) d)
       else ret tt
   | None => ret tt
   end) ;;;
  write (fun d => set_users (insert_one (stored_user user_doc) (users d)) d) ;;;
  session_token <- random_text ;;
  insert_session user_id session_token ;;;
  ret (AuthResponse.mk user_id session_token (UserCreate.name user_data),
       session_cookie session_token).

End Register.

Definition guest_login : M (AuthResponse.t * Cookie) :=
  user_id <- fresh_id "guest" ;;
  count <- query (fun d => count_documents (auth_type_filter "guest") (users d)) ;;
  let guest_num := count + 1 in
  created <- datetime_now_utc ;;
  let user_doc :=
    User.mk user_id None None (String.append "Guest User " (str_of_int guest_num))
            None None "passenger" true "guest" created in
  write (fun d => set_users (insert_one (stored_user user_doc) (users d)) d) ;;;
  session_token <- random_text ;;
  insert_session user_id session_token ;;;
  ret (AuthResponse.mk user_id session_token (User.name user_doc),
       session_cookie session_token).

Section GoogleCallback.

(** The identity provider: [None] when it does not answer 200. *)
Variable session_data : string -> option SessionData.t.

Definition google_callback (body_session_id : option string)
  : M (AuthResponse.t * Cookie) :=
  match body_session_id with
  | None => raise 400 "session_id required"
  | Some session_id =>
      if negb (truthy (Some session_id)) then raise 400 "session_id required" else
      match session_data session_id with
      | None => raise 401 "Invalid session"
      | Some user_data =>
          existing_user <- query (fun d =>
            find_one (email_filter (SessionData.email user_data)) (users d)) ;;
          user_id <-
            match existing_user with
            | Some existing_user => ret (User.user_id existing_user)
            | None =>
                user_id <- fresh_id "user" ;;
                created <- datetime_now_utc ;;
                write (fun d => set_users
                         (insert_one
                            (stored_user
                               (User.mk user_id (Some (SessionData.email user_data)) None
                                        (SessionData.name user_data)
                                        (SessionData.picture user_data) None
                                        "passenger" true "google" created))
                            (users d)) d) ;;;
                ret user_id
            end ;;
          let session_token := SessionData.session_token user_data in
          insert_session user_id session_token ;;;
          ret (AuthResponse.mk user_id session_token (SessionData.name user_data),
               session_cookie session_token)
      end
  end.

End GoogleCallback.

Definition get_me (request : Request) : M User.t :=
  user <- get_current_user request ;;
  match user with
  | None => raise 401 "Not authenticated"
  | Some user => ret user
  end.

(** [logout]: the store side of the handler; it also clears the cookie
    on the response, which carries no state of the store. *)
Definition logout (request : Request) : M Message :=
  let session_token := request_session_token request in
  (match session_token with
   | Some tok =>
       if truthy session_token
       then write (fun d => set_user_sessions
                     (delete_one (session_filter tok) (user_sessions d)) d)
       else ret tt
   | None => ret tt
   end) ;;;
  ret (mk_message "Logged out").

(* ================================================================== *)
(** ** USER ENDPOINTS, continued *)

Definition get_current_user_profile (request : Request) : M User.t :=
  require_auth request.

(** [update_dict] of [update_profile], tested for emptiness. *)
Definition profile_dict_nonempty (u : UserUpdate.t) : bool :=
  match UserUpdate.name u, UserUpdate.bio u, UserUpdate.profile_picture u,
        UserUpdate.profile_type u, UserUpdate.is_public u with
  | None, None, None, None, None => false
  | _, _, _, _, _ => true
  end.

(** [{"$set": update_dict}] on a user document. *)
Definition user_set (u : UserUpdate.t) (x : User.t) : User.t :=
  User.mk (User.user_id x) (User.email x) (User.phone x)
          (or_keep (UserUpdate.name u) (User.name x))
          (or_keep_opt (UserUpdate.profile_picture u) (User.profile_picture x))
          (or_keep_opt (UserUpdate.bio u) (User.bio x))
          (or_keep (UserUpdate.profile_type u) (User.profile_type x))
          (or_keep (UserUpdate.is_public u) (User.is_public x))
          (User.auth_type x) (User.created_at x).

Definition update_profile (request : Request) (update_data : UserUpdate.t) : M User.t :=
  user <- require_auth request ;;
  (if profile_dict_nonempty update_data
   then write (fun d => set_users
                 (update_one (user_filter (User.user_id user)) (user_set update_data)
                             (users d)) d)
   else ret tt) ;;;
  updated_user <- query (fun d => find_one (user_filter (User.user_id user)) (users d)) ;;
  match updated_user with
  | Some updated_user => ret updated_user
  | None => internal_server_error
  end.


(* ================================================================== *)
(** ** Cursors and joins *)

(** [for x in l: r = await body(x); if r: result.append(r)] *)
Fixpoint collect {A B} (body : A -> M (option B)) (l : list A) : M (list B) :=
  match l with
  | [] => ret []
  | x :: l' =>
      r <- body x ;;
      rest <- collect body l' ;;
      ret (match r with Some b => b :: rest | None => rest end)
  end.

(** [cursor.to_list(n)] *)
Definition to_list {A} (n : nat) (l : list A) : list A := firstn n l.

(** [cursor.sort("created_at", -1)]: newest first; documents created at
    the same instant keep their stored order. *)
Fixpoint insert_newest {A} (key : A -> datetime) (x : A) (l : list A) : list A :=
  match l with
  | [] => [x]
  | y :: l' =>
      if utc_instant (key y) <=? utc_instant (key x)
      then x :: y :: l'
      else y :: insert_newest key x l'
  end.

Fixpoint sort_newest_first {A} (key : A -> datetime) (l : list A) : list A :=
  match l with
  | [] => []
  | x :: l' => insert_newest key x (sort_newest_first key l')
  end.

(* ================================================================== *)
(** ** FOLLOW ENDPOINTS, continued *)

(** The filters [{"following_id": u, "status": s}] and
    [{"follower_id": u, "status": s}]. *)
Definition following_status_filter (user_id status : string) (f : Follow.t) : bool :=
  (Follow.following_id f =? user_id)%string && (Follow.status f =? status)%string.
Definition follower_status_filter (user_id status : string) (f : Follow.t) : bool :=
  (Follow.follower_id f =? user_id)%string && (Follow.status f =? status)%string.

Definition get_follow_requests (request : Request) : M (list (Follow.t * User.t)) :=
  user <- require_auth request ;;
  requests <- query (fun d =>
    to_list 100 (filter (following_status_filter (User.user_id user) "pending") (follows d))) ;;
  collect (fun req =>
             follower <- query (fun d =>
               find_one (user_filter (Follow.follower_id req)) (users d)) ;;
             ret (option_map (fun follower => (req, follower)) follower))
          requests.

Definition get_followers (user_id : string) : M (list User.t) :=
  followers <- query (fun d =>
    to_list 1000 (filter (following_status_filter user_id "accepted") (follows d))) ;;
  collect (fun f => query (fun d => find_one (user_filter (Follow.follower_id f)) (users d)))
          followers.

Definition get_following (user_id : string) : M (list User.t) :=
  following <- query (fun d =>
    to_list 1000 (filter (follower_status_filter user_id "accepted") (follows d))) ;;
  collect (fun f => query (fun d => find_one (user_filter (Follow.following_id f)) (users d)))
          following.

(** [{"is_following": ..., "status": ...}] *)
Record FollowStatus := mk_follow_status { is_following : bool; follow_status : option string }.

Definition get_follow_status (user_id : string) (request : Request) : M FollowStatus :=
  current_user <- get_current_user request ;;
  match current_user with
  | None => ret (mk_follow_status false None)
  | Some current_user =>
      follow <- query (fun d =>
        find_one (edge_filter (User.user_id current_user) user_id) (follows d)) ;;
      match follow with
      | None => ret (mk_follow_status false None)
      | Some follow =>
          ret (mk_follow_status (Follow.status follow =? "accepted")%string
                                (Some (Follow.status follow)))
      end
  end.

(* ================================================================== *)
(** ** RIDE ENDPOINTS, continued *)

Definition create_ride (request : Request) (ride_data : RideCreate.t) : M Ride.t :=
  user <- require_auth request ;;
  ride_id <- fresh_id "ride" ;;
  created <- datetime_now_utc ;;
  let ride_doc :=
    Ride.mk ride_id (User.user_id user) (RideCreate.origin ride_data)
            (RideCreate.destination ride_data) (RideCreate.date_time ride_data)
            (RideCreate.available_seats ride_data) (RideCreate.price ride_data)
            (RideCreate.car_details ride_data) (RideCreate.preferences ride_data)
            (RideCreate.ride_type ride_data) "active" created in
  (if int64_ok (Ride.available_seats ride_doc)
   then write (fun d => set_rides (insert_one (stored_ride ride_doc) (rides d)) d)
   else internal_server_error) ;;;
  ret ride_doc.

(** The filter [{"user_id": u}] on [rides]. *)
Definition owner_filter (user_id : string) (r : Ride.t) : bool :=
  (Ride.user_id r =? user_id)%string.

Definition get_my_rides (request : Request) : M (list Ride.t) :=
  user <- require_auth request ;;
  query (fun d =>
    to_list 100 (sort_newest_first Ride.created_at
                   (filter (owner_filter (User.user_id user)) (rides d)))).

(** The ride together with its owner, when the owner is stored. *)
Definition get_ride (ride_id : string) : M (Ride.t * option User.t) :=
  ride <- query (fun d => find_one (ride_filter ride_id) (rides d)) ;;
  match ride with
  | None => raise 404 "Ride not found"
  | Some ride =>
      user <- query (fun d => find_one (user_filter (Ride.user_id ride)) (users d)) ;;
      ret (ride, user)
  end.

(* ================================================================== *)
(** ** RIDE REQUEST ENDPOINTS, continued *)

(** The filter [{"requester_id": u}]. *)
Definition requester_filter (user_id : string) (q : RideRequest.t) : bool :=
  (RideRequest.requester_id q =? user_id)%string.

(** The filter [{"ride_id": {"$in": ride_ids}}]. *)
Definition ride_in_filter (ride_ids : list string) (q : RideRequest.t) : bool :=
  existsb (String.eqb (RideRequest.ride_id q)) ride_ids.

Definition get_my_ride_requests (request : Request)
  : M (list (RideRequest.t * option Ride.t)) :=
  user <- require_auth request ;;
  requests <- query (fun d =>
    to_list 100 (sort_newest_first RideRequest.created_at
                   (filter (requester_filter (User.user_id user)) (ride_requests d)))) ;;
  collect (fun req =>
             ride <- query (fun d =>
               find_one (ride_filter (RideRequest.ride_id req)) (rides d)) ;;
             ret (Some (req, ride)))
          requests.

Definition get_received_requests (request : Request)
  : M (list (RideRequest.t * option User.t * option Ride.t)) :=
  user <- require_auth request ;;
  my_rides <- query (fun d =>
    to_list 100 (filter (owner_filter (User.user_id user)) (rides d))) ;;
  let ride_ids := map Ride.ride_id my_rides in
  match ride_ids with
  | [] => ret []
  | _ :: _ =>
      requests <- query (fun d =>
        to_list 100 (sort_newest_first RideRequest.created_at
                       (filter (ride_in_filter ride_ids) (ride_requests d)))) ;;
      collect (fun req =>
                 requester <- query (fun d =>
                   find_one (user_filter (RideRequest.requester_id req)) (users d)) ;;
                 ride <- query (fun d =>
                   find_one (ride_filter (RideRequest.ride_id req)) (rides d)) ;;
                 ret (Some (req, requester, ride)))
              requests
  end.

(* ================================================================== *)
(** ** STATS ENDPOINTS *)

(** [{"followers": ..., "following": ..., "rides": ...}] *)
Record Stats := mk_stats { stats_followers : Z; stats_following : Z; stats_rides : Z }.

Definition get_user_stats (user_id : string) : M Stats :=
  followers_count <- query (fun d =>
    count_documents (following_status_filter user_id "accepted") (follows d)) ;;
  following_count <- query (fun d =>
    count_documents (follower_status_filter user_id "accepted") (follows d)) ;;
  rides_count <- query (fun d => count_documents (owner_filter user_id) (rides d)) ;;
  ret (mk_stats followers_count following_count rides_count).


(* ================================================================== *)
(** ** Ways of describing an outcome *)

(** The call was refused with the given exception and the store is the
    one of [w]. *)
Definition refused_with {A} (code : Z) (msg : string) (w : World)
                        (out : Outcome A * World) : Prop :=
  fst out = Raise (mk_exn code msg) /\ db (snd out) = db w.


(* ================================================================== *)
(** ** What a registration stores *)

(** Does [register] store a credential? *)
Definition register_hashes (user_data : UserCreate.t) : bool :=
  match UserCreate.password user_data with
  | Some password =>
      truthy (Some password) && (UserCreate.auth_type user_data =? "email")%string
  | None => false
  end.

(** The id, the user document as built in memory, the token and the
    store a registration that passes both uniqueness tests ends with,
    from the draws and the clock readings of the world [w] it starts
    in. *)
Definition register_user_id (w : World) : string :=
  String.append "user" (String.append "_" (String.substring 0 12 (entropy w (draws w)))).

Definition register_user_doc (user_data : UserCreate.t) (w : World) : User.t :=
  User.mk (register_user_id w) (UserCreate.email user_data) (UserCreate.phone user_data)
          (UserCreate.name user_data) None None "passenger" true
          (UserCreate.auth_type user_data) (mk_datetime (clock w (ticks w)) (Some 0)).

Definition register_token (user_data : UserCreate.t) (w : World) : string :=
  entropy w (if register_hashes user_data then S (S (draws w)) else S (draws w)).

Definition register_session (user_data : UserCreate.t) (w : World) : Session.t :=
  Session.mk (register_user_id w) (register_token user_data w)
             (bson_datetime (add_days (mk_datetime (clock w (S (ticks w))) (Some 0)) 7))
             (bson_datetime (mk_datetime (clock w (S (S (ticks w)))) (Some 0))).

(** The hash a registration stores: the password of the body hashed
    under the second draw, when a credential is stored and the library
    returns. *)
Definition register_password_hash (hashpw : string -> string -> option string)
                                  (user_data : UserCreate.t) (w : World) : option string :=
  match UserCreate.password user_data with
  | Some password =>
      if register_hashes user_data then hashpw password (entropy w (S (draws w))) else None
  | None => None
  end.

(** The hashing a registration performs, if any, returns. *)
Definition register_hash_returns (hashpw : string -> string -> option string)
                                 (user_data : UserCreate.t) (w : World) : Prop :=
  register_hashes user_data = true -> register_password_hash hashpw user_data w <> None.

Definition registered_store (hashpw : string -> string -> option string)
                            (user_data : UserCreate.t) (w : World) : DB :=
  let d := db w in
  let d1 :=
    match register_password_hash hashpw user_data w with
    | Some password_hash =>
        set_user_passwords
          (insert_one (Password.mk (register_user_id w) password_hash) (user_passwords d)) d
    | None => d
    end in
  let d2 := set_users (insert_one (stored_user (register_user_doc user_data w)) (users d1))
                      d1 in
  set_user_sessions (insert_one (register_session user_data w) (user_sessions d2)) d2.

(** Both uniqueness tests of [register] pass: the email, when one is
    given, belongs to no stored user, and neither does the phone. *)
Definition register_admissible (user_data : UserCreate.t) (d : DB) : Prop :=
  (forall e, UserCreate.email user_data = Some e -> e <> "" ->
             find_one (email_filter e) (users d) = None) /\
  (forall p, UserCreate.phone user_data = Some p -> p <> "" ->
             find_one (phone_filter p) (users d) = None).


(* ================================================================== *)
(** ** What guest and provider sign-ins store *)

(** The user document [guest_login] builds from the world it starts in. *)
Definition guest_user_doc (w : World) : User.t :=
  User.mk (String.append "guest" (String.append "_" (String.substring 0 12
                                                       (entropy w (draws w)))))
          None None
          (String.append "Guest User "
             (str_of_int (count_documents (auth_type_filter "guest") (users (db w)) + 1)))
          None None "passenger" true "guest" (mk_datetime (clock w (ticks w)) (Some 0)).

(** The user document [google_callback] builds for an email it does not
    know yet. *)
Definition google_user_doc (user_data : SessionData.t) (w : World) : User.t :=
  User.mk (String.append "user" (String.append "_" (String.substring 0 12
                                                      (entropy w (draws w)))))
          (Some (SessionData.email user_data)) None (SessionData.name user_data)
          (SessionData.picture user_data) None "passenger" true "google"
          (mk_datetime (clock w (ticks w)) (Some 0)).

(** No two stored users share a non-empty email, nor a non-empty phone. *)
Definition contacts_unique (d : DB) : Prop :=
  (forall e, e <> "" -> count_documents (email_filter e) (users d) <= 1) /\
  (forall p, p <> "" -> count_documents (phone_filter p) (users d) <= 1).


(* ================================================================== *)
(** ** Shapes of the follow and request collections *)

(** At most one edge per ordered pair of users. *)
Definition edges_unique (d : DB) : Prop :=
  forall a b, count_documents (edge_filter a b) (follows d) <= 1.

(** At most one pending-or-accepted request per ride and requester. *)
Definition open_requests_unique (d : DB) : Prop :=
  forall r u, count_documents (open_request_filter r u) (ride_requests d) <= 1.




(** A list is newest first when no element is older than one that comes
    after it. *)
Definition newest_first {A} (key : A -> datetime) (l : list A) : Prop :=
  StronglySorted (fun a b => utc_instant (key b) <= utc_instant (key a)) l.

(** Does [s] contain an occurrence of [pat]? *)
Fixpoint contains (pat s : string) : bool :=
  String.prefix pat s ||
  match s with
  | EmptyString => false
  | String _ s' => contains pat s'
  end.

(** Unfolds the handler monad down to functions on worlds. *)
Ltac unfold_handler_monad :=
  unfold fresh_id, insert_session, hash_password;
  unfold bind, query, write, ret, raise, random_text, datetime_now_utc,
         internal_server_error.

(* ================================================================== *)
(** * Properties *)

(** ** Collections *)

Section CollectionFacts.
Context {A : Type}.
Implicit Types (flt : A -> bool) (upd : A -> A) (l : list A).

Lemma find_one_some_in flt l x : find_one flt l = Some x -> In x l /\ flt x = true.
Proof. apply find_some. Qed.

Lemma find_one_none_all flt l : find_one flt l = None -> forall x, In x l -> flt x = false.
Proof. apply find_none. Qed.

Lemma update_one_miss flt upd l : find_one flt l = None -> update_one flt upd l = l.
Proof.
  induction l as [|y l IH]; cbn; [reflexivity|].
  destruct (flt y); [discriminate|]. intros H. now rewrite IH.
Qed.

Lemma find_one_update_one flt upd l x :
  find_one flt l = Some x -> flt (upd x) = true ->
  find_one flt (update_one flt upd l) = Some (upd x).
Proof.
  induction l as [|y l IH]; cbn; [discriminate|].
  destruct (flt y) eqn:Hy; intros Hx Hu.
  - injection Hx as ->. cbn. now rewrite Hu.
  - cbn. rewrite Hy. now apply IH.
Qed.

Lemma update_one_length flt upd l :
  List.length (update_one flt upd l) = List.length l.
Proof.
  induction l as [|y l IH]; cbn; [reflexivity|].
  destruct (flt y); cbn; congruence.
Qed.

(** [update_one] rewrites at most one document and leaves the others
    in place. *)
Lemma update_one_Forall2 flt upd l :
  Forall2 (fun x y => y = x \/ (flt x = true /\ y = upd x)) l (update_one flt upd l).
Proof.
  induction l as [|y l IH]; cbn; [constructor|].
  destruct (flt y) eqn:Hy.
  - constructor; [right; auto|]. clear. induction l; constructor; auto.
  - constructor; auto.
Qed.

Lemma delete_one_miss flt l : find_one flt l = None -> delete_one flt l = l.
Proof.
  induction l as [|y l IH]; cbn; [reflexivity|].
  destruct (flt y); [discriminate|]. intros H. now rewrite IH.
Qed.

Lemma deleted_count_find flt l :
  deleted_count flt l = match find_one flt l with Some _ => 1 | None => 0 end.
Proof.
  unfold deleted_count. induction l as [|y l IH]; cbn; [reflexivity|].
  destruct (flt y); cbn; auto.
Qed.

Lemma find_one_insert_one flt l doc :
  find_one flt (insert_one doc l) =
  match find_one flt l with
  | Some x => Some x
  | None => if flt doc then Some doc else None
  end.
Proof.
  unfold insert_one. induction l as [|y l IH]; cbn; [reflexivity|].
  destruct (flt y); auto.
Qed.

Lemma count_documents_insert_one flt l doc :
  count_documents flt (insert_one doc l) =
  count_documents flt l + (if flt doc then 1 else 0).
Proof.
  unfold count_documents, insert_one. rewrite filter_app, length_app. cbn.
  destruct (flt doc); cbn; lia.
Qed.

Lemma count_documents_zero flt l : find_one flt l = None -> count_documents flt l = 0.
Proof.
  unfold count_documents. induction l as [|y l IH]; cbn; [reflexivity|].
  destruct (flt y); [discriminate|]. auto.
Qed.

End CollectionFacts.

(** ** The handler monad *)

Lemma bind_return {A B} (c : M A) (k : A -> M B) w a w' :
  c w = (Return a, w') -> bind c k w = k a w'.
Proof. unfold bind. now intros ->. Qed.

Lemma bind_raise {A B} (c : M A) (k : A -> M B) w e w' :
  c w = (Raise e, w') -> bind c k w = (Raise e, w').
Proof. unfold bind. now intros ->. Qed.

Lemma with_db_db d w : db (with_db d w) = d.
Proof. reflexivity. Qed.

Lemma with_db_idem d d' w : with_db d (with_db d' w) = with_db d w.
Proof. reflexivity. Qed.

Lemma with_db_same w : with_db (db w) w = w.
Proof. now destruct w. Qed.

(** ** Session resolution *)

(** Resolution never raises and never writes: it only reads the store
    and, when a session row is found, the clock. *)
Lemma get_current_user_reads request w :
  exists o w', get_current_user request w = (Return o, w') /\ db w' = db w.
Proof.
  unfold get_current_user.
  destruct (negb (truthy (request_session_token request))); [now eexists _, _|].
  destruct (request_session_token request) as [tok|]; [|now eexists _, _].
  unfold bind, query, datetime_now_utc, ret. cbn.
  destruct (find_one _ (user_sessions (db w))) as [s|]; [|now eexists _, _].
  destruct (datetime_le _ _); now eexists _, _.
Qed.

Lemma get_current_user_db request w o w' :
  get_current_user request w = (o, w') -> db w' = db w.
Proof.
  destruct (get_current_user_reads request w) as (o1 & w1 & E & Hdb).
  rewrite E. now intros [= <- <-].
Qed.

Lemma require_auth_return request w user w1 :
  get_current_user request w = (Return (Some user), w1) ->
  require_auth request w = (Return user, w1).
Proof. intros H. unfold require_auth. now rewrite (bind_return _ _ _ _ _ H). Qed.

Lemma require_auth_raise request w w1 :
  get_current_user request w = (Return None, w1) ->
  require_auth request w = (Raise (mk_exn 401 "Not authenticated"), w1).
Proof. intros H. unfold require_auth. now rewrite (bind_return _ _ _ _ _ H). Qed.

Lemma require_auth_db request w o w' :
  require_auth request w = (o, w') -> db w' = db w.
Proof.
  destruct (get_current_user_reads request w) as ([u|] & w1 & E & Hdb).
  - rewrite (require_auth_return _ _ _ _ E). now intros [= <- <-].
  - rewrite (require_auth_raise _ _ _ E). now intros [= <- <-].
Qed.

(** ** Responding to a ride request *)

Lemma respond_ride_request_run request_id request action w user w1 rr ride :
  get_current_user request w = (Return (Some user), w1) ->
  find_one (request_filter request_id) (ride_requests (db w)) = Some rr ->
  find_one (ride_filter (RideRequest.ride_id rr)) (rides (db w)) = Some ride ->
  Ride.user_id ride = User.user_id user ->
  respond_ride_request request_id request action w =
    (Return (mk_message (String.append "Request " (new_status action))),
     with_db (responded_store request_id rr ride action (db w)) w1).
Proof.
  intros Hauth Hrr Hride Hown.
  pose proof (get_current_user_db _ _ _ _ Hauth) as Hdb.
  unfold respond_ride_request.
  rewrite (bind_return _ _ _ _ _ (require_auth_return _ _ _ _ Hauth)).
  unfold bind, query, write, ret, raise. rewrite Hdb, Hrr. cbv beta iota.
  rewrite Hdb, Hride. cbv beta iota. rewrite Hown, String.eqb_refl.
  cbn [negb]. unfold responded_store. rewrite ?with_db_db, Hdb.
  destruct ((new_status action =? "accepted")%string && (0 <? Ride.available_seats ride));
    reflexivity.
Qed.

Lemma request_filter_set_status request_id s q :
  request_filter request_id (RideRequest.set_status s q) = request_filter request_id q.
Proof. reflexivity. Qed.

Lemma ride_filter_inc ride_id n r :
  ride_filter ride_id (Ride.inc_available_seats n r) = ride_filter ride_id r.
Proof. reflexivity. Qed.

(** C1. When the ride's owner answers a request against the ride: with
    action accept and a free seat, the request becomes accepted and
    available_seats drops by exactly one; with action accept and no seat
    left (available_seats = 0), the request still becomes accepted and
    the rides are untouched; with action reject, the request becomes
    rejected and the rides are untouched.  It holds whatever the
    request's status was, pending in particular. *)
Theorem respond_ride_request_seats :
  forall request_id request action w user w1 rr ride,
    get_current_user request w = (Return (Some user), w1) ->
    find_one (request_filter request_id) (ride_requests (db w)) = Some rr ->
    find_one (ride_filter (RideRequest.ride_id rr)) (rides (db w)) = Some ride ->
    Ride.user_id ride = User.user_id user ->
    let out := respond_ride_request request_id request action w in
    let d' := db (snd out) in
    (action = "accept" -> 0 < Ride.available_seats ride ->
       fst out = Return (mk_message "Request accepted") /\
       find_one (request_filter request_id) (ride_requests d')
         = Some (RideRequest.set_status "accepted" rr) /\
       rides d' = update_one (ride_filter (RideRequest.ride_id rr))
                             (Ride.inc_available_seats (-1)) (rides (db w)) /\
       option_map Ride.available_seats
                  (find_one (ride_filter (RideRequest.ride_id rr)) (rides d'))
         = Some (Ride.available_seats ride - 1)) /\
    (action = "accept" -> Ride.available_seats ride = 0 ->
       fst out = Return (mk_message "Request accepted") /\
       find_one (request_filter request_id) (ride_requests d')
         = Some (RideRequest.set_status "accepted" rr) /\
       rides d' = rides (db w) /\
       option_map Ride.available_seats
                  (find_one (ride_filter (RideRequest.ride_id rr)) (rides d')) = Some 0) /\
    (action = "reject" ->
       fst out = Return (mk_message "Request rejected") /\
       find_one (request_filter request_id) (ride_requests d')
         = Some (RideRequest.set_status "rejected" rr) /\
       rides d' = rides (db w)).
Proof.
  intros request_id request action w user w1 rr ride Hauth Hrr Hride Hown out d'.
  subst out d'.
  rewrite (respond_ride_request_run _ _ action _ _ _ _ _ Hauth Hrr Hride Hown).
  cbn [fst snd]. rewrite with_db_db. unfold responded_store.
  destruct (find_one_some_in _ _ _ Hrr) as [_ Fq].
  destruct (find_one_some_in _ _ _ Hride) as [_ Fr].
  split; [|split].
  - intros -> Hs. change (new_status "accept") with "accepted". cbn [String.append].
    destruct (Z.ltb_spec 0 (Ride.available_seats ride)); [|lia].
    cbn [String.eqb Ascii.eqb Bool.eqb andb ride_requests rides set_rides set_ride_requests].
    repeat split.
    + now apply find_one_update_one.
    + rewrite (find_one_update_one _ _ _ _ Hride) by assumption.
      reflexivity.
  - intros -> Hs. change (new_status "accept") with "accepted". cbn [String.append].
    destruct (Z.ltb_spec 0 (Ride.available_seats ride)); [lia|].
    cbn [String.eqb Ascii.eqb Bool.eqb andb ride_requests rides set_rides set_ride_requests].
    repeat split.
    + now apply find_one_update_one.
    + now rewrite Hride, <- Hs.
  - intros ->. change (new_status "reject") with "rejected". cbn [String.append].
    cbn [String.eqb Ascii.eqb Bool.eqb andb ride_requests rides set_rides set_ride_requests].
    repeat split.
    now apply find_one_update_one.
Qed.

Lemma respond_ride_request_seats_witness :
  let w := Demo.world (Demo.store [] [Demo.ride 3] [Demo.ask "pending"]) in
  let out := respond_ride_request "req_1" (Demo.as_user "tok-alice") "accept" w in
  fst out = Return (mk_message "Request accepted") /\
  find_one (request_filter "req_1") (ride_requests (db (snd out)))
    = Some (Demo.ask "accepted") /\
  option_map Ride.available_seats (find_one (ride_filter "ride_1") (rides (db (snd out))))
    = Some 2.
Proof.
  intros w out.
  destruct (respond_ride_request_seats "req_1" (Demo.as_user "tok-alice") "accept" w
              Demo.alice _ (Demo.ask "pending") (Demo.ride 3)
              eq_refl eq_refl eq_refl eq_refl) as [H _].
  destruct (H eq_refl eq_refl) as (H1 & H2 & _ & H4).
  repeat split; assumption.
Defined.

(** Every way a call can end, seen from the store: nothing written, or
    the writes of a response that went through. *)
Lemma respond_ride_request_store request_id request action w :
  let d' := db (snd (respond_ride_request request_id request action w)) in
  d' = db w \/
  exists rr ride,
    find_one (request_filter request_id) (ride_requests (db w)) = Some rr /\
    find_one (ride_filter (RideRequest.ride_id rr)) (rides (db w)) = Some ride /\
    d' = responded_store request_id rr ride action (db w).
Proof.
  cbv zeta.
  destruct (get_current_user_reads request w) as ([user|] & w1 & Hauth & Hdb).
  2:{ left. unfold respond_ride_request.
      now rewrite (bind_raise _ _ _ _ _ (require_auth_raise _ _ _ Hauth)). }
  destruct (find_one (request_filter request_id) (ride_requests (db w))) as [rr|] eqn:Hrr.
  2:{ left. unfold respond_ride_request.
      rewrite (bind_return _ _ _ _ _ (require_auth_return _ _ _ _ Hauth)).
      unfold bind, query, raise. now rewrite Hdb, Hrr. }
  destruct (find_one (ride_filter (RideRequest.ride_id rr)) (rides (db w)))
    as [ride|] eqn:Hride.
  2:{ left. unfold respond_ride_request.
      rewrite (bind_return _ _ _ _ _ (require_auth_return _ _ _ _ Hauth)).
      unfold bind, query, raise. rewrite Hdb, Hrr. cbv beta iota. now rewrite Hdb, Hride. }
  destruct (String.eqb_spec (Ride.user_id ride) (User.user_id user)) as [Hown|Hown].
  - right. exists rr, ride. split; [reflexivity|]. split; [assumption|].
    now rewrite (respond_ride_request_run _ _ action _ _ _ _ _ Hauth Hrr Hride Hown).
  - left. unfold respond_ride_request.
    rewrite (bind_return _ _ _ _ _ (require_auth_return _ _ _ _ Hauth)).
    unfold bind, query, raise. rewrite Hdb, Hrr. cbv beta iota. rewrite Hdb, Hride.
    cbv beta iota. apply String.eqb_neq in Hown. now rewrite Hown.
Qed.

Section UpdateFound.
Context {A : Type}.

(** When the filter finds [x], [update_one] rewrites [x] and only [x]. *)
Lemma update_one_found (flt : A -> bool) (upd : A -> A) (l : list A) (x : A) :
  find_one flt l = Some x ->
  Forall2 (fun a b => b = a \/ (a = x /\ b = upd x)) l (update_one flt upd l).
Proof.
  induction l as [|y l IH]; cbn; [constructor|].
  destruct (flt y) eqn:Hy; intros Hx.
  - injection Hx as ->. constructor; [right; auto|].
    clear. induction l; constructor; auto.
  - constructor; auto.
Qed.

Lemma Forall2_same (R : A -> A -> Prop) (l : list A) :
  (forall a, R a a) -> Forall2 R l l.
Proof. intros HR. induction l; constructor; auto. Qed.

End UpdateFound.

(** C9. A call to the ride-request respond operation leaves every ride
    in place with its id; a ride's available_seats either keeps its
    value or, when the value before the call was strictly positive,
    drops by one.  So a counter that was at least 0 before the call is
    at least 0 after it. *)
Theorem respond_ride_request_seats_nonneg :
  forall request_id request action w,
    Forall2 (fun r r' =>
               Ride.ride_id r' = Ride.ride_id r /\
               (Ride.available_seats r' = Ride.available_seats r \/
                (0 < Ride.available_seats r /\
                 Ride.available_seats r' = Ride.available_seats r - 1)) /\
               (0 <= Ride.available_seats r -> 0 <= Ride.available_seats r'))
            (rides (db w))
            (rides (db (snd (respond_ride_request request_id request action w)))).
Proof.
  intros request_id request action w.
  destruct (respond_ride_request_store request_id request action w)
    as [-> | (rr & ride & Hrr & Hride & ->)].
  - apply Forall2_same. intros r. repeat split; auto.
  - unfold responded_store.
    destruct ((new_status action =? "accepted")%string && (0 <? Ride.available_seats ride))
      eqn:Hc; cbn [rides set_rides set_ride_requests].
    + apply andb_prop in Hc as [_ Hpos]. apply Z.ltb_lt in Hpos.
      eapply Forall2_impl; [|apply (update_one_found _ _ _ _ Hride)].
      intros r r' [-> | [-> ->]]; cbn; repeat split; auto; try lia.
    + apply Forall2_same. intros r. repeat split; auto.
Qed.

(** ** Responding to a follow request *)

Lemma respond_follow_request_run follow_id request action w user w1 f :
  get_current_user request w = (Return (Some user), w1) ->
  find_one (pending_follow_filter follow_id (User.user_id user)) (follows (db w)) = Some f ->
  respond_follow_request follow_id request action w =
    (Return (mk_message (String.append "Follow request " (new_status action))),
     with_db (set_follows (update_one (follow_id_filter follow_id)
                                      (Follow.set_status (new_status action))
                                      (follows (db w))) (db w)) w1).
Proof.
  intros Hauth Hf.
  pose proof (get_current_user_db _ _ _ _ Hauth) as Hdb.
  unfold respond_follow_request.
  rewrite (bind_return _ _ _ _ _ (require_auth_return _ _ _ _ Hauth)).
  unfold bind, query, write, ret. now rewrite Hdb, Hf, Hdb.
Qed.

(** The follow handler answers only a pending edge: without one it
    raises 404 and writes nothing. *)
Lemma respond_follow_request_not_pending follow_id request action w user w1 :
  get_current_user request w = (Return (Some user), w1) ->
  find_one (pending_follow_filter follow_id (User.user_id user)) (follows (db w)) = None ->
  respond_follow_request follow_id request action w =
    (Raise (mk_exn 404 "Follow request not found"), w1).
Proof.
  intros Hauth Hf.
  pose proof (get_current_user_db _ _ _ _ Hauth) as Hdb.
  unfold respond_follow_request.
  rewrite (bind_return _ _ _ _ _ (require_auth_return _ _ _ _ Hauth)).
  unfold bind, query, raise. now rewrite Hdb, Hf.
Qed.


Lemma find_one_pending_follow_id follow_id user_id l f :
  find_one (pending_follow_filter follow_id user_id) l = Some f ->
  exists f0, find_one (follow_id_filter follow_id) l = Some f0.
Proof.
  intros H. apply find_one_some_in in H as [Hin Hf].
  destruct (find_one (follow_id_filter follow_id) l) as [f0|] eqn:E; [eauto|].
  pose proof (find_one_none_all _ _ E f Hin) as Hn.
  unfold pending_follow_filter in Hf. unfold follow_id_filter in Hn.
  rewrite Hn in Hf. discriminate.
Qed.



(** ** A decided ride request can be answered again *)

(** C2, as the code behaves.  The ride handler does not look at the
    request's current status: an accepted request answered with reject
    becomes rejected, and answered with accept a second time takes
    another seat.  The follow handler, given a decided edge, raises 404
    and writes nothing ([respond_follow_request_not_pending]). *)
Theorem respond_ride_request_reopens_decided :
  let w := Demo.world (Demo.store [] [Demo.ride 2] [Demo.ask "accepted"]) in
  let rejected := respond_ride_request "req_1" (Demo.as_user "tok-alice") "reject" w in
  let again := respond_ride_request "req_1" (Demo.as_user "tok-alice") "accept" w in
  find_one (request_filter "req_1") (ride_requests (db w)) = Some (Demo.ask "accepted") /\
  fst rejected = Return (mk_message "Request rejected") /\
  find_one (request_filter "req_1") (ride_requests (db (snd rejected)))
    = Some (Demo.ask "rejected") /\
  fst again = Return (mk_message "Request accepted") /\
  rides (db (snd again)) = [Demo.ride 1].
Proof. cbv zeta. repeat split. Qed.

(** ** Expired and orphaned sessions *)

Lemma utc_instant_naive_as_utc d :
  utc_instant (match tzinfo d with None => replace_tzinfo_utc d | Some _ => d end)
  = utc_instant d.
Proof.
  unfold utc_instant, replace_tzinfo_utc. destruct (tzinfo d) eqn:E; cbn; rewrite ?E; lia.
Qed.

(** C5. Let [session] be the row stored under the token a request
    carries.  If its expires_at, a naive value being read as UTC, is at
    or before the current time, or if no user record exists for its
    user_id, then resolution answers absent and [require_auth] refuses
    with 401; resolution writes nothing, so the row is still stored
    afterwards. *)
Theorem get_current_user_expired_or_orphaned :
  forall request w tok session,
    request_session_token request = Some tok ->
    find_one (session_filter tok) (user_sessions (db w)) = Some session ->
    utc_instant (Session.expires_at session) <= clock w (ticks w) \/
    find_one (user_filter (Session.user_id session)) (users (db w)) = None ->
    let out := get_current_user request w in
    fst out = Return None /\
    db (snd out) = db w /\
    In session (user_sessions (db (snd out))) /\
    fst (require_auth request w) = Raise (mk_exn 401 "Not authenticated").
Proof.
  intros request w tok session Htok Hs Hcause out.
  assert (Hout : fst out = Return None).
  { subst out. unfold get_current_user. rewrite Htok.
    destruct (negb (truthy (Some tok))); [reflexivity|].
    unfold bind, query, datetime_now_utc, ret. rewrite Hs. cbv beta iota.
    unfold datetime_le. rewrite utc_instant_naive_as_utc. cbn [utc_instant wall tzinfo].
    rewrite Z.sub_0_r.
    destruct (Z.leb_spec (utc_instant (Session.expires_at session)) (clock w (ticks w)))
      as [Hle|Hgt]; [reflexivity|].
    destruct Hcause as [Hexp|Horph]; [lia|].
    cbn [db]. now rewrite Horph. }
  assert (Hdb : db (snd out) = db w).
  { subst out. destruct (get_current_user request w) as [o w'] eqn:E.
    apply (get_current_user_db _ _ _ _ E). }
  repeat split; try assumption.
  - rewrite Hdb. now apply find_one_some_in in Hs.
  - subst out. destruct (get_current_user request w) as [o w'] eqn:E.
    cbn in Hout. subst o. now rewrite (require_auth_raise _ _ _ E).
Qed.

Lemma get_current_user_expired_or_orphaned_witness :
  let w := Demo.world (Demo.store [] [] []) in
  (fst (get_current_user (Demo.as_user "tok-carol") w) = Return None /\
   In (Session.mk "user_carol" "tok-carol" (mk_datetime 5 None) Demo.t0)
      (user_sessions (db (snd (get_current_user (Demo.as_user "tok-carol") w))))) /\
  fst (get_current_user (Demo.with_bearer "tok-ghost") w) = Return None.
Proof.
  intros w. split.
  - destruct (get_current_user_expired_or_orphaned (Demo.as_user "tok-carol") w "tok-carol"
                (Session.mk "user_carol" "tok-carol" (mk_datetime 5 None) Demo.t0)
                eq_refl eq_refl) as (H1 & _ & H3 & _).
    + left. cbn. lia.
    + split; assumption.
  - destruct (get_current_user_expired_or_orphaned (Demo.with_bearer "tok-ghost") w "tok-ghost"
                (Session.mk "user_ghost" "tok-ghost" (mk_datetime 1000 None) Demo.t0)
                eq_refl eq_refl) as (H1 & _).
    + right. reflexivity.
    + assumption.
Defined.

(** A live session with its user record resolves to that user. *)
Lemma get_current_user_live request w tok session user :
  request_session_token request = Some tok ->
  tok <> "" ->
  find_one (session_filter tok) (user_sessions (db w)) = Some session ->
  clock w (ticks w) < utc_instant (Session.expires_at session) ->
  find_one (user_filter (Session.user_id session)) (users (db w)) = Some user ->
  fst (get_current_user request w) = Return (Some user).
Proof.
  intros Htok Hne Hs Hlive Hu.
  unfold get_current_user. rewrite Htok. cbn [truthy].
  apply String.eqb_neq in Hne. rewrite Hne. cbn [negb].
  unfold bind, query, datetime_now_utc, ret. rewrite Hs. cbv beta iota.
  unfold datetime_le. rewrite utc_instant_naive_as_utc. cbn [utc_instant wall tzinfo].
  rewrite Z.sub_0_r.
  destruct (Z.leb_spec (utc_instant (Session.expires_at session)) (clock w (ticks w)));
    [lia|].
  cbn [db]. now rewrite Hu.
Qed.

(** ** Profile views *)

Lemma get_user_not_found user_id request w :
  find_one (user_filter user_id) (users (db w)) = None ->
  fst (get_user user_id request w) = Raise (mk_exn 404 "User not found").
Proof.
  intros Hu. destruct (get_current_user_reads request w) as (o & w1 & Hauth & Hdb).
  unfold get_user. rewrite (bind_return _ _ _ _ _ Hauth).
  unfold bind, query, raise. now rewrite Hdb, Hu.
Qed.

(** A signed-in viewer who is neither the target nor an accepted
    follower gets the limited view of a private profile. *)
Lemma get_user_private_stranger user_id request w viewer w1 target :
  get_current_user request w = (Return (Some viewer), w1) ->
  find_one (user_filter user_id) (users (db w)) = Some target ->
  User.is_public target = false ->
  User.user_id viewer <> user_id ->
  find_one (accepted_edge_filter (User.user_id viewer) user_id) (follows (db w)) = None ->
  get_user user_id request w =
    (Return (LimitedProfile (User.user_id target) (User.name target)
                            (User.profile_picture target) (User.profile_type target)
                            (User.is_public target) true), w1).
Proof.
  intros Hauth Hu Hpriv Hne Hf.
  pose proof (get_current_user_db _ _ _ _ Hauth) as Hdb.
  unfold get_user. rewrite (bind_return _ _ _ _ _ Hauth).
  unfold bind, query, ret. rewrite Hdb, Hu. cbv beta iota. rewrite Hpriv. cbn [negb].
  rewrite Hdb, Hf. apply String.eqb_neq in Hne. now rewrite Hne.
Qed.

(** The target itself, an accepted follower, and any viewer of a public
    profile get the full profile. *)
Lemma get_user_full user_id request w viewer w1 target :
  get_current_user request w = (Return (Some viewer), w1) ->
  find_one (user_filter user_id) (users (db w)) = Some target ->
  User.is_public target = true \/ User.user_id viewer = user_id \/
  (exists e, find_one (accepted_edge_filter (User.user_id viewer) user_id) (follows (db w))
             = Some e) ->
  get_user user_id request w = (Return (FullProfile target), w1).
Proof.
  intros Hauth Hu Hwhy.
  pose proof (get_current_user_db _ _ _ _ Hauth) as Hdb.
  unfold get_user. rewrite (bind_return _ _ _ _ _ Hauth).
  unfold bind, query, ret. rewrite Hdb, Hu. cbv beta iota.
  destruct (User.is_public target) eqn:Hpub; cbn [negb]; [reflexivity|].
  rewrite Hdb.
  destruct Hwhy as [Hp | [Hself | [e He]]]; [discriminate | |].
  - rewrite Hself, String.eqb_refl. cbn [negb]. now rewrite andb_false_r.
  - now rewrite He.
Qed.

(** With no viewer the privacy test is skipped altogether: the full
    profile is returned, public or private. *)
Lemma get_user_anonymous_full user_id request w w1 target :
  get_current_user request w = (Return None, w1) ->
  find_one (user_filter user_id) (users (db w)) = Some target ->
  get_user user_id request w = (Return (FullProfile target), w1).
Proof.
  intros Hauth Hu.
  pose proof (get_current_user_db _ _ _ _ Hauth) as Hdb.
  unfold get_user. rewrite (bind_return _ _ _ _ _ Hauth).
  unfold bind, query, ret. rewrite Hdb, Hu. cbv beta iota.
  now destruct (User.is_public target).
Qed.

(** C3, as the code behaves.  Bob's profile is private.  Alice, signed
    in and not a follower, gets the limited view; a request carrying no
    session gets Bob's whole record, email, phone and bio included. *)
Theorem get_user_private_profile_anonymous_viewer :
  let w := Demo.world (Demo.store [] [] []) in
  let signed_in := mk_request (Some "tok-alice") None in
  User.is_public Demo.bob = false /\
  fst (get_user "user_bob" signed_in w)
    = Return (LimitedProfile "user_bob" "Bob" None "passenger" false true) /\
  fst (get_user "user_bob" Demo.anonymous w) = Return (FullProfile Demo.bob) /\
  User.email Demo.bob = Some "bob@example.com" /\
  User.phone Demo.bob = Some "555-0101".
Proof. cbv zeta. repeat split. Qed.

(** ** Password login *)

(** While the library answers, the three ways a password login fails,
    namely no user under the supplied email or phone, a user with no
    stored credential, and a stored credential the password does not
    match, all end in the same exception, status 401 with detail
    "Invalid credentials", and leave the world as it was. *)
Lemma login_invalid_credentials :
  forall (checkpw : string -> string -> option bool) credentials w,
    login_lookup credentials (db w) = None \/
    (exists user,
        login_lookup credentials (db w) = Some user /\
        find_one (password_filter (User.user_id user)) (user_passwords (db w)) = None) \/
    (exists user password_doc,
        login_lookup credentials (db w) = Some user /\
        find_one (password_filter (User.user_id user)) (user_passwords (db w))
          = Some password_doc /\
        checkpw (UserLogin.password credentials) (Password.password_hash password_doc)
          = Some false) ->
    login checkpw credentials w = (Raise (mk_exn 401 "Invalid credentials"), w).
Proof.
  intros checkpw credentials w [Hu | [(user & Hu & Hp) | (user & pd & Hu & Hp & Hv)]];
    unfold login, verify_password, bind, query, raise, ret; rewrite Hu; cbv beta iota.
  - reflexivity.
  - now rewrite Hp.
  - now rewrite Hp, Hv.
Qed.

(** When the library raises instead, which takes a user with a stored
    credential, nothing catches it: the login ends in a 500. *)
Lemma login_check_raises checkpw credentials w user password_doc :
  login_lookup credentials (db w) = Some user ->
  find_one (password_filter (User.user_id user)) (user_passwords (db w))
    = Some password_doc ->
  checkpw (UserLogin.password credentials) (Password.password_hash password_doc) = None ->
  login checkpw credentials w = (Raise (mk_exn 500 "Internal Server Error"), w).
Proof.
  intros Hu Hp Hv.
  unfold login, verify_password, internal_server_error, bind, query, raise, ret.
  rewrite Hu. cbv beta iota. now rewrite Hp, Hv.
Qed.

(** A failed login raises one of these two exceptions and writes
    nothing. *)
Lemma login_raises checkpw credentials w e w' :
  login checkpw credentials w = (Raise e, w') ->
  (e = mk_exn 401 "Invalid credentials" \/ e = mk_exn 500 "Internal Server Error") /\
  w' = w.
Proof.
  unfold login, verify_password, internal_server_error.
  unfold bind, query, raise, random_text, datetime_now_utc, write, ret.
  destruct (login_lookup credentials (db w)) as [user|]; cbv beta iota.
  2:{ intros [= <- <-]. auto. }
  destruct (find_one _ (user_passwords (db w))) as [pd|]; cbv beta iota.
  2:{ intros [= <- <-]. auto. }
  destruct (checkpw _ _) as [[|]|]; cbn [negb]; try discriminate; intros [= <- <-]; auto.
Qed.

(** With the right password the login goes through and stores one more
    session for the user. *)
Lemma login_success checkpw credentials w user password_doc :
  login_lookup credentials (db w) = Some user ->
  find_one (password_filter (User.user_id user)) (user_passwords (db w))
    = Some password_doc ->
  checkpw (UserLogin.password credentials) (Password.password_hash password_doc)
    = Some true ->
  exists token cookie w',
    login checkpw credentials w
      = (Return (AuthResponse.mk (User.user_id user) token (User.name user), cookie), w') /\
    List.length (user_sessions (db w')) = S (List.length (user_sessions (db w))).
Proof.
  intros Hu Hp Hv.
  unfold login, verify_password.
  unfold bind, query, raise, random_text, datetime_now_utc, write, ret.
  rewrite Hu. cbv beta iota. rewrite Hp, Hv. cbn [negb].
  eexists _, _, _. split; [reflexivity|].
  cbn. unfold insert_one. rewrite length_app. cbn. lia.
Qed.

(** C7, as the code behaves.  The handler sends the same 401 for its own
    three refusals, but it does not catch what [bcrypt.checkpw] raises.
    With the length test of bcrypt 5.0, a login with a 73-byte password
    is answered 401 "Invalid credentials" for an unknown email and for a
    user without a credential, and 500 for a user with one: the status
    tells the causes apart. *)
Theorem login_long_password_reveals_account :
  let w := Demo.world (Demo.store [] [] []) in
  let attempt email := login Demo.checkpw_72 (UserLogin.mk (Some email) None
                                                           Demo.long_password) w in
  String.length Demo.long_password = 73%nat /\
  attempt "nobody@example.com" = (Raise (mk_exn 401 "Invalid credentials"), w) /\
  attempt "bob@example.com" = (Raise (mk_exn 401 "Invalid credentials"), w) /\
  attempt "alice@example.com" = (Raise (mk_exn 500 "Internal Server Error"), w).
Proof. cbv zeta. repeat split. Qed.

(** ** Ride update and delete *)

Lemma ride_filter_set ride_id u r : ride_filter ride_id (ride_set u r) = ride_filter ride_id r.
Proof. reflexivity. Qed.





Section OtherDocuments.
Context {A : Type}.
Implicit Types (flt : A -> bool) (upd : A -> A) (l : list A).




End OtherDocuments.




(** ** Creating a ride request *)

Lemma open_request_filter_true ride_id requester_id q :
  open_request_filter ride_id requester_id q = true <->
  RideRequest.ride_id q = ride_id /\ RideRequest.requester_id q = requester_id /\
  (RideRequest.status q = "pending" \/ RideRequest.status q = "accepted").
Proof.
  unfold open_request_filter. cbn [existsb]. rewrite orb_false_r.
  rewrite !andb_true_iff, orb_true_iff, !String.eqb_eq. tauto.
Qed.

Lemma open_request_found ride_id requester_id l :
  (exists q, In q l /\ RideRequest.ride_id q = ride_id /\
             RideRequest.requester_id q = requester_id /\
             (RideRequest.status q = "pending" \/ RideRequest.status q = "accepted")) ->
  exists q, find_one (open_request_filter ride_id requester_id) l = Some q.
Proof.
  intros (q & Hin & Hq).
  destruct (find_one (open_request_filter ride_id requester_id) l) as [q'|] eqn:E; [eauto|].
  pose proof (find_one_none_all _ _ E q Hin) as Hn.
  apply open_request_filter_true in Hq. congruence.
Qed.

Lemma open_request_absent ride_id requester_id l :
  (forall q, In q l -> RideRequest.ride_id q = ride_id ->
             RideRequest.requester_id q = requester_id ->
             RideRequest.status q <> "pending" /\ RideRequest.status q <> "accepted") ->
  find_one (open_request_filter ride_id requester_id) l = None.
Proof.
  intros Hall.
  destruct (find_one (open_request_filter ride_id requester_id) l) as [q|] eqn:E; [|reflexivity].
  apply find_one_some_in in E as [Hin Hq].
  apply open_request_filter_true in Hq as (H1 & H2 & H3).
  destruct (Hall q Hin H1 H2). tauto.
Qed.

(** C6. For an authenticated actor, creating a ride request raises 404
    when the ride is absent; raises 400 "Cannot request your own ride"
    when the actor owns the ride; raises 400 "Already requested this
    ride" when the actor has a request against the ride whose status is
    pending or accepted; and otherwise, rejected requests of the actor
    on the same ride included, appends a new request with status
    pending and answers it.  The failing cases write nothing. *)
Theorem request_ride_outcomes :
  forall request req_data w user w1,
    get_current_user request w = (Return (Some user), w1) ->
    let ride_id := RideRequestCreate.ride_id req_data in
    let out := request_ride request req_data w in
    (find_one (ride_filter ride_id) (rides (db w)) = None ->
       out = (Raise (mk_exn 404 "Ride not found"), w1)) /\
    (forall ride,
       find_one (ride_filter ride_id) (rides (db w)) = Some ride ->
       Ride.user_id ride = User.user_id user ->
       out = (Raise (mk_exn 400 "Cannot request your own ride"), w1)) /\
    (forall ride,
       find_one (ride_filter ride_id) (rides (db w)) = Some ride ->
       Ride.user_id ride <> User.user_id user ->
       (exists q, In q (ride_requests (db w)) /\
                  RideRequest.ride_id q = ride_id /\
                  RideRequest.requester_id q = User.user_id user /\
                  (RideRequest.status q = "pending" \/ RideRequest.status q = "accepted")) ->
       out = (Raise (mk_exn 400 "Already requested this ride"), w1)) /\
    (forall ride,
       find_one (ride_filter ride_id) (rides (db w)) = Some ride ->
       Ride.user_id ride <> User.user_id user ->
       (forall q, In q (ride_requests (db w)) ->
                  RideRequest.ride_id q = ride_id ->
                  RideRequest.requester_id q = User.user_id user ->
                  RideRequest.status q <> "pending" /\ RideRequest.status q <> "accepted") ->
       fst out = Return (new_request_doc user req_data w1) /\
       RideRequest.status (new_request_doc user req_data w1) = "pending" /\
       db (snd out) = set_ride_requests
                        (insert_one (new_request_doc user req_data w1) (ride_requests (db w)))
                        (db w)).
Proof.
  intros request req_data w user w1 Hauth ride_id out. subst ride_id out.
  pose proof (get_current_user_db _ _ _ _ Hauth) as Hdb.
  pose proof (require_auth_return _ _ _ _ Hauth) as Hreq.
  unfold request_ride. rewrite (bind_return _ _ _ _ _ Hreq).
  split; [|split; [|split]].
  - intros Hride. unfold bind, query, raise. now rewrite Hdb, Hride.
  - intros ride Hride Hown. unfold bind, query, raise. rewrite Hdb, Hride. cbv beta iota.
    now rewrite Hown, String.eqb_refl.
  - intros ride Hride Hown Hopen. unfold bind, query, raise. rewrite Hdb, Hride.
    cbv beta iota. apply String.eqb_neq in Hown. rewrite Hown, Hdb.
    destruct (open_request_found _ _ _ Hopen) as [q ->]. reflexivity.
  - intros ride Hride Hown Hnone. unfold fresh_id.
    unfold bind, query, raise, random_text, datetime_now_utc, write, ret.
    rewrite Hdb, Hride. cbv beta iota. apply String.eqb_neq in Hown. rewrite Hown, Hdb.
    rewrite (open_request_absent _ _ _ Hnone). cbn [fst snd db clock ticks entropy draws].
    unfold new_request_doc. rewrite ?Hdb. repeat split.
Qed.

Lemma request_ride_outcomes_witness :
  let w := Demo.world (Demo.store [] [Demo.ride 3] [Demo.ask "rejected"]) in
  let out := request_ride (Demo.as_user "tok-bob")
                          (RideRequestCreate.mk "ride_1" (Some "once more")) w in
  option_map RideRequest.status
             (match fst out with Return q => Some q | Raise _ => None end) = Some "pending" /\
  List.length (ride_requests (db (snd out))) = 2%nat.
Proof.
  intros w out.
  destruct (request_ride_outcomes (Demo.as_user "tok-bob")
              (RideRequestCreate.mk "ride_1" (Some "once more")) w Demo.bob _ eq_refl)
    as (_ & _ & _ & H).
  destruct (H (Demo.ride 3) eq_refl) as (H1 & H2 & H3).
  - discriminate.
  - intros q [<- | []] _ _. split; discriminate.
  - subst out. rewrite H1, H3. split; reflexivity.
Defined.

(** ** Following *)

Lemma edge_filter_true a b f :
  edge_filter a b f = true <-> Follow.follower_id f = a /\ Follow.following_id f = b.
Proof. unfold edge_filter. now rewrite andb_true_iff, !String.eqb_eq. Qed.

Lemma follow_user_existing request follow_req w user w1 target e :
  get_current_user request w = (Return (Some user), w1) ->
  User.user_id user <> FollowRequest.following_id follow_req ->
  find_one (user_filter (FollowRequest.following_id follow_req)) (users (db w)) = Some target ->
  find_one (edge_filter (User.user_id user) (FollowRequest.following_id follow_req))
           (follows (db w)) = Some e ->
  follow_user request follow_req w =
    (Return (FollowResponse.mk "Already following or request pending" (Follow.status e)), w1).
Proof.
  intros Hauth Hne Ht He.
  pose proof (get_current_user_db _ _ _ _ Hauth) as Hdb.
  unfold follow_user. rewrite (bind_return _ _ _ _ _ (require_auth_return _ _ _ _ Hauth)).
  apply String.eqb_neq in Hne. rewrite Hne.
  unfold bind, query, ret. rewrite Hdb, Ht. cbv beta iota. now rewrite Hdb, He.
Qed.

Lemma follow_user_fresh request follow_req w user w1 target :
  get_current_user request w = (Return (Some user), w1) ->
  User.user_id user <> FollowRequest.following_id follow_req ->
  find_one (user_filter (FollowRequest.following_id follow_req)) (users (db w)) = Some target ->
  find_one (edge_filter (User.user_id user) (FollowRequest.following_id follow_req))
           (follows (db w)) = None ->
  let out := follow_user request follow_req w in
  let doc := new_follow_doc user follow_req target w1 in
  fst out = Return (FollowResponse.mk
                      (if negb (User.is_public target)
                       then "Follow request sent" else "Now following")
                      (if User.is_public target then "accepted" else "pending")) /\
  db (snd out) = set_follows (insert_one doc (follows (db w))) (db w).
Proof.
  intros Hauth Hne Ht He out doc. subst out doc.
  pose proof (get_current_user_db _ _ _ _ Hauth) as Hdb.
  unfold follow_user. rewrite (bind_return _ _ _ _ _ (require_auth_return _ _ _ _ Hauth)).
  apply String.eqb_neq in Hne. rewrite Hne. unfold fresh_id.
  unfold bind, query, random_text, datetime_now_utc, write, ret.
  rewrite Hdb, Ht. cbv beta iota. rewrite Hdb, He.
  cbn [fst snd db clock ticks entropy draws Follow.status].
  unfold new_follow_doc. rewrite ?Hdb. split; reflexivity.
Qed.

(** Every way a follow call can end, seen from the store. *)
Lemma follow_user_store request follow_req w :
  let d' := db (snd (follow_user request follow_req w)) in
  d' = db w \/
  exists user w1 target,
    get_current_user request w = (Return (Some user), w1) /\
    User.user_id user <> FollowRequest.following_id follow_req /\
    find_one (user_filter (FollowRequest.following_id follow_req)) (users (db w))
      = Some target /\
    d' = set_follows (insert_one (new_follow_doc user follow_req target w1) (follows (db w)))
                     (db w).
Proof.
  cbv zeta.
  destruct (get_current_user_reads request w) as ([user|] & w1 & Hauth & Hdb).
  2:{ left. unfold follow_user.
      now rewrite (bind_raise _ _ _ _ _ (require_auth_raise _ _ _ Hauth)). }
  destruct (String.eqb_spec (User.user_id user) (FollowRequest.following_id follow_req))
    as [Heq|Hne].
  { left. unfold follow_user.
    rewrite (bind_return _ _ _ _ _ (require_auth_return _ _ _ _ Hauth)).
    apply String.eqb_eq in Heq. now rewrite Heq. }
  destruct (find_one (user_filter (FollowRequest.following_id follow_req)) (users (db w)))
    as [target|] eqn:Ht.
  2:{ left. unfold follow_user.
      rewrite (bind_return _ _ _ _ _ (require_auth_return _ _ _ _ Hauth)).
      apply String.eqb_neq in Hne. rewrite Hne.
      unfold bind, query, raise. now rewrite Hdb, Ht. }
  destruct (find_one (edge_filter (User.user_id user) (FollowRequest.following_id follow_req))
                     (follows (db w))) as [e|] eqn:He.
  - left. now rewrite (follow_user_existing _ _ _ _ _ _ _ Hauth Hne Ht He).
  - right. exists user, w1, target.
    do 3 (split; [first [assumption | reflexivity]|]). apply (follow_user_fresh _ _ _ _ _ _ Hauth Hne Ht He).
Qed.

(** [follow_user] keeps the follow collection well formed. *)
Lemma follow_user_keeps_wf request follow_req w :
  follows_wf (db w) -> follows_wf (db (snd (follow_user request follow_req w))).
Proof.
  intros Hwf.
  destruct (follow_user_store request follow_req w)
    as [-> | (user & w1 & target & _ & Hne & Ht & ->)]; [assumption|].
  intros e Hin. cbn [follows users set_follows] in *. unfold insert_one in Hin.
  apply in_app_or in Hin as [Hin | [<- | []]]; [now apply Hwf|].
  cbn. split; [assumption | eauto].
Qed.

Lemma update_one_in {A} (flt : A -> bool) (upd : A -> A) (l : list A) y :
  In y (update_one flt upd l) -> In y l \/ exists x, In x l /\ y = upd x.
Proof.
  induction l as [|x l IH]; cbn; [auto|].
  destruct (flt x); cbn; intros [<- | Hin]; eauto.
  destruct (IH Hin) as [H | (x0 & H & ->)]; eauto.
Qed.

Lemma delete_one_incl {A} (flt : A -> bool) (l : list A) x :
  In x (delete_one flt l) -> In x l.
Proof.
  induction l as [|y l IH]; cbn; [auto|].
  destruct (flt y); cbn; intuition.
Qed.

Lemma unfollow_user_run user_id request w user w1 :
  get_current_user request w = (Return (Some user), w1) ->
  let out := unfollow_user user_id request w in
  fst out = match find_one (edge_filter (User.user_id user) user_id) (follows (db w)) with
            | Some _ => Return (mk_message "Unfollowed")
            | None => Raise (mk_exn 404 "Not following this user")
            end /\
  db (snd out) = set_follows (delete_one (edge_filter (User.user_id user) user_id)
                                         (follows (db w))) (db w).
Proof.
  intros Hauth out. subst out.
  pose proof (get_current_user_db _ _ _ _ Hauth) as Hdb.
  unfold unfollow_user. rewrite (bind_return _ _ _ _ _ (require_auth_return _ _ _ _ Hauth)).
  unfold bind, query, write, ret, raise. rewrite Hdb, deleted_count_find.
  destruct (find_one _ (follows (db w))); cbn [Z.eqb fst snd]; rewrite ?with_db_db, ?Hdb;
    split; reflexivity.
Qed.

(** [unfollow_user] keeps the follow collection well formed. *)
Lemma unfollow_user_keeps_wf user_id request w :
  follows_wf (db w) -> follows_wf (db (snd (unfollow_user user_id request w))).
Proof.
  intros Hwf.
  destruct (get_current_user_reads request w) as ([user|] & w1 & Hauth & Hdb).
  - destruct (unfollow_user_run user_id _ _ _ _ Hauth) as [_ ->].
    intros e Hin. cbn [follows users set_follows] in *.
    apply delete_one_incl in Hin. now apply Hwf.
  - unfold unfollow_user.
    rewrite (bind_raise _ _ _ _ _ (require_auth_raise _ _ _ Hauth)). cbn [snd].
    now rewrite Hdb.
Qed.

(** [respond_follow_request] rewrites a status only, so it keeps the
    follow collection well formed. *)
Lemma respond_follow_request_keeps_wf follow_id request action w :
  follows_wf (db w) -> follows_wf (db (snd (respond_follow_request follow_id request action w))).
Proof.
  intros Hwf.
  destruct (get_current_user_reads request w) as ([user|] & w1 & Hauth & Hdb).
  2:{ unfold respond_follow_request.
      rewrite (bind_raise _ _ _ _ _ (require_auth_raise _ _ _ Hauth)). cbn [snd].
      now rewrite Hdb. }
  destruct (find_one (pending_follow_filter follow_id (User.user_id user)) (follows (db w)))
    as [f|] eqn:Hf.
  2:{ rewrite (respond_follow_request_not_pending _ _ action _ _ _ Hauth Hf). cbn [snd].
      now rewrite Hdb. }
  rewrite (respond_follow_request_run _ _ action _ _ _ _ Hauth Hf). cbn [snd].
  rewrite with_db_db. intros e Hin. cbn [follows users set_follows] in *.
  apply update_one_in in Hin as [Hin | (e0 & Hin & ->)]; [now apply Hwf|].
  change (Follow.follower_id e0 <> Follow.following_id e0 /\
          exists u, find_one (user_filter (Follow.following_id e0)) (users (db w)) = Some u).
  now apply Hwf.
Qed.



(** Following from scratch, on the deployment: Alice follows private
    Bob twice and one pending edge is stored. *)
Example follow_user_twice_from_scratch :
  let w := Demo.world (Demo.store [] [] []) in
  let req := FollowRequest.mk "user_bob" in
  let first := follow_user (Demo.as_user "tok-alice") req w in
  let second := follow_user (Demo.as_user "tok-alice") req (snd first) in
  fst first = Return (FollowResponse.mk "Follow request sent" "pending") /\
  fst second = Return (FollowResponse.mk "Already following or request pending" "pending") /\
  count_documents (edge_filter "user_alice" "user_bob") (follows (db (snd second))) = 1.
Proof. cbv zeta. repeat split. Qed.

Lemma count_documents_found {A} (flt : A -> bool) (l : list A) y :
  find_one flt l = Some y -> 0 < count_documents flt l.
Proof.
  unfold count_documents. induction l as [|x l IH]; cbn; [discriminate|].
  destruct (flt x); cbn [List.length]; [lia | auto].
Qed.

Lemma find_one_delete_one_unique {A} (flt : A -> bool) (l : list A) :
  count_documents flt l = 1 -> find_one flt (delete_one flt l) = None.
Proof.
  unfold count_documents.
  induction l as [|x l IH]; cbn [delete_one filter]; [reflexivity|].
  destruct (flt x) eqn:Hx; cbn [List.length]; intros Hc.
  - destruct (find_one flt l) as [y|] eqn:Hy; [|reflexivity].
    apply count_documents_found in Hy. unfold count_documents in Hy. lia.
  - unfold find_one. cbn [find]. rewrite Hx. now apply IH.
Qed.

(** X17. Resetting an edge: once the only edge from the actor to the target
    is removed by unfollow, no edge for the pair is stored; a new follow
    then appends one edge for the pair to what unfollow left, and that
    edge is the one the pair finds from then on.  Its status depends on
    the target's visibility alone, not on the old status. *)
Lemma unfollow_then_follow_resets request request' follow_req w user w1 user' w2 e target :
  get_current_user request w = (Return (Some user), w1) ->
  let b := FollowRequest.following_id follow_req in
  let gone := unfollow_user b request w in
  get_current_user request' (snd gone) = (Return (Some user'), w2) ->
  User.user_id user' = User.user_id user ->
  User.user_id user <> b ->
  find_one (user_filter b) (users (db w)) = Some target ->
  find_one (edge_filter (User.user_id user) b) (follows (db w)) = Some e ->
  count_documents (edge_filter (User.user_id user) b) (follows (db w)) = 1 ->
  let pair := edge_filter (User.user_id user) b in
  let again := follow_user request' follow_req (snd gone) in
  let s := if User.is_public target then "accepted" else "pending" in
  fst gone = Return (mk_message "Unfollowed") /\
  follows (db (snd gone)) = delete_one pair (follows (db w)) /\
  find_one pair (follows (db (snd gone))) = None /\
  (exists msg, fst again = Return (FollowResponse.mk msg s)) /\
  exists edge,
    follows (db (snd again)) = delete_one pair (follows (db w)) ++ [edge] /\
    Follow.follower_id edge = User.user_id user /\ Follow.following_id edge = b /\
    Follow.status edge = s /\
    find_one pair (follows (db (snd again))) = Some edge /\
    count_documents pair (follows (db (snd again))) = 1.
Proof.
  intros Hauth b gone Hauth' Hsame Hne Ht He Hone pair again s. subst b gone pair again s.
  destruct (unfollow_user_run (FollowRequest.following_id follow_req) _ _ _ _ Hauth)
    as [H1 H2].
  rewrite He in H1. split; [exact H1|].
  assert (Hgone : find_one (edge_filter (User.user_id user)
                                        (FollowRequest.following_id follow_req))
                    (delete_one (edge_filter (User.user_id user)
                                             (FollowRequest.following_id follow_req))
                                (follows (db w))) = None)
    by now apply find_one_delete_one_unique.
  assert (Hnone : find_one (edge_filter (User.user_id user')
                                        (FollowRequest.following_id follow_req))
                    (follows (db (snd (unfollow_user (FollowRequest.following_id follow_req)
                                                     request w)))) = None).
  { rewrite Hsame, H2. exact Hgone. }
  assert (Ht' : find_one (user_filter (FollowRequest.following_id follow_req))
                  (users (db (snd (unfollow_user (FollowRequest.following_id follow_req)
                                                 request w)))) = Some target).
  { now rewrite H2. }
  pose proof Hne as Hne'. rewrite <- Hsame in Hne'.
  destruct (follow_user_fresh _ _ _ _ _ _ Hauth' Hne' Ht' Hnone) as [H3 H4].
  revert H3 H4 Hnone.
  generalize (follow_user request' follow_req
                (snd (unfollow_user (FollowRequest.following_id follow_req) request w))).
  revert H2.
  generalize (db (snd (unfollow_user (FollowRequest.following_id follow_req) request w))).
  intros d -> out H3 H4 _. cbn [follows set_follows] in H4 |- *.
  split; [reflexivity|]. split; [exact Hgone|]. split; [eauto|].
  exists (new_follow_doc user' follow_req target w2).
  assert (Hdoc : edge_filter (User.user_id user) (FollowRequest.following_id follow_req)
                             (new_follow_doc user' follow_req target w2) = true).
  { apply edge_filter_true. split; [exact Hsame | reflexivity]. }
  rewrite H4. cbn [follows set_follows].
  split; [reflexivity|]. split; [exact Hsame|]. split; [reflexivity|].
  split; [reflexivity|]. split.
  - now rewrite find_one_insert_one, Hgone, Hdoc.
  - now rewrite count_documents_insert_one, (count_documents_zero _ _ Hgone), Hdoc.
Qed.

(** The empty store is well formed, and so is any store that keeps the
    edges and can still find every user the old one could: registering
    users, editing profiles and every ride handler fall under this. *)
Lemma follows_wf_empty us ps ss rs qs : follows_wf (mk_db us ps ss [] rs qs).
Proof. intros e []. Qed.

Lemma follows_wf_users_kept d d' :
  follows d' = follows d ->
  (forall i u, find_one (user_filter i) (users d) = Some u ->
               exists u', find_one (user_filter i) (users d') = Some u') ->
  follows_wf d -> follows_wf d'.
Proof.
  intros Hf Hu Hwf e Hin. rewrite Hf in Hin.
  destruct (Hwf e Hin) as [Hne [u Hfind]]. split; [assumption|]. eauto.
Qed.

Lemma respond_ride_request_keeps_wf request_id request action w :
  follows_wf (db w) ->
  follows_wf (db (snd (respond_ride_request request_id request action w))).
Proof.
  intros Hwf. apply (follows_wf_users_kept (db w)); [| |assumption];
    destruct (respond_ride_request_store request_id request action w)
      as [-> | (rr & ride & _ & _ & ->)]; eauto;
    unfold responded_store; destruct (_ && _); cbn; eauto.
Qed.

(* ================================================================== *)
(** * Further properties of the handlers *)

(** ** Calls without a session *)

(** X2. Every handler that starts with [require_auth] (and [get_me], which
    spells the same test out) answers a request that resolves to no user
    with 401 "Not authenticated", and the store is the one it started
    from. *)
Theorem unauthenticated_calls_refused :
  forall request w w1,
    get_current_user request w = (Return None, w1) ->
    refused_with 401 "Not authenticated" w (get_me request w) /\
    refused_with 401 "Not authenticated" w (get_current_user_profile request w) /\
    (forall u, refused_with 401 "Not authenticated" w (update_profile request u w)) /\
    (forall fr, refused_with 401 "Not authenticated" w (follow_user request fr w)) /\
    (forall i, refused_with 401 "Not authenticated" w (unfollow_user i request w)) /\
    (forall i a,
        refused_with 401 "Not authenticated" w (respond_follow_request i request a w)) /\
    refused_with 401 "Not authenticated" w (get_follow_requests request w) /\
    (forall rd, refused_with 401 "Not authenticated" w (create_ride request rd w)) /\
    refused_with 401 "Not authenticated" w (get_my_rides request w) /\
    (forall i u, refused_with 401 "Not authenticated" w (update_ride i request u w)) /\
    (forall i, refused_with 401 "Not authenticated" w (delete_ride i request w)) /\
    (forall rd, refused_with 401 "Not authenticated" w (request_ride request rd w)) /\
    refused_with 401 "Not authenticated" w (get_my_ride_requests request w) /\
    refused_with 401 "Not authenticated" w (get_received_requests request w) /\
    (forall i a,
        refused_with 401 "Not authenticated" w (respond_ride_request i request a w)).
Proof.
  intros request w w1 Hauth.
  pose proof (get_current_user_db _ _ _ _ Hauth) as Hdb.
  pose proof (require_auth_raise _ _ _ Hauth) as Hreq.
  assert (Hbind : forall B (k : User.t -> M B),
             refused_with 401 "Not authenticated" w (bind (require_auth request) k w)).
  { intros B k. unfold refused_with. rewrite (bind_raise _ _ _ _ _ Hreq). now split. }
  unfold get_current_user_profile, update_profile, follow_user, unfollow_user,
    respond_follow_request, get_follow_requests, create_ride, get_my_rides, update_ride,
    delete_ride, request_ride, get_my_ride_requests, get_received_requests,
    respond_ride_request.
  repeat match goal with
         | |- _ /\ _ => split
         | |- forall _, _ => intro
         end;
    try apply Hbind.
  - unfold refused_with, get_me. rewrite (bind_return _ _ _ _ _ Hauth). now split.
  - unfold refused_with. rewrite Hreq. now split.
Qed.

Lemma unauthenticated_calls_refused_witness :
  let w := Demo.world (Demo.store [] [Demo.ride 3] [Demo.ask "pending"]) in
  fst (delete_ride "ride_1" (Demo.as_user "tok-carol") w)
    = Raise (mk_exn 401 "Not authenticated") /\
  fst (respond_ride_request "req_1" Demo.anonymous "accept" w)
    = Raise (mk_exn 401 "Not authenticated") /\
  rides (db (snd (delete_ride "ride_1" (Demo.as_user "tok-carol") w))) = [Demo.ride 3].
Proof.
  intros w.
  destruct (unauthenticated_calls_refused (Demo.as_user "tok-carol") w _ eq_refl)
    as (_ & _ & _ & _ & _ & _ & _ & _ & _ & _ & Hdel & _).
  destruct (unauthenticated_calls_refused Demo.anonymous w _ eq_refl)
    as (_ & _ & _ & _ & _ & _ & _ & _ & _ & _ & _ & _ & _ & _ & Hresp).
  destruct (Hdel "ride_1") as [H1 H2]. destruct (Hresp "req_1" "accept") as [H3 _].
  split; [exact H1|]. split; [exact H3|]. now rewrite H2.
Defined.

(** ** Who may answer a ride request *)

Lemma respond_ride_request_refusals :
  forall request_id request action w user w1,
    get_current_user request w = (Return (Some user), w1) ->
    let out := respond_ride_request request_id request action w in
    (find_one (request_filter request_id) (ride_requests (db w)) = None ->
       refused_with 404 "Request not found" w out) /\
    (forall rr,
       find_one (request_filter request_id) (ride_requests (db w)) = Some rr ->
       find_one (ride_filter (RideRequest.ride_id rr)) (rides (db w)) = None ->
       refused_with 403 "Not authorized" w out) /\
    (forall rr ride,
       find_one (request_filter request_id) (ride_requests (db w)) = Some rr ->
       find_one (ride_filter (RideRequest.ride_id rr)) (rides (db w)) = Some ride ->
       Ride.user_id ride <> User.user_id user ->
       refused_with 403 "Not authorized" w out).
Proof.
  intros request_id request action w user w1 Hauth out. subst out.
  pose proof (get_current_user_db _ _ _ _ Hauth) as Hdb.
  unfold respond_ride_request, refused_with.
  rewrite (bind_return _ _ _ _ _ (require_auth_return _ _ _ _ Hauth)).
  unfold bind, query, raise. rewrite Hdb.
  split; [|split].
  - intros ->. now split.
  - intros rr -> Hride. cbv beta iota. rewrite Hdb, Hride. now split.
  - intros rr ride -> Hride Hown. cbv beta iota. rewrite Hdb, Hride. cbv beta iota.
    apply String.eqb_neq in Hown. rewrite Hown. now split.
Qed.

(** X22. For a signed-in actor, answering a ride request raises 404 when no
    request carries the id, and 403 when the request's ride is gone or
    belongs to somebody else; in all three cases, whatever the action,
    neither the request nor any ride is written. *)
Theorem respond_ride_request_authorization :
  forall request_id request action w user w1,
    get_current_user request w = (Return (Some user), w1) ->
    let out := respond_ride_request request_id request action w in
    (find_one (request_filter request_id) (ride_requests (db w)) = None ->
       refused_with 404 "Request not found" w out) /\
    (forall rr,
       find_one (request_filter request_id) (ride_requests (db w)) = Some rr ->
       find_one (ride_filter (RideRequest.ride_id rr)) (rides (db w)) = None ->
       refused_with 403 "Not authorized" w out) /\
    (forall rr ride,
       find_one (request_filter request_id) (ride_requests (db w)) = Some rr ->
       find_one (ride_filter (RideRequest.ride_id rr)) (rides (db w)) = Some ride ->
       Ride.user_id ride <> User.user_id user ->
       refused_with 403 "Not authorized" w out).
Proof. exact respond_ride_request_refusals. Qed.

Lemma respond_ride_request_authorization_witness :
  let w := Demo.world (Demo.store [] [Demo.ride 3] [Demo.ask "pending"]) in
  let out := respond_ride_request "req_1" (Demo.as_user "tok-bob") "accept" w in
  fst out = Raise (mk_exn 403 "Not authorized") /\
  ride_requests (db (snd out)) = [Demo.ask "pending"] /\
  rides (db (snd out)) = [Demo.ride 3].
Proof.
  intros w out.
  destruct (respond_ride_request_authorization "req_1" (Demo.as_user "tok-bob") "accept" w
              Demo.bob _ eq_refl) as (_ & _ & H).
  destruct (H (Demo.ask "pending") (Demo.ride 3) eq_refl eq_refl) as [H1 H2].
  - discriminate.
  - subst out. rewrite H1, H2. repeat split.
Defined.

(** ** Signing out *)

Section MoreCollectionFacts.
Context {A : Type}.
Implicit Types (flt : A -> bool) (upd : A -> A) (l : list A).

Lemma find_one_app flt l l' :
  find_one flt (l ++ l') =
  match find_one flt l with Some x => Some x | None => find_one flt l' end.
Proof.
  induction l as [|y l IH]; cbn; [reflexivity|]. destruct (flt y); auto.
Qed.

Lemma find_one_delete_one_other flt flt' l :
  (forall x, flt x = true -> flt' x = false) ->
  find_one flt' (delete_one flt l) = find_one flt' l.
Proof.
  intros Hd. unfold find_one. induction l as [|y l IH]; cbn; [reflexivity|].
  destruct (flt y) eqn:Hy.
  - now rewrite (Hd y Hy).
  - cbn. now rewrite IH.
Qed.

Lemma count_documents_delete_one_le flt flt' l :
  count_documents flt' (delete_one flt l) <= count_documents flt' l.
Proof.
  unfold count_documents. induction l as [|y l IH]; cbn; [lia|].
  destruct (flt y); cbn; destruct (flt' y); cbn [List.length]; lia.
Qed.

Lemma count_documents_update_one flt flt' upd l :
  (forall x, flt' (upd x) = flt' x) ->
  count_documents flt' (update_one flt upd l) = count_documents flt' l.
Proof.
  intros Hk. unfold count_documents. induction l as [|y l IH]; cbn; [reflexivity|].
  destruct (flt y); cbn; [rewrite Hk|]; destruct (flt' y); cbn [List.length]; lia.
Qed.

Lemma count_documents_nonneg flt l : 0 <= count_documents flt l.
Proof. unfold count_documents. lia. Qed.

Lemma count_documents_none flt l : count_documents flt l = 0 -> find_one flt l = None.
Proof.
  intros Hc. destruct (find_one flt l) eqn:E; [|reflexivity].
  apply count_documents_found in E. lia.
Qed.

(** With a single match, rewriting it leaves no other match behind. *)
Lemma update_one_unique flt upd l y :
  count_documents flt l = 1 ->
  In y (update_one flt upd l) -> flt y = true ->
  exists x, find_one flt l = Some x /\ y = upd x.
Proof.
  unfold count_documents.
  induction l as [|a l IH]; cbn [update_one filter find_one find]; [intros _ []|].
  destruct (flt a) eqn:Ha; cbn [List.length]; intros Hc Hin Hy.
  - destruct Hin as [<- | Hin]; [eauto|].
    assert (Hz : count_documents flt l = 0) by (unfold count_documents; lia).
    apply count_documents_none in Hz.
    pose proof (find_one_none_all _ _ Hz y Hin). congruence.
  - destruct Hin as [<- | Hin]; [congruence|]. now apply IH.
Qed.

End MoreCollectionFacts.

(** What resolution answers depends on the store and on the clock
    reading it takes, nothing else. *)
Lemma get_current_user_no_row request w :
  match request_session_token request with
  | Some tok => find_one (session_filter tok) (user_sessions (db w)) = None
  | None => True
  end ->
  get_current_user request w = (Return None, w).
Proof.
  unfold get_current_user. destruct (request_session_token request) as [tok|]; cbn [truthy].
  - intros Hn. destruct (negb _); [reflexivity|]. unfold bind, query, ret. now rewrite Hn.
  - reflexivity.
Qed.

(** X3. Signing out never fails.  When exactly one session row carries the
    request's token, that row is removed: the token resolves to nobody
    in any world over the resulting store, while every other token finds
    the row it found before. *)
Theorem logout_revokes_token :
  forall request w tok,
    request_session_token request = Some tok ->
    tok <> "" ->
    count_documents (session_filter tok) (user_sessions (db w)) = 1 ->
    let out := logout request w in
    fst out = Return (mk_message "Logged out") /\
    (forall w', db w' = db (snd out) -> get_current_user request w' = (Return None, w')) /\
    (forall tok', tok' <> tok ->
       find_one (session_filter tok') (user_sessions (db (snd out)))
       = find_one (session_filter tok') (user_sessions (db w))) /\
    users (db (snd out)) = users (db w).
Proof.
  intros request w tok Htok Hne Hone out. subst out.
  unfold logout. rewrite Htok. cbn [truthy]. apply String.eqb_neq in Hne. rewrite Hne.
  cbn [negb]. unfold bind, write, ret. cbn [fst snd]. rewrite with_db_db.
  cbn [user_sessions users set_user_sessions].
  split; [reflexivity|]. split; [|split; [|reflexivity]].
  - intros w' Hdb. apply get_current_user_no_row. rewrite Htok, Hdb.
    cbn [user_sessions set_user_sessions]. now apply find_one_delete_one_unique.
  - intros tok' Hother. apply find_one_delete_one_other.
    intros s Hs. unfold session_filter in *. apply String.eqb_eq in Hs.
    apply String.eqb_neq. congruence.
Qed.

Lemma logout_revokes_token_witness :
  let w := Demo.world (Demo.store [] [] []) in
  let out := logout (Demo.as_user "tok-alice") w in
  fst (get_current_user (Demo.as_user "tok-alice") w) = Return (Some Demo.alice) /\
  fst (get_current_user (Demo.as_user "tok-alice") (snd out)) = Return None /\
  fst (get_current_user (Demo.as_user "tok-bob") (snd out)) = Return (Some Demo.bob).
Proof.
  intros w out.
  destruct (logout_revokes_token (Demo.as_user "tok-alice") w "tok-alice" eq_refl)
    as (_ & H & _).
  - discriminate.
  - reflexivity.
  - split; [reflexivity|]. split; [|reflexivity].
    now rewrite (H (snd out) eq_refl).
Defined.

(** Without a token, or with a token no row carries, signing out still
    answers "Logged out" and the store is untouched. *)
Lemma logout_unknown_token request w :
  match request_session_token request with
  | Some tok => find_one (session_filter tok) (user_sessions (db w)) = None
  | None => True
  end ->
  fst (logout request w) = Return (mk_message "Logged out") /\
  db (snd (logout request w)) = db w.
Proof.
  unfold logout. destruct (request_session_token request) as [tok|]; cbn [truthy].
  - intros Hn. destruct (negb _); unfold bind, write, ret; cbn [fst snd].
    + rewrite with_db_db, (delete_one_miss _ _ Hn). split; [reflexivity|].
      now destruct (db w).
    + now split.
  - intros _. unfold bind, ret. cbn. now split.
Qed.

(** ** Registration *)

Lemma truthy_some s : truthy (Some s) = negb (s =? "")%string.
Proof. reflexivity. Qed.

Lemma register_checks_pass user_data w :
  register_admissible user_data (db w) ->
  (match UserCreate.email user_data with
   | Some e =>
       if truthy (Some e)
       then existing <- query (fun d => find_one (email_filter e) (users d)) ;;
            match existing with
            | Some _ => raise 400 "Email already registered"
            | None => ret tt
            end
       else ret tt
   | None => ret tt
   end) w = (Return tt, w) /\
  (match UserCreate.phone user_data with
   | Some p =>
       if truthy (Some p)
       then existing <- query (fun d => find_one (phone_filter p) (users d)) ;;
            match existing with
            | Some _ => raise 400 "Phone already registered"
            | None => ret tt
            end
       else ret tt
   | None => ret tt
   end) w = (Return tt, w).
Proof.
  intros [He Hp]. split.
  - destruct (UserCreate.email user_data) as [e|]; [|reflexivity].
    rewrite truthy_some. destruct (String.eqb_spec e ""); cbn [negb]; [reflexivity|].
    unfold bind, query, ret. now rewrite (He e eq_refl).
  - destruct (UserCreate.phone user_data) as [p|]; [|reflexivity].
    rewrite truthy_some. destruct (String.eqb_spec p ""); cbn [negb]; [reflexivity|].
    unfold bind, query, ret. now rewrite (Hp p eq_refl).
Qed.

Lemma register_run hashpw user_data w :
  register_admissible user_data (db w) ->
  register_hash_returns hashpw user_data w ->
  let out := register hashpw user_data w in
  fst out = Return (AuthResponse.mk (register_user_id w) (register_token user_data w)
                                    (UserCreate.name user_data),
                    session_cookie (register_token user_data w)) /\
  db (snd out) = registered_store hashpw user_data w.
Proof.
  intros Hadm Hret out. subst out.
  destruct (register_checks_pass _ _ Hadm) as [E1 E2].
  unfold register. rewrite (bind_return _ _ _ _ _ E1), (bind_return _ _ _ _ _ E2).
  unfold register_hash_returns in Hret.
  unfold registered_store, register_session, register_token, register_user_doc,
    register_user_id, register_password_hash in *. unfold register_hashes in *.
  unfold hash_password, internal_server_error. unfold_handler_monad.
  cbn [fst snd db clock ticks entropy draws].
  destruct (UserCreate.password user_data) as [pw|]; [|split; reflexivity].
  destruct (truthy (Some pw) && (UserCreate.auth_type user_data =? "email")%string);
    [|split; reflexivity].
  cbn [fst snd db clock ticks entropy draws].
  destruct (hashpw pw (entropy w (S (draws w)))) as [h|]; [split; reflexivity|].
  now destruct (Hret eq_refl).
Qed.

(** When the library refuses the password, the registration ends in a
    500 before anything is written. *)
Lemma register_hash_raises hashpw user_data w :
  register_admissible user_data (db w) ->
  register_hashes user_data = true ->
  register_password_hash hashpw user_data w = None ->
  let out := register hashpw user_data w in
  fst out = Raise (mk_exn 500 "Internal Server Error") /\ db (snd out) = db w.
Proof.
  intros Hadm Hh Hnone out. subst out.
  destruct (register_checks_pass _ _ Hadm) as [E1 E2].
  unfold register. rewrite (bind_return _ _ _ _ _ E1), (bind_return _ _ _ _ _ E2).
  unfold register_password_hash in Hnone. rewrite Hh in Hnone. unfold register_hashes in Hh.
  unfold hash_password, internal_server_error. unfold_handler_monad.
  cbn [fst snd db clock ticks entropy draws].
  destruct (UserCreate.password user_data) as [pw|]; [|discriminate].
  rewrite Hh. cbn [fst snd db clock ticks entropy draws]. rewrite Hnone.
  split; reflexivity.
Qed.

Lemma register_refusals :
  forall hashpw user_data w,
    (forall e u,
        UserCreate.email user_data = Some e -> e <> "" ->
        find_one (email_filter e) (users (db w)) = Some u ->
        register hashpw user_data w = (Raise (mk_exn 400 "Email already registered"), w)) /\
    (forall p u,
        UserCreate.phone user_data = Some p -> p <> "" ->
        (forall e, UserCreate.email user_data = Some e -> e <> "" ->
                   find_one (email_filter e) (users (db w)) = None) ->
        find_one (phone_filter p) (users (db w)) = Some u ->
        register hashpw user_data w = (Raise (mk_exn 400 "Phone already registered"), w)).
Proof.
  intros hashpw user_data w. unfold register.
  destruct user_data as [email phone password name auth_type]. cbn.
  split.
  - intros e u -> Hne Hu. apply String.eqb_neq in Hne. rewrite Hne. cbn [negb].
    unfold bind, query, raise. now rewrite Hu.
  - intros p u -> Hne He Hu.
    assert (E1 : (match email with
                  | Some e =>
                      if negb (e =? "")%string
                      then existing <- query (fun d => find_one (email_filter e) (users d)) ;;
                           match existing with
                           | Some _ => raise 400 "Email already registered"
                           | None => ret tt
                           end
                      else ret tt
                  | None => ret tt
                  end) w = (Return tt, w)).
    { destruct email as [e|]; [|reflexivity].
      destruct (String.eqb_spec e ""); cbn [negb]; [reflexivity|].
      unfold bind, query, ret. now rewrite (He e eq_refl). }
    rewrite (bind_return _ _ _ _ _ E1).
    apply String.eqb_neq in Hne. rewrite Hne. cbn [negb].
    unfold bind, query, raise. now rewrite Hu.
Qed.

(** X4. A contact that is already registered stops the registration before
    anything is drawn or written: 400 "Email already registered" for the
    email, and, when the email passes, 400 "Phone already registered"
    for the phone. *)
Theorem register_duplicate_contact_refused :
  forall hashpw user_data w,
    (forall e u,
        UserCreate.email user_data = Some e -> e <> "" ->
        find_one (email_filter e) (users (db w)) = Some u ->
        register hashpw user_data w = (Raise (mk_exn 400 "Email already registered"), w)) /\
    (forall p u,
        UserCreate.phone user_data = Some p -> p <> "" ->
        (forall e, UserCreate.email user_data = Some e -> e <> "" ->
                   find_one (email_filter e) (users (db w)) = None) ->
        find_one (phone_filter p) (users (db w)) = Some u ->
        register hashpw user_data w = (Raise (mk_exn 400 "Phone already registered"), w)).
Proof. exact register_refusals. Qed.

Lemma register_duplicate_contact_refused_witness :
  let w := Demo.world (Demo.store [] [] []) in
  register Demo.hashpw
           (UserCreate.mk (Some "alice@example.com") None (Some "pw") "Alice II" "email") w
    = (Raise (mk_exn 400 "Email already registered"), w) /\
  register Demo.hashpw
           (UserCreate.mk (Some "new@example.com") (Some "555-0199") None "Carol II" "phone") w
    = (Raise (mk_exn 400 "Phone already registered"), w).
Proof.
  intros w. split.
  - apply (proj1 (register_duplicate_contact_refused _ _ w) "alice@example.com" Demo.alice);
      [reflexivity | discriminate | reflexivity].
  - apply (proj2 (register_duplicate_contact_refused _ _ w) "555-0199" Demo.carol);
      [reflexivity | discriminate | | reflexivity].
    intros e [= <-] _. reflexivity.
Defined.

(** What the store keeps of a UTC reading: the reading cut to the
    millisecond, without a zone. *)
Lemma bson_datetime_utc t :
  bson_datetime (mk_datetime t (Some 0)) = mk_datetime (1000 * (t / 1000)) None.
Proof. unfold bson_datetime, utc_instant. cbn [wall tzinfo]. now rewrite Z.sub_0_r. Qed.

Lemma bson_datetime_utc_add_days t n :
  bson_datetime (add_days (mk_datetime t (Some 0)) n)
  = mk_datetime (1000 * ((t + n * 86400000000) / 1000)) None.
Proof.
  unfold bson_datetime, utc_instant, add_days. cbn [wall tzinfo]. now rewrite Z.sub_0_r.
Qed.

(** A request whose token finds a row that has expired resolves to
    nobody. *)
Lemma get_current_user_expired_row request w tok session :
  request_session_token request = Some tok ->
  find_one (session_filter tok) (user_sessions (db w)) = Some session ->
  utc_instant (Session.expires_at session) <= clock w (ticks w) ->
  fst (get_current_user request w) = Return None.
Proof.
  intros Htok Hs Hexp. unfold get_current_user. rewrite Htok.
  destruct (negb (truthy (Some tok))); [reflexivity|].
  unfold bind, query, datetime_now_utc, ret. rewrite Hs. cbv beta iota.
  unfold datetime_le. rewrite utc_instant_naive_as_utc. cbn [utc_instant wall tzinfo].
  rewrite Z.sub_0_r.
  destruct (Z.leb_spec (utc_instant (Session.expires_at session)) (clock w (ticks w)));
    [reflexivity | lia].
Qed.

Lemma registered_store_users hashpw user_data w :
  users (registered_store hashpw user_data w)
  = users (db w) ++ [stored_user (register_user_doc user_data w)].
Proof.
  unfold registered_store. now destruct (register_password_hash hashpw user_data w).
Qed.

Lemma registered_store_sessions hashpw user_data w :
  user_sessions (registered_store hashpw user_data w)
  = user_sessions (db w) ++ [register_session user_data w].
Proof.
  unfold registered_store. now destruct (register_password_hash hashpw user_data w).
Qed.

Lemma registered_store_passwords hashpw user_data w :
  user_passwords (registered_store hashpw user_data w)
  = match register_password_hash hashpw user_data w with
    | Some password_hash =>
        user_passwords (db w) ++ [Password.mk (register_user_id w) password_hash]
    | None => user_passwords (db w)
    end.
Proof.
  unfold registered_store. now destruct (register_password_hash hashpw user_data w).
Qed.

(** X5. A registration that passes both uniqueness tests and whose
    hashing, if any, returns stores the user as a public passenger, with
    the creation date as the store keeps it.  Let the issued token be
    non-empty and carried by no session row yet, and the new user id not
    be taken.  The session expires at the reading the expiry was
    computed from plus seven days, cut to the millisecond: in every
    world over the resulting store, a request carrying the token
    resolves to the stored new user while the clock reads less than
    that, and to nobody from then on.  When the library refuses the
    password instead, the registration ends in a 500 and stores
    nothing. *)
Theorem register_session_authenticates :
  forall hashpw user_data w request,
    register_admissible user_data (db w) ->
    register_token user_data w <> "" ->
    find_one (session_filter (register_token user_data w)) (user_sessions (db w)) = None ->
    find_one (user_filter (register_user_id w)) (users (db w)) = None ->
    request_session_token request = Some (register_token user_data w) ->
    let out := register hashpw user_data w in
    let new_user := stored_user (register_user_doc user_data w) in
    let expiry := 1000 * ((clock w (S (ticks w)) + 7 * 86400000000) / 1000) in
    (register_hash_returns hashpw user_data w ->
     User.is_public new_user = true /\ User.profile_type new_user = "passenger" /\
     User.created_at new_user = mk_datetime (1000 * (clock w (ticks w) / 1000)) None /\
     users (db (snd out)) = users (db w) ++ [new_user] /\
     forall w',
       db w' = db (snd out) ->
       (clock w' (ticks w') < expiry ->
        fst (get_current_user request w') = Return (Some new_user)) /\
       (expiry <= clock w' (ticks w') ->
        fst (get_current_user request w') = Return None)) /\
    (register_hashes user_data = true ->
     register_password_hash hashpw user_data w = None ->
     fst out = Raise (mk_exn 500 "Internal Server Error") /\ db (snd out) = db w).
Proof.
  intros hashpw user_data w request Hadm Hne Hs Hu Htok out new_user expiry.
  subst out new_user expiry.
  split; [|now apply register_hash_raises].
  intros Hret.
  destruct (register_run hashpw _ _ Hadm Hret) as [_ Hstore].
  pose proof (registered_store_users hashpw user_data w) as Husers.
  pose proof (registered_store_sessions hashpw user_data w) as Hsess.
  split; [reflexivity|]. split; [reflexivity|].
  split; [cbn [stored_user register_user_doc User.created_at]; apply bson_datetime_utc|].
  revert Hstore. generalize (db (snd (register hashpw user_data w))). intros d ->.
  split; [exact Husers|].
  intros w' Hdb.
  assert (Hrow : find_one (session_filter (register_token user_data w))
                          (user_sessions (db w')) = Some (register_session user_data w)).
  { rewrite Hdb, Hsess, find_one_app, Hs. cbn. unfold session_filter. cbn.
    now rewrite String.eqb_refl. }
  assert (Hexp : utc_instant (Session.expires_at (register_session user_data w))
                 = 1000 * ((clock w (S (ticks w)) + 7 * 86400000000) / 1000)).
  { unfold register_session. cbn [Session.expires_at].
    now rewrite bson_datetime_utc_add_days. }
  split; intros Hclock.
  - apply (get_current_user_live _ _ _ (register_session user_data w) _ Htok Hne Hrow).
    + rewrite Hexp. exact Hclock.
    + rewrite Hdb, Husers, find_one_app. cbn [register_session Session.user_id].
      rewrite Hu. cbn. unfold user_filter. cbn. now rewrite String.eqb_refl.
  - apply (get_current_user_expired_row _ _ _ _ Htok Hrow). rewrite Hexp. exact Hclock.
Qed.

Lemma register_session_authenticates_witness :
  let dave password := UserCreate.mk (Some "dave@example.com") None (Some password)
                                     "Dave" "email" in
  let w := mk_world (Demo.store [] [] []) (fun k => 1250 + Z.of_nat k) 0
                    (fun _ => "0123456789abcdef0123456789abcdef") 0 in
  let out := register Demo.hashpw_72 (dave "pw") w in
  let refused := register Demo.hashpw_72 (dave Demo.long_password) w in
  let request := Demo.with_bearer "0123456789abcdef0123456789abcdef" in
  let at_time t := mk_world (db (snd out)) (fun _ => t) 0 (entropy w) 0 in
  (exists new_user,
      fst (get_current_user request (snd out)) = Return (Some new_user) /\
      User.name new_user = "Dave" /\ User.user_id new_user = "user_0123456789ab" /\
      User.created_at new_user = mk_datetime 1000 None) /\
  fst (get_current_user request (at_time (7 * 86400000000 + 999))) <> Return None /\
  fst (get_current_user request (at_time (7 * 86400000000 + 1000))) = Return None /\
  fst (get_current_user request (at_time (7 * 86400000000 + 1250))) = Return None /\
  fst refused = Raise (mk_exn 500 "Internal Server Error") /\
  db (snd refused) = db w.
Proof.
  intros dave w out refused request at_time.
  destruct (register_session_authenticates Demo.hashpw_72 (dave "pw") w request)
    as [Hok _].
  1:{ split; intros x [= <-] _; reflexivity. }
  1-4: (reflexivity || discriminate).
  destruct (register_session_authenticates Demo.hashpw_72 (dave Demo.long_password) w request)
    as [_ Hbad].
  1:{ split; intros x [= <-] _; reflexivity. }
  1-4: (reflexivity || discriminate).
  destruct Hok as (_ & _ & Hc & _ & H); [intros _; discriminate|].
  destruct (Hbad eq_refl eq_refl) as [H1 H2].
  split; [|split; [|split; [|split; [|split]]]].
  - exists (stored_user (register_user_doc (dave "pw") w)).
    split; [|split; [reflexivity | split; [reflexivity | exact Hc]]].
    apply (H (snd out) eq_refl). cbn. lia.
  - rewrite (proj1 (H (at_time (7 * 86400000000 + 999)) eq_refl)); [discriminate|].
    cbn. lia.
  - apply (H (at_time (7 * 86400000000 + 1000)) eq_refl). cbn. lia.
  - apply (H (at_time (7 * 86400000000 + 1250)) eq_refl). cbn. lia.
  - exact H1.
  - exact H2.
Defined.

(** X6. Register, then log in.  Take any hash and check functions such that
    the password hashes, under every salt, to a text it checks against.
    After a registration by email with this non-empty password that
    passes both uniqueness tests, and provided no credential is stored
    yet under the new user id, a login with the same email and password
    goes through as the new user. *)
Theorem register_then_login :
  forall hashpw checkpw user_data w e password phone,
    (forall salt, exists password_hash,
        hashpw password salt = Some password_hash /\
        checkpw password password_hash = Some true) ->
    register_admissible user_data (db w) ->
    UserCreate.email user_data = Some e -> e <> "" ->
    UserCreate.password user_data = Some password -> password <> "" ->
    UserCreate.auth_type user_data = "email" ->
    find_one (password_filter (register_user_id w)) (user_passwords (db w)) = None ->
    exists token cookie w',
      login checkpw (UserLogin.mk (Some e) phone password)
            (snd (register hashpw user_data w))
      = (Return (AuthResponse.mk (register_user_id w) token (UserCreate.name user_data),
                 cookie), w').
Proof.
  intros hashpw checkpw user_data w e password phone Hbcrypt Hadm He Hne Hpw Hpne Hauth Hfree.
  assert (Hhash : register_hashes user_data = true).
  { unfold register_hashes. rewrite Hpw, Hauth. cbn.
    apply String.eqb_neq in Hpne. now rewrite Hpne. }
  destruct (Hbcrypt (entropy w (S (draws w)))) as (h & Hh & Hcheck).
  assert (Hstored : register_password_hash hashpw user_data w = Some h).
  { unfold register_password_hash. now rewrite Hpw, Hhash. }
  assert (Hret : register_hash_returns hashpw user_data w).
  { intros _. now rewrite Hstored. }
  destruct (register_run hashpw _ _ Hadm Hret) as [_ Hstore].
  pose proof (registered_store_users hashpw user_data w) as Husers.
  pose proof (registered_store_passwords hashpw user_data w) as Hpass.
  rewrite Hstored in Hpass.
  revert Hstore. generalize (snd (register hashpw user_data w)). intros w1 Hstore.
  destruct (login_success checkpw (UserLogin.mk (Some e) phone password) w1
              (stored_user (register_user_doc user_data w))
              (Password.mk (register_user_id w) h))
    as (token & cookie & w' & Hlogin & _).
  - unfold login_lookup. cbn [UserLogin.email truthy].
    apply String.eqb_neq in Hne. rewrite Hne. cbn [negb].
    rewrite Hstore, Husers. apply String.eqb_neq in Hne.
    change (find_one (email_filter e)
                     (users (db w) ++ [stored_user (register_user_doc user_data w)])
            = Some (stored_user (register_user_doc user_data w))).
    rewrite find_one_app, (proj1 Hadm e He Hne). cbn. unfold email_filter. cbn.
    rewrite He. cbn. now rewrite String.eqb_refl.
  - rewrite Hstore, Hpass, find_one_app. cbn [stored_user register_user_doc User.user_id].
    rewrite Hfree. cbn. unfold password_filter. cbn. now rewrite String.eqb_refl.
  - cbn. exact Hcheck.
  - eauto.
Qed.

Lemma register_then_login_witness :
  let w := Demo.world (Demo.store [] [] []) in
  let user_data := UserCreate.mk (Some "dave@example.com") None (Some "pw") "Dave" "email" in
  exists token cookie w',
    login Demo.checkpw_72 (UserLogin.mk (Some "dave@example.com") None "pw")
          (snd (register Demo.hashpw_72 user_data w))
    = (Return (AuthResponse.mk "user_0123456789ab" token "Dave", cookie), w').
Proof.
  intros w user_data.
  apply (register_then_login Demo.hashpw_72 Demo.checkpw_72 user_data w
           "dave@example.com" "pw" None).
  - intros salt. exists "hash:pw". split; reflexivity.
  - split; intros x [= <-] _; reflexivity.
  - reflexivity.
  - discriminate.
  - reflexivity.
  - discriminate.
  - reflexivity.
  - reflexivity.
Defined.

(** ** Guest and provider sign-in *)

Lemma guest_login_run w :
  exists token w',
    guest_login w = (Return (AuthResponse.mk (User.user_id (guest_user_doc w)) token
                                             (User.name (guest_user_doc w)),
                             session_cookie token), w') /\
    users (db w') = users (db w) ++ [stored_user (guest_user_doc w)] /\
    user_sessions (db w') =
      user_sessions (db w)
      ++ [Session.mk (User.user_id (guest_user_doc w)) token
                     (bson_datetime (add_days (mk_datetime (clock w (S (ticks w))) (Some 0)) 7))
                     (bson_datetime (mk_datetime (clock w (S (S (ticks w)))) (Some 0)))] /\
    user_passwords (db w') = user_passwords (db w) /\ follows (db w') = follows (db w) /\
    rides (db w') = rides (db w) /\ ride_requests (db w') = ride_requests (db w).
Proof.
  unfold guest_login. unfold_handler_monad. cbn.
  eexists _, _. split; [reflexivity|]. repeat split.
Qed.

Lemma register_cases hashpw user_data w :
  register_admissible user_data (db w) \/ db (snd (register hashpw user_data w)) = db w.
Proof.
  destruct (register_refusals hashpw user_data w) as [Hemail Hphone].
  unfold register_admissible.
  destruct (UserCreate.email user_data) as [e|].
  - destruct (String.eqb_spec e "") as [He|He];
      [|destruct (find_one (email_filter e) (users (db w))) as [u|] eqn:Hfe].
    2:{ right. now rewrite (Hemail e u eq_refl He Hfe). }
    all: destruct (UserCreate.phone user_data) as [p|];
      [destruct (String.eqb_spec p "") as [Hp|Hp];
       [|destruct (find_one (phone_filter p) (users (db w))) as [u|] eqn:Hfp]|].
    all: try (left; split; intros x Hx Hn; injection Hx as Hx; subst; congruence).
    all: try (left; split; intros x Hx Hn; [injection Hx as Hx; subst; congruence
                                          | discriminate Hx]).
    all: right; rewrite (Hphone p u eq_refl Hp); [reflexivity| |exact Hfp];
      intros x Hx Hn; injection Hx as Hx; subst; congruence.
  - destruct (UserCreate.phone user_data) as [p|];
      [destruct (String.eqb_spec p "") as [Hp|Hp];
       [|destruct (find_one (phone_filter p) (users (db w))) as [u|] eqn:Hfp]|].
    all: try (left; split; intros x Hx Hn; [discriminate Hx
                                          | injection Hx as Hx; subst; congruence]).
    + right. rewrite (Hphone p u eq_refl Hp); [reflexivity| |exact Hfp].
      intros x Hx. discriminate Hx.
    + left. split; intros x Hx; discriminate Hx.
Qed.

(** A registration either leaves the store as it was, or passes both
    tests and ends with [registered_store]. *)
Lemma register_store_cases hashpw user_data w :
  db (snd (register hashpw user_data w)) = db w \/
  (register_admissible user_data (db w) /\
   db (snd (register hashpw user_data w)) = registered_store hashpw user_data w).
Proof.
  destruct (register_cases hashpw user_data w) as [Hadm | H]; [|now left].
  destruct (register_hashes user_data) eqn:Hh.
  - destruct (register_password_hash hashpw user_data w) as [h|] eqn:Hp.
    + right. split; [assumption|]. apply register_run; [assumption|].
      intros _. now rewrite Hp.
    + left. now apply register_hash_raises.
  - right. split; [assumption|]. apply register_run; [assumption|].
    intros Hh'. congruence.
Qed.

(** The user a request resolves to is the document stored under its id. *)
Lemma get_current_user_stored request w user w1 :
  get_current_user request w = (Return (Some user), w1) ->
  find_one (user_filter (User.user_id user)) (users (db w)) = Some user.
Proof.
  unfold get_current_user.
  destruct (negb (truthy (request_session_token request))); [discriminate|].
  destruct (request_session_token request) as [tok|]; [|discriminate].
  unfold bind, query, datetime_now_utc, ret.
  destruct (find_one _ (user_sessions (db w))) as [s|]; [|discriminate].
  destruct (datetime_le _ _); [discriminate|]. cbn [db].
  destruct (find_one (user_filter (Session.user_id s)) (users (db w))) as [u|] eqn:Hu;
    [|discriminate].
  intros [= <- _]. destruct (find_one_some_in _ _ _ Hu) as [_ Hid].
  unfold user_filter in Hid. apply String.eqb_eq in Hid. now rewrite Hid.
Qed.

Lemma user_filter_set i u x : user_filter i (user_set u x) = user_filter i x.
Proof. reflexivity. Qed.

Lemma user_set_empty u x : profile_dict_nonempty u = false -> user_set u x = x.
Proof.
  destruct u as [n b p t v], x. unfold profile_dict_nonempty, user_set. cbn.
  destruct n, b, p, t, v; try discriminate. reflexivity.
Qed.

Lemma update_profile_run request update_data w user w1 :
  get_current_user request w = (Return (Some user), w1) ->
  let out := update_profile request update_data w in
  fst out = Return (user_set update_data user) /\
  db (snd out) = (if profile_dict_nonempty update_data
                  then set_users (update_one (user_filter (User.user_id user))
                                             (user_set update_data) (users (db w))) (db w)
                  else db w).
Proof.
  intros Hauth out. subst out.
  pose proof (get_current_user_db _ _ _ _ Hauth) as Hdb.
  pose proof (get_current_user_stored _ _ _ _ Hauth) as Hu.
  pose proof (find_one_some_in _ _ _ Hu) as [_ Hflt].
  unfold update_profile.
  rewrite (bind_return _ _ _ _ _ (require_auth_return _ _ _ _ Hauth)).
  unfold bind, query, write, ret.
  destruct (profile_dict_nonempty update_data) eqn:Hne.
  - rewrite with_db_db, Hdb. cbn [users set_users].
    rewrite (find_one_update_one _ (user_set update_data) _ _ Hu Hflt). now split.
  - rewrite Hdb, Hu, (user_set_empty _ _ Hne). now split.
Qed.

Lemma google_callback_run session_data session_id user_data w :
  session_id <> "" ->
  session_data session_id = Some user_data ->
  let out := google_callback session_data (Some session_id) w in
  let token := SessionData.session_token user_data in
  exists user_id session,
    fst out = Return (AuthResponse.mk user_id token (SessionData.name user_data),
                      session_cookie token) /\
    match find_one (email_filter (SessionData.email user_data)) (users (db w)) with
    | Some existing =>
        user_id = User.user_id existing /\ users (db (snd out)) = users (db w)
    | None =>
        user_id = User.user_id (google_user_doc user_data w) /\
        users (db (snd out)) = users (db w) ++ [stored_user (google_user_doc user_data w)]
    end /\
    user_sessions (db (snd out)) = user_sessions (db w) ++ [session] /\
    Session.user_id session = user_id /\ Session.session_token session = token /\
    user_passwords (db (snd out)) = user_passwords (db w) /\
    follows (db (snd out)) = follows (db w).
Proof.
  intros Hne Hsd out token. subst out token. unfold google_callback.
  cbn [truthy]. apply String.eqb_neq in Hne. rewrite Hne. cbn [negb]. rewrite Hsd.
  unfold_handler_monad.
  destruct (find_one (email_filter (SessionData.email user_data)) (users (db w)))
    as [existing|]; cbn; eexists _, _; repeat split.
Qed.

Lemma google_callback_refusals session_data body w :
  (body = None \/ body = Some "" ->
   google_callback session_data body w = (Raise (mk_exn 400 "session_id required"), w)) /\
  (forall session_id,
      body = Some session_id -> session_id <> "" -> session_data session_id = None ->
      google_callback session_data body w = (Raise (mk_exn 401 "Invalid session"), w)).
Proof.
  unfold google_callback. split.
  - intros [-> | ->]; reflexivity.
  - intros session_id -> Hne Hsd. cbn [truthy]. apply String.eqb_neq in Hne.
    now rewrite Hne, Hsd.
Qed.

(** ** Contacts stay unique *)

Lemma contacts_unique_same_users d d' :
  users d' = users d -> contacts_unique d -> contacts_unique d'.
Proof. unfold contacts_unique. now intros ->. Qed.

Lemma contacts_unique_insert d d' doc :
  users d' = users d ++ [doc] ->
  (forall e, e <> "" -> User.email doc = Some e ->
             find_one (email_filter e) (users d) = None) ->
  (forall p, p <> "" -> User.phone doc = Some p ->
             find_one (phone_filter p) (users d) = None) ->
  contacts_unique d -> contacts_unique d'.
Proof.
  intros Hu He Hp [Ue Up]. unfold contacts_unique. rewrite Hu.
  change (users d ++ [doc]) with (insert_one doc (users d)).
  split; intros x Hx; rewrite count_documents_insert_one.
  - destruct (email_filter x doc) eqn:Hf; [|specialize (Ue x Hx); lia].
    unfold email_filter, opt_str_eqb in Hf. destruct (User.email doc) as [e|] eqn:Ee;
      [|discriminate].
    apply String.eqb_eq in Hf. subst e.
    rewrite (count_documents_zero _ _ (He x Hx eq_refl)). lia.
  - destruct (phone_filter x doc) eqn:Hf; [|specialize (Up x Hx); lia].
    unfold phone_filter, opt_str_eqb in Hf. destruct (User.phone doc) as [p|] eqn:Ep;
      [|discriminate].
    apply String.eqb_eq in Hf. subst p.
    rewrite (count_documents_zero _ _ (Hp x Hx eq_refl)). lia.
Qed.

(** X7. No handler that creates or edits users ever makes two users share a
    non-empty email or a non-empty phone: registration, guest sign-in,
    provider sign-in and profile update all keep [contacts_unique],
    however they end. *)
Theorem user_handlers_keep_contacts_unique :
  forall hashpw session_data user_data body request update_data w,
    contacts_unique (db w) ->
    contacts_unique (db (snd (register hashpw user_data w))) /\
    contacts_unique (db (snd (guest_login w))) /\
    contacts_unique (db (snd (google_callback session_data body w))) /\
    contacts_unique (db (snd (update_profile request update_data w))).
Proof.
  intros hashpw session_data user_data body request update_data w Hu.
  split; [|split; [|split]].
  - destruct (register_store_cases hashpw user_data w) as [-> | [Hadm ->]]; [assumption|].
    apply (contacts_unique_insert (db w) _ (stored_user (register_user_doc user_data w)));
      try assumption.
    + apply registered_store_users.
    + intros e Hne He. now apply (proj1 Hadm).
    + intros p Hne Hp. now apply (proj2 Hadm).
  - destruct (guest_login_run w) as (token & w' & -> & Husers & _).
    apply (contacts_unique_insert (db w) _ (stored_user (guest_user_doc w))); try assumption;
      intros x _ Hx; discriminate Hx.
  - destruct (google_callback_refusals session_data body w) as [H400 H401].
    destruct body as [session_id|]; [|now rewrite H400; auto].
    destruct (String.eqb_spec session_id "") as [->|Hne]; [now rewrite H400; auto|].
    destruct (session_data session_id) as [ud|] eqn:Hsd;
      [|now rewrite (H401 session_id eq_refl Hne Hsd)].
    destruct (google_callback_run session_data session_id ud w Hne Hsd)
      as (uid & s & _ & Hcase & _).
    destruct (find_one (email_filter (SessionData.email ud)) (users (db w)))
      as [existing|] eqn:Hfind.
    + destruct Hcase as [_ Hsame]. now apply (contacts_unique_same_users (db w)).
    + destruct Hcase as [_ Hins].
      apply (contacts_unique_insert (db w) _ (stored_user (google_user_doc ud w)));
        try assumption.
      * intros e _ [= <-]. assumption.
      * intros p _ Hp. discriminate Hp.
  - destruct (get_current_user_reads request w) as ([user|] & w1 & Hauth & Hdb).
    + destruct (update_profile_run _ update_data _ _ _ Hauth) as [_ ->].
      destruct (profile_dict_nonempty update_data); [|assumption].
      destruct Hu as [Ue Up]. unfold contacts_unique. cbn [users set_users].
      split; intros x Hx; rewrite count_documents_update_one; auto.
    + unfold update_profile.
      rewrite (bind_raise _ _ _ _ _ (require_auth_raise _ _ _ Hauth)). cbn [snd].
      now rewrite Hdb.
Qed.

(** The deployment's three users share no email and no phone. *)
Lemma demo_contacts_unique fs rs qs : contacts_unique (Demo.store fs rs qs).
Proof.
  split; intros x _;
    cbv [Demo.store users count_documents List.filter email_filter phone_filter
         opt_str_eqb User.email User.phone Demo.alice Demo.bob Demo.carol].
  - destruct (String.eqb_spec "alice@example.com" x) as [<-|_]; [cbn; lia|].
    destruct ("bob@example.com" =? x)%string; cbn; lia.
  - destruct (String.eqb_spec "555-0101" x) as [<-|_]; [cbn; lia|].
    destruct ("555-0199" =? x)%string; cbn; lia.
Qed.

Lemma user_handlers_keep_contacts_unique_witness :
  let w := Demo.world (Demo.store [] [] []) in
  let hashpw := Demo.hashpw in
  let provider := fun sid : string =>
    if (sid =? "sid-1")%string
    then Some (SessionData.mk "erin@example.com" "Erin" None "tok-google")
    else None in
  let dave := UserCreate.mk (Some "dave@example.com") (Some "555-0102") (Some "pw")
                            "Dave" "email" in
  let alice_again := UserCreate.mk (Some "alice@example.com") (Some "555-0103") (Some "pw")
                                   "Alice" "email" in
  let rename := UserUpdate.mk (Some "Al") None None None (Some false) in
  let w1 := snd (register hashpw dave w) in
  let w2 := snd (register hashpw alice_again w1) in
  List.length (users (db w)) = 3%nat /\
  contacts_unique (db w1) /\ List.length (users (db w1)) = 4%nat /\
  contacts_unique (db w2) /\ users (db w2) = users (db w1) /\
  contacts_unique (db (snd (guest_login w1))) /\
  contacts_unique (db (snd (google_callback provider (Some "sid-1") w1))) /\
  List.length (users (db (snd (google_callback provider (Some "sid-1") w1)))) = 5%nat /\
  contacts_unique (db (snd (update_profile (Demo.as_user "tok-alice") rename w1))).
Proof.
  intros w hashpw provider dave alice_again rename w1 w2.
  pose proof (user_handlers_keep_contacts_unique hashpw provider dave (Some "sid-1")
                (Demo.as_user "tok-alice") rename w (demo_contacts_unique [] [] []))
    as (H1 & _).
  fold w1 in H1.
  pose proof (user_handlers_keep_contacts_unique hashpw provider alice_again (Some "sid-1")
                (Demo.as_user "tok-alice") rename w1 H1) as (H2 & H3 & H4 & H5).
  fold w2 in H2.
  split; [reflexivity|]. split; [exact H1|]. split; [reflexivity|].
  split; [exact H2|]. split; [reflexivity|]. split; [exact H3|].
  split; [exact H4|]. split; [reflexivity | exact H5].
Defined.

(** X8. Guest sign-in always goes through.  With [n] guests stored it names
    the new user "Guest User n+1", stores it as a public guest without
    email or phone, and the next guest sign-in uses n+2. *)
Theorem guest_login_numbers_guests :
  forall w,
    let n := count_documents (auth_type_filter "guest") (users (db w)) in
    exists r1 c1 w1 r2 c2 w2,
      guest_login w = (Return (r1, c1), w1) /\
      AuthResponse.name r1 = String.append "Guest User " (str_of_int (n + 1)) /\
      count_documents (auth_type_filter "guest") (users (db w1)) = n + 1 /\
      (exists u, users (db w1) = users (db w) ++ [u] /\
                 User.user_id u = AuthResponse.user_id r1 /\
                 User.is_public u = true /\ User.auth_type u = "guest" /\
                 User.email u = None /\ User.phone u = None) /\
      guest_login w1 = (Return (r2, c2), w2) /\
      AuthResponse.name r2 = String.append "Guest User " (str_of_int (n + 2)).
Proof.
  intros w n. subst n.
  destruct (guest_login_run w) as (t1 & w1 & H1 & Hu1 & _).
  destruct (guest_login_run w1) as (t2 & w2 & H2 & _).
  assert (Hc : count_documents (auth_type_filter "guest") (users (db w1))
               = count_documents (auth_type_filter "guest") (users (db w)) + 1).
  { rewrite Hu1. change (users (db w) ++ [stored_user (guest_user_doc w)])
      with (insert_one (stored_user (guest_user_doc w)) (users (db w))).
    now rewrite count_documents_insert_one. }
  eexists _, _, w1, _, _, w2. split; [exact H1|]. split; [reflexivity|].
  split; [exact Hc|]. split.
  { exists (stored_user (guest_user_doc w)). repeat split. exact Hu1. }
  split; [exact H2|]. cbn [AuthResponse.name guest_user_doc User.name].
  rewrite Hc. replace (count_documents (auth_type_filter "guest") (users (db w)) + 1 + 1)
    with (count_documents (auth_type_filter "guest") (users (db w)) + 2) by lia.
  reflexivity.
Qed.

Example guest_login_third_guest :
  let w := Demo.world (mk_db [Demo.alice] [] [] [] [] []) in
  let first := guest_login w in
  let second := guest_login (snd first) in
  let third := guest_login (snd second) in
  option_map (fun r => AuthResponse.name (fst r))
             (match fst third with Return r => Some r | Raise _ => None end)
  = Some "Guest User 3".
Proof. reflexivity. Qed.

(** ** Provider sign-in *)

(** X9. [google_callback] refuses a missing or empty session id with 400 and
    a session the provider does not confirm with 401, writing nothing.
    For a confirmed session whose email a stored user already has, it
    signs that user in: no user is added, and one session row is
    appended that binds the provider's token to the user's id.  For an
    unknown email it adds exactly one public user with that email. *)
Theorem google_callback_outcomes :
  forall session_data body w,
    (body = None \/ body = Some "" ->
     google_callback session_data body w = (Raise (mk_exn 400 "session_id required"), w)) /\
    (forall session_id,
        body = Some session_id -> session_id <> "" -> session_data session_id = None ->
        google_callback session_data body w = (Raise (mk_exn 401 "Invalid session"), w)) /\
    (forall session_id user_data,
        body = Some session_id -> session_id <> "" ->
        session_data session_id = Some user_data ->
        let out := google_callback session_data body w in
        let token := SessionData.session_token user_data in
        exists user_id session,
          fst out = Return (AuthResponse.mk user_id token (SessionData.name user_data),
                            session_cookie token) /\
          user_sessions (db (snd out)) = user_sessions (db w) ++ [session] /\
          Session.user_id session = user_id /\ Session.session_token session = token /\
          (forall existing,
              find_one (email_filter (SessionData.email user_data)) (users (db w))
                = Some existing ->
              user_id = User.user_id existing /\ users (db (snd out)) = users (db w)) /\
          (find_one (email_filter (SessionData.email user_data)) (users (db w)) = None ->
           exists u, users (db (snd out)) = users (db w) ++ [u] /\
                     User.user_id u = user_id /\
                     User.email u = Some (SessionData.email user_data) /\
                     User.is_public u = true /\ User.auth_type u = "google")).
Proof.
  intros session_data body w.
  destruct (google_callback_refusals session_data body w) as [H400 H401].
  split; [exact H400|]. split; [exact H401|].
  intros session_id user_data -> Hne Hsd out token. subst out token.
  destruct (google_callback_run session_data session_id user_data w Hne Hsd)
    as (uid & s & Hout & Hcase & Hs & Hsu & Hst & _).
  exists uid, s. repeat (split; [assumption|]). split.
  - intros existing He. now rewrite He in Hcase.
  - intros He. rewrite He in Hcase. destruct Hcase as [-> Hu].
    exists (stored_user (google_user_doc user_data w)). repeat split. exact Hu.
Qed.

Lemma google_callback_outcomes_witness :
  let w := Demo.world (Demo.store [] [] []) in
  let provider := fun sid : string =>
    if (sid =? "sid-1")%string
    then Some (SessionData.mk "alice@example.com" "Alice A." None "tok-google")
    else None in
  let out := google_callback provider (Some "sid-1") w in
  google_callback provider (Some "sid-2") w = (Raise (mk_exn 401 "Invalid session"), w) /\
  users (db (snd out)) = users (db w) /\
  fst (get_current_user (Demo.as_user "tok-google") (snd out)) = Return (Some Demo.alice).
Proof.
  intros w provider out.
  destruct (google_callback_outcomes provider (Some "sid-2") w) as (_ & H401 & _).
  destruct (google_callback_outcomes provider (Some "sid-1") w) as (_ & _ & Hok).
  split.
  - apply (H401 "sid-2"); [reflexivity | discriminate | reflexivity].
  - destruct (Hok "sid-1" (SessionData.mk "alice@example.com" "Alice A." None "tok-google")
                eq_refl) as (uid & s & _ & _ & _ & _ & Hex & _);
      [discriminate | reflexivity |].
    destruct (Hex Demo.alice eq_refl) as [_ Hu].
    split; [exact Hu | reflexivity].
Defined.

(** ** Sessions are only ever added by a sign-in *)

Lemma login_sessions checkpw credentials w :
  exists l, user_sessions (db (snd (login checkpw credentials w))) = user_sessions (db w) ++ l.
Proof.
  unfold login. unfold_handler_monad.
  destruct (login_lookup credentials (db w)) as [user|]; cbv beta iota;
    [|exists []; cbn; now rewrite app_nil_r].
  destruct (find_one _ (user_passwords (db w))) as [pd|]; cbv beta iota;
    [|exists []; cbn; now rewrite app_nil_r].
  unfold verify_password, internal_server_error, raise, ret.
  destruct (checkpw _ _) as [[|]|]; cbv beta iota; cbn [negb];
    try (exists []; cbn; now rewrite app_nil_r).
  cbn. eexists. reflexivity.
Qed.

Lemma register_sessions hashpw user_data w :
  exists l,
    user_sessions (db (snd (register hashpw user_data w))) = user_sessions (db w) ++ l.
Proof.
  destruct (register_store_cases hashpw user_data w) as [-> | [_ ->]];
    [exists []; now rewrite app_nil_r|].
  exists [register_session user_data w]. apply registered_store_sessions.
Qed.

Lemma google_callback_sessions session_data body w :
  exists l,
    user_sessions (db (snd (google_callback session_data body w)))
    = user_sessions (db w) ++ l.
Proof.
  destruct (google_callback_refusals session_data body w) as [H400 H401].
  destruct body as [session_id|]; [|rewrite H400 by auto; exists []; now rewrite app_nil_r].
  destruct (String.eqb_spec session_id "") as [->|Hne];
    [rewrite H400 by auto; exists []; now rewrite app_nil_r|].
  destruct (session_data session_id) as [ud|] eqn:Hsd.
  - destruct (google_callback_run session_data session_id ud w Hne Hsd)
      as (uid & s & _ & _ & Hs & _). eauto.
  - rewrite (H401 session_id eq_refl Hne Hsd). exists []. now rewrite app_nil_r.
Qed.

(** X10. Signing in is additive.  Whatever the outcome of a login, a
    registration, a guest sign-in or a provider sign-in, every token that
    found a session row before the call finds the same row after it: no
    sign-in revokes or replaces a session. *)
Theorem sign_in_keeps_sessions :
  forall checkpw hashpw session_data credentials user_data body w tok s,
    find_one (session_filter tok) (user_sessions (db w)) = Some s ->
    find_one (session_filter tok) (user_sessions (db (snd (login checkpw credentials w))))
      = Some s /\
    find_one (session_filter tok) (user_sessions (db (snd (register hashpw user_data w))))
      = Some s /\
    find_one (session_filter tok) (user_sessions (db (snd (guest_login w)))) = Some s /\
    find_one (session_filter tok)
             (user_sessions (db (snd (google_callback session_data body w)))) = Some s.
Proof.
  intros checkpw hashpw session_data credentials user_data body w tok s Hs.
  destruct (login_sessions checkpw credentials w) as [l1 ->].
  destruct (register_sessions hashpw user_data w) as [l2 ->].
  destruct (google_callback_sessions session_data body w) as [l4 ->].
  destruct (guest_login_run w) as (t & w' & -> & _ & Hg & _). cbn [snd]. rewrite Hg.
  rewrite !find_one_app, Hs. repeat split.
Qed.

Lemma sign_in_keeps_sessions_witness :
  let w := Demo.world (Demo.store [] [] []) in
  let w' := snd (login Demo.checkpw
                       (UserLogin.mk (Some "alice@example.com") None "wonderland") w) in
  List.length (user_sessions (db w')) = 5%nat /\
  option_map Session.user_id (find_one (session_filter "tok-alice") (user_sessions (db w')))
    = Some "user_alice".
Proof.
  intros w w'. split; [reflexivity|].
  destruct (sign_in_keeps_sessions Demo.checkpw Demo.hashpw (fun _ => None)
              (UserLogin.mk (Some "alice@example.com") None "wonderland")
              (UserCreate.mk None None None "x" "email") None w "tok-alice"
              (Session.mk "user_alice" "tok-alice" (mk_datetime 1000 None) Demo.t0) eq_refl)
    as [H _].
  subst w'. now rewrite H.
Defined.

(** ** Profile update *)

(** X11. Going private takes effect at once.  After a signed-in user sets
    [is_public] to false, a signed-in viewer who is not that user and
    holds no accepted edge towards it gets the limited view, carrying
    the name as updated, in every world over the resulting store. *)
Theorem update_profile_private_hides_profile :
  forall request update_data w user w1 request' w' viewer w1',
    get_current_user request w = (Return (Some user), w1) ->
    UserUpdate.is_public update_data = Some false ->
    db w' = db (snd (update_profile request update_data w)) ->
    get_current_user request' w' = (Return (Some viewer), w1') ->
    User.user_id viewer <> User.user_id user ->
    find_one (accepted_edge_filter (User.user_id viewer) (User.user_id user))
             (follows (db w)) = None ->
    fst (update_profile request update_data w) = Return (user_set update_data user) /\
    get_user (User.user_id user) request' w' =
      (Return (LimitedProfile (User.user_id user)
                              (or_keep (UserUpdate.name update_data) (User.name user))
                              (or_keep_opt (UserUpdate.profile_picture update_data)
                                           (User.profile_picture user))
                              (or_keep (UserUpdate.profile_type update_data)
                                       (User.profile_type user))
                              false true), w1').
Proof.
  intros request update_data w user w1 request' w' viewer w1'
         Hauth Hpriv Hdb' Hauth' Hne Hedge.
  destruct (update_profile_run _ update_data _ _ _ Hauth) as [Hout Hstore].
  split; [exact Hout|].
  assert (Hnonempty : profile_dict_nonempty update_data = true).
  { unfold profile_dict_nonempty. rewrite Hpriv.
    destruct (UserUpdate.name update_data), (UserUpdate.bio update_data),
      (UserUpdate.profile_picture update_data), (UserUpdate.profile_type update_data);
      reflexivity. }
  rewrite Hnonempty in Hstore. rewrite Hstore in Hdb'.
  pose proof (get_current_user_stored _ _ _ _ Hauth) as Hu.
  pose proof (find_one_some_in _ _ _ Hu) as [_ Hflt].
  assert (Hfind : find_one (user_filter (User.user_id user)) (users (db w'))
                  = Some (user_set update_data user)).
  { rewrite Hdb'. cbn [users set_users]. now apply find_one_update_one. }
  assert (Hfollows : follows (db w') = follows (db w)) by now rewrite Hdb'.
  rewrite <- Hfollows in Hedge.
  rewrite (get_user_private_stranger _ _ _ _ _ _ Hauth' Hfind); try assumption.
  - cbn. now rewrite Hpriv.
  - cbn. now rewrite Hpriv.
Qed.

Lemma update_profile_private_hides_profile_witness :
  let w := Demo.world (Demo.store [] [] []) in
  let patch := UserUpdate.mk (Some "A.") None None None (Some false) in
  let w' := snd (update_profile (Demo.as_user "tok-alice") patch w) in
  fst (get_user "user_alice" (Demo.as_user "tok-bob") w)
    = Return (FullProfile Demo.alice) /\
  fst (get_user "user_alice" (Demo.as_user "tok-bob") w')
    = Return (LimitedProfile "user_alice" "A." None "rider" false true).
Proof.
  intros w patch w'. split; [reflexivity|].
  destruct (update_profile_private_hides_profile (Demo.as_user "tok-alice") patch w
              Demo.alice _ (Demo.as_user "tok-bob") w' Demo.bob _
              eq_refl eq_refl eq_refl eq_refl) as [_ H].
  - discriminate.
  - reflexivity.
  - exact (f_equal fst H).
Defined.

(** ** Follow requests are answered once *)

Lemma new_status_not_pending action : new_status action <> "pending".
Proof. unfold new_status. destruct (action =? "accept")%string; discriminate. Qed.

(** X12. Once the target has answered a pending follow request whose id no
    other edge carries, the request is decided for good: the edge holds
    the status the action decided, and any further answer to that id, by
    anybody and with any action, raises 404 and writes nothing. *)
Theorem respond_follow_request_one_shot :
  forall follow_id request action w user w1 f request' action' user' w2,
    get_current_user request w = (Return (Some user), w1) ->
    find_one (pending_follow_filter follow_id (User.user_id user)) (follows (db w)) = Some f ->
    count_documents (follow_id_filter follow_id) (follows (db w)) = 1 ->
    let first := respond_follow_request follow_id request action w in
    get_current_user request' (snd first) = (Return (Some user'), w2) ->
    let second := respond_follow_request follow_id request' action' (snd first) in
    fst first = Return (mk_message (String.append "Follow request " (new_status action))) /\
    find_one (follow_id_filter follow_id) (follows (db (snd first)))
      = Some (Follow.set_status (new_status action) f) /\
    second = (Raise (mk_exn 404 "Follow request not found"), w2) /\
    db w2 = db (snd first).
Proof.
  intros follow_id request action w user w1 f request' action' user' w2 Hauth Hf Hone
         first Hauth' second. subst second first.
  pose proof (respond_follow_request_run _ _ action _ _ _ _ Hauth Hf) as Hrun.
  rewrite Hrun in Hauth' |- *. cbn [fst snd] in *.
  pose proof (get_current_user_db _ _ _ _ Hauth') as Hdb'. rewrite with_db_db in Hdb'.
  rewrite with_db_db. cbn [follows set_follows].
  destruct (find_one_pending_follow_id _ _ _ _ Hf) as [f0 Hf0].
  assert (Hsame : f0 = f).
  { destruct (find_one_some_in _ _ _ Hf) as [Hin Hflt].
    assert (Hid : follow_id_filter follow_id f = true).
    { unfold pending_follow_filter in Hflt. unfold follow_id_filter.
      now apply andb_prop in Hflt as [Hflt _]; apply andb_prop in Hflt as [Hflt _]. }
    destruct (update_one_unique (follow_id_filter follow_id) (fun x => x) _ f Hone)
      as (x & Hx & ->); [|assumption|congruence].
    clear -Hin. induction (follows (db w)) as [|a l IH]; [destruct Hin|].
    cbn. destruct (follow_id_filter follow_id a); [exact Hin|].
    destruct Hin as [-> | Hin]; [now left | right; auto]. }
  subst f0.
  split; [reflexivity|]. split.
  { apply find_one_update_one; [assumption|]. now apply find_one_some_in in Hf0. }
  split; [|exact Hdb'].
  apply (respond_follow_request_not_pending _ _ _ _ _ _ Hauth').
  rewrite with_db_db. cbn [follows set_follows].
  destruct (find_one (pending_follow_filter follow_id (User.user_id user')) _) as [y|] eqn:Hy;
    [|reflexivity].
  exfalso. destruct (find_one_some_in _ _ _ Hy) as [Hin Hflt].
  unfold pending_follow_filter in Hflt.
  apply andb_prop in Hflt as [Hflt Hst]. apply andb_prop in Hflt as [Hid _].
  destruct (update_one_unique _ _ _ y Hone Hin Hid) as (x & _ & ->).
  cbn in Hst. apply String.eqb_eq in Hst. now apply new_status_not_pending in Hst.
Qed.

Lemma respond_follow_request_one_shot_witness :
  let w := Demo.world (Demo.store [Demo.edge "pending"] [] []) in
  let first := respond_follow_request "follow_1" (Demo.as_user "tok-bob") "reject" w in
  let second := respond_follow_request "follow_1" (Demo.as_user "tok-bob") "accept"
                                       (snd first) in
  fst first = Return (mk_message "Follow request rejected") /\
  fst second = Raise (mk_exn 404 "Follow request not found") /\
  follows (db (snd second)) = [Demo.edge "rejected"].
Proof.
  intros w first second.
  destruct (respond_follow_request_one_shot "follow_1" (Demo.as_user "tok-bob") "reject" w
              Demo.bob _ (Demo.edge "pending") (Demo.as_user "tok-bob") "accept" Demo.bob _
              eq_refl eq_refl eq_refl eq_refl) as (H1 & _ & H3 & H4).
  split; [exact H1|]. subst second first. rewrite H3. cbn [fst snd].
  split; [reflexivity|]. now rewrite H4.
Defined.

(** ** One edge per ordered pair *)

Lemma follow_user_store_fresh request follow_req w :
  let d' := db (snd (follow_user request follow_req w)) in
  d' = db w \/
  exists doc,
    find_one (edge_filter (Follow.follower_id doc) (Follow.following_id doc))
             (follows (db w)) = None /\
    d' = set_follows (insert_one doc (follows (db w))) (db w).
Proof.
  cbv zeta.
  destruct (follow_user_store request follow_req w)
    as [H | (user & w1 & target & Hauth & Hne & Ht & H)]; [now left|].
  destruct (find_one (edge_filter (User.user_id user) (FollowRequest.following_id follow_req))
                     (follows (db w))) as [e|] eqn:He.
  - left. rewrite (follow_user_existing _ _ _ _ _ _ _ Hauth Hne Ht He). cbn [snd].
    apply (get_current_user_db _ _ _ _ Hauth).
  - right. exists (new_follow_doc user follow_req target w1). split; assumption.
Qed.

(** X13. The three handlers that write the follow collection keep it free of
    duplicate edges: following inserts only when no edge for the pair is
    stored, unfollowing only removes, and answering a request rewrites a
    status and nothing else. *)
Theorem follow_handlers_keep_edges_unique :
  forall request follow_req user_id follow_id action w,
    edges_unique (db w) ->
    edges_unique (db (snd (follow_user request follow_req w))) /\
    edges_unique (db (snd (unfollow_user user_id request w))) /\
    edges_unique (db (snd (respond_follow_request follow_id request action w))).
Proof.
  intros request follow_req user_id follow_id action w Hu.
  split; [|split].
  - destruct (follow_user_store_fresh request follow_req w) as [-> | (doc & Hnone & ->)];
      [assumption|].
    intros a b. cbn [follows set_follows]. rewrite count_documents_insert_one.
    destruct (edge_filter a b doc) eqn:Hf; [|specialize (Hu a b); lia].
    apply edge_filter_true in Hf as [<- <-].
    rewrite (count_documents_zero _ _ Hnone). lia.
  - destruct (get_current_user_reads request w) as ([user|] & w1 & Hauth & Hdb).
    + destruct (unfollow_user_run user_id _ _ _ _ Hauth) as [_ ->].
      intros a b. cbn [follows set_follows].
      pose proof (count_documents_delete_one_le
                    (edge_filter (User.user_id user) user_id) (edge_filter a b)
                    (follows (db w))).
      specialize (Hu a b). lia.
    + unfold unfollow_user.
      rewrite (bind_raise _ _ _ _ _ (require_auth_raise _ _ _ Hauth)). cbn [snd].
      now rewrite Hdb.
  - destruct (get_current_user_reads request w) as ([user|] & w1 & Hauth & Hdb).
    + destruct (find_one (pending_follow_filter follow_id (User.user_id user))
                         (follows (db w))) as [f|] eqn:Hf.
      * rewrite (respond_follow_request_run _ _ action _ _ _ _ Hauth Hf). cbn [snd].
        rewrite with_db_db. intros a b. cbn [follows set_follows].
        rewrite count_documents_update_one; [apply Hu | reflexivity].
      * rewrite (respond_follow_request_not_pending _ _ action _ _ _ Hauth Hf). cbn [snd].
        now rewrite Hdb.
    + unfold respond_follow_request.
      rewrite (bind_raise _ _ _ _ _ (require_auth_raise _ _ _ Hauth)). cbn [snd].
      now rewrite Hdb.
Qed.

Lemma follow_handlers_keep_edges_unique_witness :
  let w := Demo.world (Demo.store [Demo.edge "pending"] [] []) in
  let w1 := snd (follow_user (Demo.as_user "tok-bob") (FollowRequest.mk "user_alice") w) in
  let w2 := snd (follow_user (Demo.as_user "tok-alice") (FollowRequest.mk "user_bob") w1) in
  List.length (follows (db w)) = 1%nat /\
  edges_unique (db w1) /\ List.length (follows (db w1)) = 2%nat /\
  edges_unique (db w2) /\ follows (db w2) = follows (db w1) /\
  edges_unique (db (snd (unfollow_user "user_bob" (Demo.as_user "tok-alice") w1))) /\
  List.length (follows (db (snd (unfollow_user "user_bob" (Demo.as_user "tok-alice") w1))))
    = 1%nat /\
  edges_unique (db (snd (respond_follow_request "follow_1" (Demo.as_user "tok-bob")
                                                "accept" w1))) /\
  map Follow.status (follows (db (snd (respond_follow_request
                                         "follow_1" (Demo.as_user "tok-bob") "accept" w1))))
    = ["accepted"; "accepted"].
Proof.
  intros w w1 w2.
  assert (Hw : edges_unique (db w)).
  { intros a b. cbv [w Demo.world Demo.store db follows count_documents List.filter].
    destruct (edge_filter a b (Demo.edge "pending")); cbn; lia. }
  pose proof (follow_handlers_keep_edges_unique (Demo.as_user "tok-bob")
                (FollowRequest.mk "user_alice") "user_bob" "follow_1" "accept" w Hw)
    as (H1 & _).
  fold w1 in H1.
  pose proof (follow_handlers_keep_edges_unique (Demo.as_user "tok-alice")
                (FollowRequest.mk "user_bob") "user_bob" "follow_1" "accept" w1 H1)
    as (H2 & H3 & _).
  fold w2 in H2.
  pose proof (follow_handlers_keep_edges_unique (Demo.as_user "tok-bob")
                (FollowRequest.mk "user_alice") "user_alice" "follow_1" "accept" w1 H1)
    as (_ & _ & H4).
  split; [reflexivity|]. split; [exact H1|]. split; [reflexivity|].
  split; [exact H2|]. split; [reflexivity|]. split; [exact H3|].
  split; [reflexivity|]. split; [exact H4 | reflexivity].
Defined.

(** ** From a follow request to a visible profile *)

Lemma update_one_app_miss {A} (flt : A -> bool) (upd : A -> A) (l l' : list A) :
  find_one flt l = None -> update_one flt upd (l ++ l') = l ++ update_one flt upd l'.
Proof.
  induction l as [|x l IH]; cbn; [reflexivity|].
  destruct (flt x); [discriminate|]. intros H. now rewrite IH.
Qed.

Lemma get_follow_status_run user_id request w user w1 :
  get_current_user request w = (Return (Some user), w1) ->
  get_follow_status user_id request w =
    (Return (match find_one (edge_filter (User.user_id user) user_id) (follows (db w)) with
             | None => mk_follow_status false None
             | Some follow =>
                 mk_follow_status (Follow.status follow =? "accepted")%string
                                  (Some (Follow.status follow))
             end), w1).
Proof.
  intros Hauth. pose proof (get_current_user_db _ _ _ _ Hauth) as Hdb.
  unfold get_follow_status. rewrite (bind_return _ _ _ _ _ Hauth).
  unfold bind, query, ret. rewrite Hdb.
  now destruct (find_one _ (follows (db w))).
Qed.

(** X15. The private-profile path, end to end.  A follows private B with no
    edge stored for the pair and a fresh follow id: the answer is
    "pending".  B accepts that id.  From then on A's follow status for B
    reads is_following = true with status "accepted", and A is served
    B's full profile. *)
Theorem follow_private_then_accept :
  forall reqA follow_req w a w1 target reqB wB ub wB1 reqA' wA a' wA1,
    let b := FollowRequest.following_id follow_req in
    let doc := new_follow_doc a follow_req target w1 in
    get_current_user reqA w = (Return (Some a), w1) ->
    User.user_id a <> b ->
    find_one (user_filter b) (users (db w)) = Some target ->
    User.is_public target = false ->
    find_one (edge_filter (User.user_id a) b) (follows (db w)) = None ->
    find_one (follow_id_filter (Follow.follow_id doc)) (follows (db w)) = None ->
    db wB = db (snd (follow_user reqA follow_req w)) ->
    get_current_user reqB wB = (Return (Some ub), wB1) ->
    User.user_id ub = b ->
    db wA = db (snd (respond_follow_request (Follow.follow_id doc) reqB "accept" wB)) ->
    get_current_user reqA' wA = (Return (Some a'), wA1) ->
    User.user_id a' = User.user_id a ->
    fst (follow_user reqA follow_req w)
      = Return (FollowResponse.mk "Follow request sent" "pending") /\
    fst (respond_follow_request (Follow.follow_id doc) reqB "accept" wB)
      = Return (mk_message "Follow request accepted") /\
    fst (get_follow_status b reqA' wA) = Return (mk_follow_status true (Some "accepted")) /\
    fst (get_user b reqA' wA) = Return (FullProfile target).
Proof.
  intros reqA follow_req w a w1 target reqB wB ub wB1 reqA' wA a' wA1 b doc
         HauthA Hne Ht Hpriv Hedge Hfresh HdbB HauthB Hub HdbA HauthA' Ha'.
  destruct (follow_user_fresh _ _ _ _ _ _ HauthA Hne Ht Hedge) as [H1 Hstore1].
  fold doc in Hstore1. rewrite Hpriv in H1. cbn [negb] in H1.
  rewrite Hstore1 in HdbB.
  assert (Hdoc_status : Follow.status doc = "pending")
    by (unfold doc, new_follow_doc; now rewrite Hpriv).
  assert (HfB : follows (db wB) = follows (db w) ++ [doc]) by now rewrite HdbB.
  assert (Hpend : find_one (pending_follow_filter (Follow.follow_id doc) (User.user_id ub))
                           (follows (db wB)) = Some doc).
  { rewrite HfB, find_one_app.
    destruct (find_one (pending_follow_filter _ _) (follows (db w))) as [y|] eqn:Hy.
    - destruct (find_one_pending_follow_id _ _ _ _ Hy) as [y0 Hy0]. congruence.
    - cbn. unfold pending_follow_filter. rewrite Hdoc_status, Hub, String.eqb_refl.
      cbn [Follow.following_id doc new_follow_doc]. fold b. now rewrite String.eqb_refl. }
  pose proof (respond_follow_request_run _ _ "accept" _ _ _ _ HauthB Hpend) as H2.
  rewrite H2 in HdbA |- *. cbn [fst snd] in *. rewrite with_db_db in HdbA.
  assert (HfA : follows (db wA)
                = follows (db w) ++ [Follow.set_status "accepted" doc]).
  { rewrite HdbA. cbn [follows set_follows]. rewrite HfB.
    rewrite (update_one_app_miss _ _ _ _ Hfresh). cbn.
    unfold follow_id_filter. now rewrite String.eqb_refl. }
  assert (HuA : users (db wA) = users (db w)) by (rewrite HdbA, HdbB; reflexivity).
  assert (HedgeA : find_one (edge_filter (User.user_id a') b) (follows (db wA))
                   = Some (Follow.set_status "accepted" doc)).
  { rewrite Ha', HfA, find_one_app, Hedge. cbn. unfold edge_filter. cbn. fold b.
    now rewrite !String.eqb_refl. }
  split; [exact H1|]. split; [reflexivity|]. split.
  - rewrite (get_follow_status_run _ _ _ _ _ HauthA'), HedgeA. reflexivity.
  - rewrite <- HuA in Ht.
    rewrite (get_user_full _ _ _ _ _ _ HauthA' Ht); [reflexivity|].
    right. right. exists (Follow.set_status "accepted" doc).
    rewrite Ha', HfA, find_one_app.
    destruct (find_one (accepted_edge_filter (User.user_id a) b) (follows (db w)))
      as [y|] eqn:Hy.
    + exfalso. destruct (find_one_some_in _ _ _ Hy) as [Hin Hflt].
      pose proof (find_one_none_all _ _ Hedge y Hin) as Hn.
      unfold accepted_edge_filter in Hflt. unfold edge_filter in Hn.
      apply andb_prop in Hflt as [Hflt _]. congruence.
    + cbn. unfold accepted_edge_filter. cbn. fold b. now rewrite !String.eqb_refl.
Qed.

Lemma follow_private_then_accept_witness :
  let w := Demo.world (Demo.store [] [] []) in
  let out1 := follow_user (Demo.as_user "tok-alice") (FollowRequest.mk "user_bob") w in
  let out2 := respond_follow_request "follow_0123456789ab" (Demo.as_user "tok-bob")
                                     "accept" (snd out1) in
  fst (get_user "user_bob" (Demo.as_user "tok-alice") w)
    = Return (LimitedProfile "user_bob" "Bob" None "passenger" false true) /\
  fst (get_follow_status "user_bob" (Demo.as_user "tok-alice") (snd out2))
    = Return (mk_follow_status true (Some "accepted")) /\
  fst (get_user "user_bob" (Demo.as_user "tok-alice") (snd out2))
    = Return (FullProfile Demo.bob).
Proof.
  intros w out1 out2. split; [reflexivity|].
  destruct (follow_private_then_accept (Demo.as_user "tok-alice")
              (FollowRequest.mk "user_bob") w Demo.alice
              (snd (get_current_user (Demo.as_user "tok-alice") w)) Demo.bob
              (Demo.as_user "tok-bob") (snd out1) Demo.bob
              (snd (get_current_user (Demo.as_user "tok-bob") (snd out1)))
              (Demo.as_user "tok-alice") (snd out2) Demo.alice
              (snd (get_current_user (Demo.as_user "tok-alice") (snd out2))))
    as (_ & _ & H3 & H4); try reflexivity; try discriminate.
  split; assumption.
Defined.

(** ** Posting, reading and deleting rides *)



Lemma get_ride_run ride_id w :
  get_ride ride_id w =
    match find_one (ride_filter ride_id) (rides (db w)) with
    | None => (Raise (mk_exn 404 "Ride not found"), w)
    | Some ride => (Return (ride, find_one (user_filter (Ride.user_id ride)) (users (db w))), w)
    end.
Proof.
  unfold get_ride, bind, query, ret, raise. now destruct (find_one _ (rides (db w))).
Qed.



(** X20. Delete, then the ride is gone.  After its owner deleted the only
    ride stored under an id, reading the id raises 404, while the
    requests made against the ride are all still stored; answering one
    of them now raises 403 for every signed-in user and writes
    nothing. *)
Theorem delete_ride_orphans_requests :
  forall ride_id request w user w1 ride,
    get_current_user request w = (Return (Some user), w1) ->
    find_one (ride_filter ride_id) (rides (db w)) = Some ride ->
    Ride.user_id ride = User.user_id user ->
    count_documents (ride_filter ride_id) (rides (db w)) = 1 ->
    let out := delete_ride ride_id request w in
    fst out = Return (mk_message "Ride deleted") /\
    ride_requests (db (snd out)) = ride_requests (db w) /\
    forall w',
      db w' = db (snd out) ->
      get_ride ride_id w' = (Raise (mk_exn 404 "Ride not found"), w') /\
      forall request_id request' action rr anyone w1',
        get_current_user request' w' = (Return (Some anyone), w1') ->
        find_one (request_filter request_id) (ride_requests (db w')) = Some rr ->
        RideRequest.ride_id rr = ride_id ->
        refused_with 403 "Not authorized" w'
                     (respond_ride_request request_id request' action w').
Proof.
  intros ride_id request w user w1 ride Hauth Hride Hown Hone out. subst out.
  pose proof (get_current_user_db _ _ _ _ Hauth) as Hdb.
  assert (Hrun : delete_ride ride_id request w
                 = (Return (mk_message "Ride deleted"),
                    with_db (set_rides (delete_one (ride_filter ride_id) (rides (db w)))
                                       (db w)) w1)).
  { unfold delete_ride.
    rewrite (bind_return _ _ _ _ _ (require_auth_return _ _ _ _ Hauth)).
    unfold bind, query, write, ret, raise. rewrite Hdb, Hride. cbv beta iota.
    rewrite Hown, String.eqb_refl. cbn [negb]. now rewrite Hdb. }
  rewrite Hrun. cbn [fst snd]. rewrite with_db_db.
  split; [reflexivity|]. split; [reflexivity|].
  intros w' Hdb'.
  assert (Hgone : find_one (ride_filter ride_id) (rides (db w')) = None).
  { rewrite Hdb'. cbn [rides set_rides]. now apply find_one_delete_one_unique. }
  split.
  - now rewrite get_ride_run, Hgone.
  - intros request_id request' action rr anyone w1' Hauth' Hrr Hid.
    destruct (respond_ride_request_refusals request_id request' action w'
                anyone w1' Hauth') as (_ & H403 & _).
    apply (H403 rr Hrr). now rewrite Hid.
Qed.

Lemma delete_ride_orphans_requests_witness :
  let w := Demo.world (Demo.store [] [Demo.ride 3] [Demo.ask "pending"]) in
  let out := delete_ride "ride_1" (Demo.as_user "tok-alice") w in
  fst (get_ride "ride_1" (snd out)) = Raise (mk_exn 404 "Ride not found") /\
  fst (respond_ride_request "req_1" (Demo.as_user "tok-alice") "accept" (snd out))
    = Raise (mk_exn 403 "Not authorized").
Proof.
  intros w out.
  destruct (delete_ride_orphans_requests "ride_1" (Demo.as_user "tok-alice") w Demo.alice
              (snd (get_current_user (Demo.as_user "tok-alice") w)) (Demo.ride 3)
              eq_refl eq_refl eq_refl eq_refl) as (_ & _ & H).
  destruct (H (snd out) eq_refl) as [H1 H2].
  split; [exact (f_equal fst H1)|].
  exact (proj1 (H2 "req_1" (Demo.as_user "tok-alice") "accept" (Demo.ask "pending")
                   Demo.alice _ eq_refl eq_refl eq_refl)).
Defined.

(** ** From a ride request to a seat *)

Lemma request_ride_run request req_data w user w1 ride :
  get_current_user request w = (Return (Some user), w1) ->
  find_one (ride_filter (RideRequestCreate.ride_id req_data)) (rides (db w)) = Some ride ->
  Ride.user_id ride <> User.user_id user ->
  find_one (open_request_filter (RideRequestCreate.ride_id req_data) (User.user_id user))
           (ride_requests (db w)) = None ->
  let out := request_ride request req_data w in
  fst out = Return (new_request_doc user req_data w1) /\
  db (snd out) = set_ride_requests
                   (insert_one (new_request_doc user req_data w1) (ride_requests (db w)))
                   (db w).
Proof.
  intros Hauth Hride Hown Hnone out. subst out.
  pose proof (get_current_user_db _ _ _ _ Hauth) as Hdb.
  unfold request_ride. rewrite (bind_return _ _ _ _ _ (require_auth_return _ _ _ _ Hauth)).
  unfold_handler_monad. rewrite Hdb, Hride. cbv beta iota.
  apply String.eqb_neq in Hown. rewrite Hown, Hdb, Hnone.
  cbn [fst snd db clock ticks entropy draws with_db].
  unfold new_request_doc. rewrite ?Hdb. split; reflexivity.
Qed.

Lemma request_ride_duplicate request req_data w user w1 ride q :
  get_current_user request w = (Return (Some user), w1) ->
  find_one (ride_filter (RideRequestCreate.ride_id req_data)) (rides (db w)) = Some ride ->
  Ride.user_id ride <> User.user_id user ->
  find_one (open_request_filter (RideRequestCreate.ride_id req_data) (User.user_id user))
           (ride_requests (db w)) = Some q ->
  request_ride request req_data w = (Raise (mk_exn 400 "Already requested this ride"), w1).
Proof.
  intros Hauth Hride Hown Hq.
  pose proof (get_current_user_db _ _ _ _ Hauth) as Hdb.
  unfold request_ride. rewrite (bind_return _ _ _ _ _ (require_auth_return _ _ _ _ Hauth)).
  unfold_handler_monad. rewrite Hdb, Hride. cbv beta iota.
  apply String.eqb_neq in Hown. now rewrite Hown, Hdb, Hq.
Qed.

(** The store after a requester's new request [doc] was answered by the
    ride's owner. *)
Lemma request_then_respond request req_data w user w1 ride request' wA owner wA1 action :
  let doc := new_request_doc user req_data w1 in
  get_current_user request w = (Return (Some user), w1) ->
  find_one (ride_filter (RideRequestCreate.ride_id req_data)) (rides (db w)) = Some ride ->
  Ride.user_id ride <> User.user_id user ->
  find_one (open_request_filter (RideRequestCreate.ride_id req_data) (User.user_id user))
           (ride_requests (db w)) = None ->
  find_one (request_filter (RideRequest.request_id doc)) (ride_requests (db w)) = None ->
  db wA = db (snd (request_ride request req_data w)) ->
  get_current_user request' wA = (Return (Some owner), wA1) ->
  Ride.user_id ride = User.user_id owner ->
  let out := respond_ride_request (RideRequest.request_id doc) request' action wA in
  fst out = Return (mk_message (String.append "Request " (new_status action))) /\
  ride_requests (db (snd out))
    = ride_requests (db w) ++ [RideRequest.set_status (new_status action) doc] /\
  rides (db (snd out))
    = (if (new_status action =? "accepted")%string && (0 <? Ride.available_seats ride)
       then update_one (ride_filter (RideRequestCreate.ride_id req_data))
                       (Ride.inc_available_seats (-1)) (rides (db w))
       else rides (db w)) /\
  users (db (snd out)) = users (db w).
Proof.
  intros doc Hauth Hride Hown Hnone Hfresh HdbA HauthA HownA out. subst out.
  destruct (request_ride_run _ _ _ _ _ _ Hauth Hride Hown Hnone) as [_ Hstore].
  fold doc in Hstore. rewrite Hstore in HdbA.
  assert (Hrr : find_one (request_filter (RideRequest.request_id doc)) (ride_requests (db wA))
                = Some doc).
  { rewrite HdbA. cbn [ride_requests set_ride_requests].
    rewrite find_one_insert_one, Hfresh. unfold request_filter. now rewrite String.eqb_refl. }
  assert (HrideA : find_one (ride_filter (RideRequest.ride_id doc)) (rides (db wA))
                   = Some ride) by now rewrite HdbA.
  rewrite (respond_ride_request_run _ _ action _ _ _ _ _ HauthA Hrr HrideA HownA).
  cbn [fst snd]. rewrite with_db_db. unfold responded_store. rewrite HdbA.
  split; [reflexivity|].
  destruct ((new_status action =? "accepted")%string && (0 <? Ride.available_seats ride));
    cbn [ride_requests rides users set_rides set_ride_requests]; unfold insert_one;
    rewrite (update_one_app_miss _ _ _ _ Hfresh); cbn;
    unfold request_filter; rewrite String.eqb_refl; repeat split.
Qed.

(** X23. The seat path, end to end.  A user asks for a seat on somebody
    else's ride, having no pending or accepted request on it, and the
    generated request id is fresh; the owner accepts that id.  Then the
    request is stored as accepted and, when the ride had a free seat,
    the ride stored under the id has one seat less. *)
Theorem request_then_accept_takes_seat :
  forall request req_data w user w1 ride request' wA owner wA1,
    let doc := new_request_doc user req_data w1 in
    let ride_id := RideRequestCreate.ride_id req_data in
    get_current_user request w = (Return (Some user), w1) ->
    find_one (ride_filter ride_id) (rides (db w)) = Some ride ->
    Ride.user_id ride <> User.user_id user ->
    find_one (open_request_filter ride_id (User.user_id user)) (ride_requests (db w))
      = None ->
    find_one (request_filter (RideRequest.request_id doc)) (ride_requests (db w)) = None ->
    0 < Ride.available_seats ride ->
    db wA = db (snd (request_ride request req_data w)) ->
    get_current_user request' wA = (Return (Some owner), wA1) ->
    Ride.user_id ride = User.user_id owner ->
    let out := respond_ride_request (RideRequest.request_id doc) request' "accept" wA in
    fst (request_ride request req_data w) = Return doc /\
    RideRequest.status doc = "pending" /\
    fst out = Return (mk_message "Request accepted") /\
    find_one (request_filter (RideRequest.request_id doc)) (ride_requests (db (snd out)))
      = Some (RideRequest.set_status "accepted" doc) /\
    option_map Ride.available_seats (find_one (ride_filter ride_id) (rides (db (snd out))))
      = Some (Ride.available_seats ride - 1).
Proof.
  intros request req_data w user w1 ride request' wA owner wA1 doc ride_id
         Hauth Hride Hown Hnone Hfresh Hseats HdbA HauthA HownA out. subst out ride_id.
  destruct (request_ride_run _ _ _ _ _ _ Hauth Hride Hown Hnone) as [H1 _].
  destruct (request_then_respond _ _ _ _ _ _ _ _ _ _ "accept"
              Hauth Hride Hown Hnone Hfresh HdbA HauthA HownA) as (H2 & H3 & H4 & _).
  fold doc in H1, H2, H3, H4 |- *.
  split; [exact H1|]. split; [reflexivity|]. split; [exact H2|].
  rewrite H3, H4. change (new_status "accept") with "accepted".
  destruct (Z.ltb_spec 0 (Ride.available_seats ride)); [|lia].
  cbn [String.eqb Ascii.eqb Bool.eqb andb]. split.
  - rewrite find_one_app, Hfresh. cbn. unfold request_filter. cbn.
    now rewrite String.eqb_refl.
  - pose proof (find_one_some_in _ _ _ Hride) as [_ Hflt].
    now rewrite (find_one_update_one _ (Ride.inc_available_seats (-1)) _ _ Hride Hflt).
Qed.

Lemma request_then_accept_takes_seat_witness :
  let w := Demo.world (Demo.store [] [Demo.ride 3] []) in
  let out1 := request_ride (Demo.as_user "tok-bob") (RideRequestCreate.mk "ride_1" None) w in
  let out2 := respond_ride_request "req_0123456789ab" (Demo.as_user "tok-alice") "accept"
                                   (snd out1) in
  fst out2 = Return (mk_message "Request accepted") /\
  option_map Ride.available_seats (find_one (ride_filter "ride_1") (rides (db (snd out2))))
    = Some 2.
Proof.
  intros w out1 out2.
  destruct (request_then_accept_takes_seat (Demo.as_user "tok-bob")
              (RideRequestCreate.mk "ride_1" None) w Demo.bob
              (snd (get_current_user (Demo.as_user "tok-bob") w)) (Demo.ride 3)
              (Demo.as_user "tok-alice") (snd out1) Demo.alice
              (snd (get_current_user (Demo.as_user "tok-alice") (snd out1))))
    as (_ & _ & H3 & _ & H5); try reflexivity; try discriminate.
  split; assumption.
Defined.

(** ** One open request per ride and requester *)

Lemma request_ride_store request req_data w :
  let d' := db (snd (request_ride request req_data w)) in
  d' = db w \/
  exists doc,
    find_one (open_request_filter (RideRequest.ride_id doc) (RideRequest.requester_id doc))
             (ride_requests (db w)) = None /\
    d' = set_ride_requests (insert_one doc (ride_requests (db w))) (db w).
Proof.
  cbv zeta.
  destruct (get_current_user_reads request w) as ([user|] & w1 & Hauth & Hdb).
  2:{ left. unfold request_ride.
      now rewrite (bind_raise _ _ _ _ _ (require_auth_raise _ _ _ Hauth)). }
  destruct (find_one (ride_filter (RideRequestCreate.ride_id req_data)) (rides (db w)))
    as [ride|] eqn:Hride.
  2:{ left. unfold request_ride.
      rewrite (bind_return _ _ _ _ _ (require_auth_return _ _ _ _ Hauth)).
      unfold bind, query, raise. now rewrite Hdb, Hride. }
  destruct (String.eqb_spec (Ride.user_id ride) (User.user_id user)) as [Hown|Hown].
  { left. unfold request_ride.
    rewrite (bind_return _ _ _ _ _ (require_auth_return _ _ _ _ Hauth)).
    unfold bind, query, raise. rewrite Hdb, Hride. cbv beta iota.
    now rewrite Hown, String.eqb_refl. }
  destruct (find_one (open_request_filter (RideRequestCreate.ride_id req_data)
                                          (User.user_id user))
                     (ride_requests (db w))) as [q|] eqn:Hq.
  - left. now rewrite (request_ride_duplicate _ _ _ _ _ _ _ Hauth Hride Hown Hq).
  - right. exists (new_request_doc user req_data w1). split; [exact Hq|].
    apply (request_ride_run _ _ _ _ _ _ Hauth Hride Hown Hq).
Qed.

(** X24. Creating ride requests never produces a second pending-or-accepted
    request of the same user on the same ride: if every ride and
    requester has at most one such request before a call to
    [request_ride], the same holds after it, however the call ends. *)
Theorem request_ride_keeps_open_requests_unique :
  forall request req_data w,
    open_requests_unique (db w) ->
    open_requests_unique (db (snd (request_ride request req_data w))).
Proof.
  intros request req_data w Hu.
  destruct (request_ride_store request req_data w) as [-> | (doc & Hnone & ->)];
    [assumption|].
  intros r u. cbn [ride_requests set_ride_requests]. rewrite count_documents_insert_one.
  destruct (open_request_filter r u doc) eqn:Hf; [|specialize (Hu r u); lia].
  apply open_request_filter_true in Hf as (<- & <- & _).
  rewrite (count_documents_zero _ _ Hnone). lia.
Qed.

Lemma request_ride_keeps_open_requests_unique_witness :
  let w := Demo.world (Demo.store [] [Demo.ride 3] [Demo.ask "rejected"]) in
  let ask_again := request_ride (Demo.as_user "tok-bob") (RideRequestCreate.mk "ride_1" None) in
  let w1 := snd (ask_again w) in
  let w2 := snd (ask_again w1) in
  List.length (ride_requests (db w)) = 1%nat /\
  open_requests_unique (db w1) /\ List.length (ride_requests (db w1)) = 2%nat /\
  fst (ask_again w1) = Raise (mk_exn 400 "Already requested this ride") /\
  open_requests_unique (db w2) /\ ride_requests (db w2) = ride_requests (db w1) /\
  count_documents (open_request_filter "ride_1" "user_bob") (ride_requests (db w2)) = 1.
Proof.
  intros w ask_again w1 w2.
  assert (Hw : open_requests_unique (db w)).
  { intros r u. cbv [w Demo.world Demo.store db ride_requests count_documents List.filter].
    destruct (open_request_filter r u (Demo.ask "rejected")); cbn; lia. }
  pose proof (request_ride_keeps_open_requests_unique (Demo.as_user "tok-bob")
                (RideRequestCreate.mk "ride_1" None) w Hw) as H1.
  fold (ask_again w) w1 in H1.
  pose proof (request_ride_keeps_open_requests_unique (Demo.as_user "tok-bob")
                (RideRequestCreate.mk "ride_1" None) w1 H1) as H2.
  fold (ask_again w1) w2 in H2.
  split; [reflexivity|]. split; [exact H1|]. split; [reflexivity|].
  split; [reflexivity|]. split; [exact H2|]. split; reflexivity.
Defined.

(** X25. Asking twice.  After a request went through, the same user asking
    again for the same ride is refused with 400 "Already requested this
    ride" and nothing is written, as long as the ride is still stored. *)
Theorem request_ride_twice_refused :
  forall request req_data w user w1 ride request' w' user' w1',
    get_current_user request w = (Return (Some user), w1) ->
    find_one (ride_filter (RideRequestCreate.ride_id req_data)) (rides (db w)) = Some ride ->
    Ride.user_id ride <> User.user_id user ->
    find_one (open_request_filter (RideRequestCreate.ride_id req_data) (User.user_id user))
             (ride_requests (db w)) = None ->
    db w' = db (snd (request_ride request req_data w)) ->
    get_current_user request' w' = (Return (Some user'), w1') ->
    User.user_id user' = User.user_id user ->
    (exists doc, fst (request_ride request req_data w) = Return doc /\
                 RideRequest.status doc = "pending") /\
    request_ride request' req_data w'
      = (Raise (mk_exn 400 "Already requested this ride"), w1') /\
    db w1' = db w'.
Proof.
  intros request req_data w user w1 ride request' w' user' w1'
         Hauth Hride Hown Hnone Hdb' Hauth' Hsame.
  destruct (request_ride_run _ _ _ _ _ _ Hauth Hride Hown Hnone) as [H1 Hstore].
  rewrite Hstore in Hdb'.
  split; [eexists; split; [exact H1 | reflexivity]|].
  split; [|apply (get_current_user_db _ _ _ _ Hauth')].
  assert (Hride' : find_one (ride_filter (RideRequestCreate.ride_id req_data)) (rides (db w'))
                   = Some ride) by now rewrite Hdb'.
  rewrite <- Hsame in Hown.
  apply (request_ride_duplicate _ _ _ _ _ _ (new_request_doc user req_data w1)
           Hauth' Hride' Hown).
  rewrite Hdb', Hsame. cbn [ride_requests set_ride_requests].
  rewrite find_one_insert_one, Hnone.
  assert (Hf : open_request_filter (RideRequestCreate.ride_id req_data) (User.user_id user)
                                   (new_request_doc user req_data w1) = true).
  { apply open_request_filter_true. repeat split. now left. }
  now rewrite Hf.
Qed.

Lemma request_ride_twice_refused_witness :
  let w := Demo.world (Demo.store [] [Demo.ride 3] []) in
  let req_data := RideRequestCreate.mk "ride_1" None in
  let out1 := request_ride (Demo.as_user "tok-bob") req_data w in
  let out2 := request_ride (Demo.with_bearer "tok-bob") req_data (snd out1) in
  fst out2 = Raise (mk_exn 400 "Already requested this ride") /\
  List.length (ride_requests (db (snd out2))) = 1%nat.
Proof.
  intros w req_data out1 out2.
  destruct (request_ride_twice_refused (Demo.as_user "tok-bob") req_data w Demo.bob
              (snd (get_current_user (Demo.as_user "tok-bob") w)) (Demo.ride 3)
              (Demo.with_bearer "tok-bob") (snd out1) Demo.bob
              (snd (get_current_user (Demo.with_bearer "tok-bob") (snd out1))))
    as (_ & H2 & H3); try reflexivity; try discriminate.
  subst out2. rewrite H2. cbn [fst snd]. split; [reflexivity|]. now rewrite H3.
Defined.

(** X26. Asking again after a refusal.  When the owner answered a user's
    fresh request with anything but "accept", the request is stored as
    rejected, no seat was taken, and the same user may ask again: the
    new call stores another pending request. *)
Theorem request_again_after_rejection :
  forall request req_data w user w1 ride request' wA owner wA1 action request'' wB user' wB1,
    let doc := new_request_doc user req_data w1 in
    let ride_id := RideRequestCreate.ride_id req_data in
    get_current_user request w = (Return (Some user), w1) ->
    find_one (ride_filter ride_id) (rides (db w)) = Some ride ->
    Ride.user_id ride <> User.user_id user ->
    find_one (open_request_filter ride_id (User.user_id user)) (ride_requests (db w))
      = None ->
    find_one (request_filter (RideRequest.request_id doc)) (ride_requests (db w)) = None ->
    db wA = db (snd (request_ride request req_data w)) ->
    get_current_user request' wA = (Return (Some owner), wA1) ->
    Ride.user_id ride = User.user_id owner ->
    action <> "accept" ->
    db wB = db (snd (respond_ride_request (RideRequest.request_id doc) request' action wA)) ->
    get_current_user request'' wB = (Return (Some user'), wB1) ->
    User.user_id user' = User.user_id user ->
    let again := request_ride request'' req_data wB in
    rides (db wB) = rides (db w) /\
    fst again = Return (new_request_doc user' req_data wB1) /\
    ride_requests (db (snd again))
      = ride_requests (db w)
        ++ [RideRequest.set_status "rejected" doc; new_request_doc user' req_data wB1].
Proof.
  intros request req_data w user w1 ride request' wA owner wA1 action request'' wB user' wB1
         doc ride_id Hauth Hride Hown Hnone Hfresh HdbA HauthA HownA Hact HdbB HauthB Hsame
         again. subst again ride_id.
  destruct (request_then_respond _ _ _ _ _ _ _ _ _ _ action
              Hauth Hride Hown Hnone Hfresh HdbA HauthA HownA) as (_ & H3 & H4 & _).
  fold doc in H3, H4.
  assert (Hns : new_status action = "rejected").
  { unfold new_status. apply String.eqb_neq in Hact. now rewrite Hact. }
  rewrite Hns in H3, H4. cbn [String.eqb Ascii.eqb Bool.eqb andb] in H4.
  rewrite <- HdbB in H3, H4.
  split; [exact H4|].
  assert (HrideB : find_one (ride_filter (RideRequestCreate.ride_id req_data)) (rides (db wB))
                   = Some ride) by now rewrite H4.
  assert (HnoneB : find_one (open_request_filter (RideRequestCreate.ride_id req_data)
                                                 (User.user_id user'))
                            (ride_requests (db wB)) = None).
  { rewrite H3, Hsame, find_one_app, Hnone. cbn [find_one find].
    destruct (open_request_filter _ _ (RideRequest.set_status "rejected" doc)) eqn:Hf;
      [|reflexivity].
    apply open_request_filter_true in Hf as (_ & _ & [Hf | Hf]); discriminate Hf. }
  rewrite <- Hsame in Hown.
  destruct (request_ride_run _ _ _ _ _ _ HauthB HrideB Hown HnoneB) as [H5 H6].
  split; [exact H5|]. rewrite H6. cbn [ride_requests set_ride_requests].
  rewrite H3. unfold insert_one. now rewrite <- app_assoc.
Qed.

Lemma request_again_after_rejection_witness :
  let w := Demo.world (Demo.store [] [Demo.ride 3] []) in
  let req_data := RideRequestCreate.mk "ride_1" None in
  let out1 := request_ride (Demo.as_user "tok-bob") req_data w in
  let out2 := respond_ride_request "req_0123456789ab" (Demo.as_user "tok-alice") "reject"
                                   (snd out1) in
  let out3 := request_ride (Demo.as_user "tok-bob") req_data (snd out2) in
  map RideRequest.status (ride_requests (db (snd out3))) = ["rejected"; "pending"] /\
  rides (db (snd out2)) = [Demo.ride 3].
Proof.
  intros w req_data out1 out2 out3.
  destruct (request_again_after_rejection (Demo.as_user "tok-bob") req_data w Demo.bob
              (snd (get_current_user (Demo.as_user "tok-bob") w)) (Demo.ride 3)
              (Demo.as_user "tok-alice") (snd out1) Demo.alice
              (snd (get_current_user (Demo.as_user "tok-alice") (snd out1))) "reject"
              (Demo.as_user "tok-bob") (snd out2) Demo.bob
              (snd (get_current_user (Demo.as_user "tok-bob") (snd out2))))
    as (H1 & _ & H3); try reflexivity; try discriminate.
  split; [|exact H1]. subst out3. now rewrite H3.
Defined.

(** ** Listings *)

Lemma collect_reads {A B} (body : A -> M (option B)) (g : A -> DB -> option B) l w :
  (forall x v, body x v = (Return (g x (db v)), v)) ->
  collect body l w
  = (Return (flat_map (fun x => match g x (db w) with Some b => [b] | None => [] end) l), w).
Proof.
  intros Hbody. induction l as [|x l IH]; cbn [collect flat_map]; [reflexivity|].
  unfold bind at 1. rewrite Hbody. unfold bind at 1. rewrite IH. unfold ret.
  now destruct (g x (db w)).
Qed.

Lemma flat_map_option_length {A B} (g : A -> option B) (l : list A) :
  (List.length (flat_map (fun x => match g x with Some b => [b] | None => [] end) l)
   <= List.length l)%nat.
Proof.
  induction l as [|x l IH]; cbn; [lia|].
  rewrite length_app. destruct (g x); cbn; lia.
Qed.

Lemma in_flat_map_option {A B} (g : A -> option B) (l : list A) b :
  In b (flat_map (fun x => match g x with Some b => [b] | None => [] end) l) ->
  exists x, In x l /\ g x = Some b.
Proof.
  intros H. apply in_flat_map in H as (x & Hx & Hb). exists x. split; [assumption|].
  destruct (g x); [destruct Hb as [-> | []]; reflexivity | destruct Hb].
Qed.

Lemma in_to_list {A} n (l : list A) x : In x (to_list n l) -> In x l.
Proof. unfold to_list. revert n. induction l; destruct n; cbn; intuition eauto. Qed.

Lemma get_followers_run user_id w :
  get_followers user_id w =
    (Return (flat_map (fun f => match find_one (user_filter (Follow.follower_id f))
                                               (users (db w)) with
                                | Some u => [u] | None => [] end)
                      (to_list 1000 (filter (following_status_filter user_id "accepted")
                                            (follows (db w))))), w).
Proof.
  unfold get_followers. unfold bind at 1. unfold query at 1.
  apply (collect_reads _ (fun f d => find_one (user_filter (Follow.follower_id f)) (users d))).
  reflexivity.
Qed.

Lemma get_following_run user_id w :
  get_following user_id w =
    (Return (flat_map (fun f => match find_one (user_filter (Follow.following_id f))
                                               (users (db w)) with
                                | Some u => [u] | None => [] end)
                      (to_list 1000 (filter (follower_status_filter user_id "accepted")
                                            (follows (db w))))), w).
Proof.
  unfold get_following. unfold bind at 1. unfold query at 1.
  apply (collect_reads _ (fun f d => find_one (user_filter (Follow.following_id f)) (users d))).
  reflexivity.
Qed.

(** X18. The follower and following lists never fail and never write.  Each
    listed user is stored and is joined to an accepted edge with the
    queried user at the other end; an edge whose counterpart user is
    missing is skipped, so each list is at most 1000 long and never
    longer than the matching count reported by the statistics. *)
Theorem follower_lists_sound :
  forall user_id w,
    exists followers following stats,
      get_followers user_id w = (Return followers, w) /\
      get_following user_id w = (Return following, w) /\
      get_user_stats user_id w = (Return stats, w) /\
      (List.length followers <= 1000)%nat /\ (List.length following <= 1000)%nat /\
      Z.of_nat (List.length followers) <= stats_followers stats /\
      Z.of_nat (List.length following) <= stats_following stats /\
      (forall u, In u followers ->
         In u (users (db w)) /\
         exists f, In f (follows (db w)) /\ Follow.follower_id f = User.user_id u /\
                   Follow.following_id f = user_id /\ Follow.status f = "accepted") /\
      (forall u, In u following ->
         In u (users (db w)) /\
         exists f, In f (follows (db w)) /\ Follow.following_id f = User.user_id u /\
                   Follow.follower_id f = user_id /\ Follow.status f = "accepted").
Proof.
  intros user_id w. eexists _, _, _.
  split; [apply get_followers_run|]. split; [apply get_following_run|].
  split; [reflexivity|]. cbn [stats_followers stats_following].
  assert (Hlen : forall (flt : Follow.t -> bool) (g : Follow.t -> option User.t),
             let l := flat_map (fun f => match g f with Some u => [u] | None => [] end)
                               (to_list 1000 (filter flt (follows (db w)))) in
             (List.length l <= 1000)%nat /\
             Z.of_nat (List.length l) <= count_documents flt (follows (db w))).
  { intros flt g l. subst l.
    pose proof (flat_map_option_length g (to_list 1000 (filter flt (follows (db w))))) as H.
    unfold to_list in *. rewrite length_firstn in H. unfold count_documents. lia. }
  split; [apply Hlen|]. split; [apply Hlen|]. split; [apply Hlen|]. split; [apply Hlen|].
  split; intros u Hin; apply in_flat_map_option in Hin as (f & Hf & Hu);
    apply in_to_list, filter_In in Hf as [Hf Hflt];
    destruct (find_one_some_in _ _ _ Hu) as [Hin Hid];
    unfold user_filter in Hid; apply String.eqb_eq in Hid;
    apply andb_prop in Hflt as [H1 H2]; apply String.eqb_eq in H1, H2;
    (split; [assumption|]); exists f; repeat split; auto.
Qed.

Example follower_lists_skip_missing_users :
  let w := Demo.world (mk_db [Demo.bob] [] []
                             [Demo.edge "accepted";
                              Follow.mk "follow_2" "user_ghost" "user_bob" "accepted" Demo.t0;
                              Follow.mk "follow_3" "user_bob" "user_bob" "pending" Demo.t0]
                             [] []) in
  fst (get_followers "user_bob" w) = Return [] /\
  fst (get_user_stats "user_bob" w) = Return (mk_stats 2 0 0).
Proof. cbv zeta. split; reflexivity. Qed.

Section SortFacts.
Context {A : Type} (key : A -> datetime).

Lemma insert_newest_in x l y : In y (insert_newest key x l) <-> y = x \/ In y l.
Proof.
  induction l as [|a l IH]; cbn; [intuition|].
  destruct (utc_instant (key a) <=? utc_instant (key x)); cbn; [intuition|].
  rewrite IH. intuition.
Qed.

Lemma sort_newest_first_in l y : In y (sort_newest_first key l) <-> In y l.
Proof.
  induction l as [|a l IH]; cbn; [reflexivity|].
  rewrite insert_newest_in, IH. intuition.
Qed.

Lemma insert_newest_length x l :
  List.length (insert_newest key x l) = S (List.length l).
Proof.
  induction l as [|a l IH]; cbn; [reflexivity|].
  destruct (utc_instant (key a) <=? utc_instant (key x)); cbn; congruence.
Qed.

Lemma sort_newest_first_length l :
  List.length (sort_newest_first key l) = List.length l.
Proof.
  induction l as [|a l IH]; cbn; [reflexivity|]. now rewrite insert_newest_length, IH.
Qed.

Lemma insert_newest_sorted x l :
  newest_first key l -> newest_first key (insert_newest key x l).
Proof.
  unfold newest_first. induction 1 as [|a l Hs IH Hall]; cbn.
  - constructor; constructor.
  - destruct (Z.leb_spec (utc_instant (key a)) (utc_instant (key x))) as [Hle|Hgt].
    + constructor; [constructor; assumption|].
      constructor; [assumption|].
      rewrite Forall_forall in Hall |- *. intros y Hy. specialize (Hall y Hy). lia.
    + constructor; [assumption|].
      rewrite Forall_forall in Hall |- *. intros y Hy.
      apply insert_newest_in in Hy as [-> | Hy]; [lia | auto].
Qed.

Lemma sort_newest_first_sorted l : newest_first key (sort_newest_first key l).
Proof.
  induction l as [|a l IH]; cbn; [constructor|]. now apply insert_newest_sorted.
Qed.

Lemma to_list_sorted n l : newest_first key l -> newest_first key (to_list n l).
Proof.
  unfold newest_first, to_list. intros H. revert n.
  induction H as [|a l Hs IH Hall]; intros [|n]; cbn; try constructor; auto.
  rewrite Forall_forall in Hall |- *. intros y Hy. apply Hall.
  now apply (in_to_list n).
Qed.

Lemma to_list_all n (l : list A) : (List.length l <= n)%nat -> to_list n l = l.
Proof. unfold to_list. apply firstn_all2. Qed.

Lemma to_list_length n (l : list A) : (List.length (to_list n l) <= n)%nat.
Proof. unfold to_list. rewrite length_firstn. lia. Qed.

End SortFacts.

(** X21. "My rides" lists rides of the caller only, at most 100 of them,
    newest first; a caller who owns at most 100 rides sees all of
    them. *)
Theorem get_my_rides_sound :
  forall request w user w1,
    get_current_user request w = (Return (Some user), w1) ->
    exists l,
      get_my_rides request w = (Return l, w1) /\
      (List.length l <= 100)%nat /\
      newest_first Ride.created_at l /\
      (forall r, In r l -> In r (rides (db w)) /\ Ride.user_id r = User.user_id user) /\
      (count_documents (owner_filter (User.user_id user)) (rides (db w)) <= 100 ->
       forall r, In r (rides (db w)) -> Ride.user_id r = User.user_id user -> In r l).
Proof.
  intros request w user w1 Hauth.
  pose proof (get_current_user_db _ _ _ _ Hauth) as Hdb.
  eexists. split.
  { unfold get_my_rides. rewrite (bind_return _ _ _ _ _ (require_auth_return _ _ _ _ Hauth)).
    unfold query. rewrite Hdb. reflexivity. }
  split; [apply to_list_length|].
  split; [apply to_list_sorted, sort_newest_first_sorted|]. split.
  - intros r Hin. apply in_to_list, sort_newest_first_in, filter_In in Hin as [Hin Hf].
    split; [assumption|]. now apply String.eqb_eq in Hf.
  - intros Hfew r Hin Hown. rewrite to_list_all.
    + apply sort_newest_first_in, filter_In. split; [assumption|].
      unfold owner_filter. now rewrite Hown, String.eqb_refl.
    + rewrite sort_newest_first_length. unfold count_documents in Hfew. lia.
Qed.

Lemma get_my_rides_sound_witness :
  let w := Demo.world (Demo.store [] [Demo.ride 3] []) in
  fst (get_my_rides (Demo.as_user "tok-alice") w) = Return [Demo.ride 3] /\
  fst (get_my_rides (Demo.as_user "tok-bob") w) = Return [].
Proof.
  intros w.
  destruct (get_my_rides_sound (Demo.as_user "tok-alice") w Demo.alice _ eq_refl)
    as (l & Hl & _ & _ & _ & Hall).
  split; [|reflexivity].
  rewrite Hl. cbn [fst]. f_equal.
  assert (Hin : In (Demo.ride 3) l) by (apply Hall; [cbn; lia | now left | reflexivity]).
  revert Hl. cbn. intros [= <-]. reflexivity.
Defined.

Lemma flat_map_some {A B} (f : A -> B) (l : list A) :
  flat_map (fun x => match Some (f x) with Some b => [b] | None => [] end) l = map f l.
Proof. induction l as [|x l IH]; cbn; [reflexivity|]. now rewrite IH. Qed.

Lemma get_received_requests_run request w user w1 :
  get_current_user request w = (Return (Some user), w1) ->
  let ride_ids :=
    map Ride.ride_id (to_list 100 (filter (owner_filter (User.user_id user)) (rides (db w)))) in
  get_received_requests request w =
    (Return (match ride_ids with
             | [] => []
             | _ :: _ =>
                 map (fun req =>
                        (req,
                         find_one (user_filter (RideRequest.requester_id req)) (users (db w)),
                         find_one (ride_filter (RideRequest.ride_id req)) (rides (db w))))
                     (to_list 100 (sort_newest_first RideRequest.created_at
                                     (filter (ride_in_filter ride_ids)
                                             (ride_requests (db w)))))
             end), w1).
Proof.
  intros Hauth ride_ids. subst ride_ids.
  pose proof (get_current_user_db _ _ _ _ Hauth) as Hdb.
  unfold get_received_requests.
  rewrite (bind_return _ _ _ _ _ (require_auth_return _ _ _ _ Hauth)).
  unfold bind at 1. unfold query at 1. rewrite Hdb.
  destruct (map Ride.ride_id _) as [|i ids] eqn:Hids; [reflexivity|].
  unfold bind at 1. unfold query at 1. rewrite Hdb.
  rewrite (collect_reads _
             (fun req d =>
                Some (req,
                      find_one (user_filter (RideRequest.requester_id req)) (users d),
                      find_one (ride_filter (RideRequest.ride_id req)) (rides d)))).
  - now rewrite flat_map_some, Hdb.
  - reflexivity.
Qed.

(** X27. "Received requests" never shows a request on somebody else's ride.
    A caller who owns no ride gets the empty list.  Otherwise every
    entry is a stored request whose ride id is the id of a ride the
    caller owns, joined with the requester's record and the ride stored
    under that id (either may be missing); there are at most 100
    entries and they come newest first. *)
Theorem get_received_requests_sound :
  forall request w user w1,
    get_current_user request w = (Return (Some user), w1) ->
    exists l,
      get_received_requests request w = (Return l, w1) /\
      (List.length l <= 100)%nat /\
      newest_first RideRequest.created_at (map (fun e => fst (fst e)) l) /\
      (count_documents (owner_filter (User.user_id user)) (rides (db w)) = 0 -> l = []) /\
      (forall req requester ride,
          In (req, requester, ride) l ->
          In req (ride_requests (db w)) /\
          (exists mine, In mine (rides (db w)) /\
                        Ride.user_id mine = User.user_id user /\
                        Ride.ride_id mine = RideRequest.ride_id req) /\
          requester = find_one (user_filter (RideRequest.requester_id req)) (users (db w)) /\
          ride = find_one (ride_filter (RideRequest.ride_id req)) (rides (db w))).
Proof.
  intros request w user w1 Hauth.
  eexists. split; [apply (get_received_requests_run _ _ _ _ Hauth)|].
  set (mine := to_list 100 (filter (owner_filter (User.user_id user)) (rides (db w)))).
  destruct (map Ride.ride_id mine) as [|i ids] eqn:Hids.
  { split; [cbn; lia|]. split; [constructor|]. split; [reflexivity|]. intros ? ? ? []. }
  rewrite <- Hids.
  set (reqs := to_list 100 (sort_newest_first RideRequest.created_at
                              (filter (ride_in_filter (map Ride.ride_id mine))
                                      (ride_requests (db w))))).
  split; [rewrite length_map; apply to_list_length|].
  split.
  { rewrite map_map. cbn [fst]. rewrite map_id.
    apply to_list_sorted, sort_newest_first_sorted. }
  split.
  { intros Hzero. exfalso. unfold count_documents in Hzero.
    assert (Hnil : filter (owner_filter (User.user_id user)) (rides (db w)) = []).
    { destruct (filter _ (rides (db w))); [reflexivity | cbn in Hzero; lia]. }
    subst mine. rewrite Hnil in Hids. discriminate Hids. }
  intros req requester ride Hin. apply in_map_iff in Hin as (q & [= <- <- <-] & Hq).
  apply in_to_list, sort_newest_first_in, filter_In in Hq as [Hq Hflt].
  split; [assumption|]. split; [|split; reflexivity].
  unfold ride_in_filter in Hflt. apply existsb_exists in Hflt as (rid & Hrid & Heq).
  apply String.eqb_eq in Heq. apply in_map_iff in Hrid as (r & <- & Hr).
  apply in_to_list, filter_In in Hr as [Hr Hown].
  exists r. split; [assumption|]. split; [now apply String.eqb_eq in Hown | congruence].
Qed.

Lemma get_received_requests_sound_witness :
  let w := Demo.world (Demo.store [] [Demo.ride 3] [Demo.ask "pending"]) in
  fst (get_received_requests (Demo.as_user "tok-bob") w) = Return [] /\
  fst (get_received_requests (Demo.as_user "tok-alice") w)
    = Return [(Demo.ask "pending", Some Demo.bob, Some (Demo.ride 3))].
Proof.
  intros w.
  destruct (get_received_requests_sound (Demo.as_user "tok-bob") w Demo.bob _ eq_refl)
    as (l & Hl & _ & _ & Hnone & _).
  split; [|reflexivity].
  rewrite Hl. cbn [fst]. f_equal. apply Hnone. reflexivity.
Defined.

(** ** The Authorization header *)

Lemma prefix_append p s : String.prefix p (String.append p s) = true.
Proof.
  induction p as [|c p IH]; cbn; [now destruct s|].
  destruct (ascii_dec c c); [assumption | congruence].
Qed.

Lemma str_replace_from_skip pat rep p s :
  str_replace_from pat rep (String.append p s) (String.length p)
  = str_replace_from pat rep s 0.
Proof. induction p as [|c p IH]; cbn; [reflexivity | exact IH]. Qed.

Lemma str_replace_absent pat rep s :
  contains pat s = false -> str_replace_from pat rep s 0 = s.
Proof.
  induction s as [|c s IH]; [reflexivity|].
  cbn [contains]. intros H. apply orb_false_elim in H as [Hp Hc].
  cbn [str_replace_from]. rewrite Hp. now rewrite (IH Hc).
Qed.

Lemma str_replace_prefix_absent c pat tok :
  contains (String c pat) tok = false ->
  str_replace (String c pat) "" (String.append (String c pat) tok) = tok.
Proof.
  intros Habs. unfold str_replace.
  change (String.append (String c pat) tok) with (String c (String.append pat tok)).
  cbn [str_replace_from].
  change (String c (String.append pat tok)) with (String.append (String c pat) tok).
  rewrite prefix_append. cbn [String.length Nat.pred].
  rewrite str_replace_from_skip. cbn [String.append]. now apply str_replace_absent.
Qed.

(** X1. A bearer token survives the header.  With no usable cookie, the
    header "Bearer " followed by a non-empty token that does not itself
    contain "Bearer " yields exactly that token; a header that does not
    start with "Bearer " yields no token, and the request then resolves
    to nobody without the store or the clock being read. *)
Theorem bearer_token_round_trip :
  forall cookie,
    truthy cookie = false ->
    (forall tok,
        tok <> "" -> contains "Bearer " tok = false ->
        request_session_token (mk_request cookie (Some (String.append "Bearer " tok)))
        = Some tok) /\
    (forall header w,
        String.prefix "Bearer " header = false ->
        get_current_user (mk_request cookie (Some header)) w = (Return None, w)).
Proof.
  intros cookie Hc. split.
  - intros tok Hne Habs. unfold request_session_token.
    cbn [cookie_session_token header_authorization]. rewrite Hc. cbn [negb].
    rewrite prefix_append. cbn [truthy String.append String.eqb negb andb].
    f_equal. now apply (str_replace_prefix_absent "B" "earer ").
  - intros header w Hp. unfold get_current_user, request_session_token.
    cbn [cookie_session_token header_authorization]. rewrite Hc, Hp. cbn [negb].
    rewrite andb_false_r, Hc. reflexivity.
Qed.

Lemma bearer_token_round_trip_witness :
  request_session_token (mk_request (Some "") (Some "Bearer tok-alice")) = Some "tok-alice" /\
  get_current_user (mk_request None (Some "Token tok-alice"))
                   (Demo.world (Demo.store [] [] []))
    = (Return None, Demo.world (Demo.store [] [] [])).
Proof.
  destruct (bearer_token_round_trip (Some "") eq_refl) as [H1 _].
  destruct (bearer_token_round_trip None eq_refl) as [_ H2].
  split.
  - apply (H1 "tok-alice"); [discriminate | reflexivity].
  - apply H2. reflexivity.
Defined.

(** The replacement is global, not a prefix strip: a token that contains
    "Bearer " comes out of the header altered. *)
Example bearer_token_containing_the_scheme :
  request_session_token (mk_request None (Some "Bearer abcBearer def")) = Some "abcdef".
Proof. reflexivity. Qed.

(** ** Unfollowing and the shape of the follow collection *)

Lemma unfollow_then_follow_resets_witness :
  let back := Follow.mk "follow_2" "user_bob" "user_alice" "accepted" Demo.t0 in
  let w := Demo.world (Demo.store [Demo.edge "rejected"; back] [] []) in
  let gone := unfollow_user "user_bob" (Demo.as_user "tok-alice") w in
  let again := follow_user (Demo.as_user "tok-alice") (FollowRequest.mk "user_bob") (snd gone) in
  fst (follow_user (Demo.as_user "tok-alice") (FollowRequest.mk "user_bob") w)
    = Return (FollowResponse.mk "Already following or request pending" "rejected") /\
  fst gone = Return (mk_message "Unfollowed") /\
  follows (db (snd gone)) = [back] /\
  (exists msg, fst again = Return (FollowResponse.mk msg "pending")) /\
  exists edge,
    follows (db (snd again)) = [back; edge] /\
    Follow.follower_id edge = "user_alice" /\ Follow.following_id edge = "user_bob" /\
    Follow.status edge = "pending".
Proof.
  intros back w gone again. split; [reflexivity|].
  destruct (unfollow_then_follow_resets (Demo.as_user "tok-alice") (Demo.as_user "tok-alice")
              (FollowRequest.mk "user_bob") w Demo.alice
              (snd (get_current_user (Demo.as_user "tok-alice") w)) Demo.alice
              (snd (get_current_user (Demo.as_user "tok-alice") (snd gone)))
              (Demo.edge "rejected") Demo.bob
              eq_refl eq_refl eq_refl ltac:(discriminate) eq_refl eq_refl eq_refl)
    as (H1 & H2 & _ & H3 & edge & H4 & H5 & H6 & H7 & _).
  split; [exact H1|]. split; [exact H2|]. split; [exact H3|].
  exists edge. split; [exact H4|]. split; [exact H5|]. split; [exact H6 | exact H7].
Defined.

(** X16. Unfollowing needs an edge.  For a signed-in actor with no edge
    towards the named user the call raises 404 "Not following this user"
    and the follow collection is what it was; with an edge, of whatever
    status, it answers "Unfollowed" and the number of edges for the pair
    drops by exactly one. *)
Theorem unfollow_user_outcomes :
  forall user_id request w user w1,
    get_current_user request w = (Return (Some user), w1) ->
    let out := unfollow_user user_id request w in
    let pair := edge_filter (User.user_id user) user_id in
    (find_one pair (follows (db w)) = None ->
       fst out = Raise (mk_exn 404 "Not following this user") /\
       follows (db (snd out)) = follows (db w)) /\
    (forall e, find_one pair (follows (db w)) = Some e ->
       fst out = Return (mk_message "Unfollowed") /\
       count_documents pair (follows (db (snd out)))
         = count_documents pair (follows (db w)) - 1 /\
       users (db (snd out)) = users (db w)).
Proof.
  intros user_id request w user w1 Hauth out pair. subst out pair.
  destruct (unfollow_user_run user_id _ _ _ _ Hauth) as [H1 H2].
  rewrite H1, H2. cbn [follows users set_follows]. split.
  - intros Hn. rewrite Hn. split; [reflexivity|]. now apply delete_one_miss.
  - intros e He. rewrite He. split; [reflexivity|]. split; [|reflexivity].
    clear -He. revert He.
    generalize (edge_filter (User.user_id user) user_id). intros flt.
    unfold count_documents, find_one.
    induction (follows (db w)) as [|x l IH]; cbn; [discriminate|].
    destruct (flt x) eqn:Hx; cbn [List.length]; intros He.
    + lia.
    + cbn. rewrite Hx. specialize (IH He). lia.
Qed.

Lemma unfollow_user_outcomes_witness :
  let w := Demo.world (Demo.store [Demo.edge "pending"] [] []) in
  fst (unfollow_user "user_carol" (Demo.as_user "tok-alice") w)
    = Raise (mk_exn 404 "Not following this user") /\
  fst (unfollow_user "user_bob" (Demo.as_user "tok-alice") w)
    = Return (mk_message "Unfollowed").
Proof.
  intros w.
  destruct (unfollow_user_outcomes "user_carol" (Demo.as_user "tok-alice") w Demo.alice _
              eq_refl) as [H1 _].
  destruct (unfollow_user_outcomes "user_bob" (Demo.as_user "tok-alice") w Demo.alice _
              eq_refl) as [_ H2].
  split; [exact (proj1 (H1 eq_refl)) | exact (proj1 (H2 (Demo.edge "pending") eq_refl))].
Defined.

(** X14. The three handlers that write the follow collection keep it well
    formed: after any call, still no edge runs from a user to itself and
    every edge still points at a stored user. *)
Theorem follow_handlers_keep_follows_wf :
  forall request follow_req user_id follow_id action w,
    follows_wf (db w) ->
    follows_wf (db (snd (follow_user request follow_req w))) /\
    follows_wf (db (snd (unfollow_user user_id request w))) /\
    follows_wf (db (snd (respond_follow_request follow_id request action w))).
Proof.
  intros request follow_req user_id follow_id action w Hwf.
  split; [now apply follow_user_keeps_wf|].
  split; [now apply unfollow_user_keeps_wf | now apply respond_follow_request_keeps_wf].
Qed.

Lemma follow_handlers_keep_follows_wf_witness :
  let w := Demo.world (Demo.store [] [] []) in
  follows_wf (db (snd (follow_user (Demo.as_user "tok-alice")
                                   (FollowRequest.mk "user_bob") w))).
Proof.
  intros w.
  exact (proj1 (follow_handlers_keep_follows_wf (Demo.as_user "tok-alice")
                  (FollowRequest.mk "user_bob") "user_bob" "follow_1" "accept" w
                  (follows_wf_empty _ _ _ _ _))).
Defined.

(** ** Pending follow requests *)

Lemma get_follow_requests_run request w user w1 :
  get_current_user request w = (Return (Some user), w1) ->
  get_follow_requests request w =
    (Return (flat_map (fun req =>
                         match option_map (fun follower => (req, follower))
                                 (find_one (user_filter (Follow.follower_id req))
                                           (users (db w))) with
                         | Some b => [b] | None => [] end)
                      (to_list 100 (filter (following_status_filter (User.user_id user)
                                                                    "pending")
                                           (follows (db w))))), w1).
Proof.
  intros Hauth. pose proof (get_current_user_db _ _ _ _ Hauth) as Hdb.
  unfold get_follow_requests.
  rewrite (bind_return _ _ _ _ _ (require_auth_return _ _ _ _ Hauth)).
  unfold bind at 1. unfold query at 1. rewrite Hdb.
  rewrite (collect_reads _
             (fun req d => option_map (fun follower => (req, follower))
                             (find_one (user_filter (Follow.follower_id req)) (users d)))).
  - now rewrite Hdb.
  - reflexivity.
Qed.

(** X28. The pending list of a signed-in user holds at most 100 entries;
    each is a stored edge that targets the user and is pending, joined
    with the stored record of its follower (edges whose follower is
    missing are left out).  Once the user has answered a request whose
    follow id no other edge carries, no entry with that id is listed any
    more. *)
Theorem get_follow_requests_sound :
  forall request w user w1,
    get_current_user request w = (Return (Some user), w1) ->
    exists l,
      get_follow_requests request w = (Return l, w1) /\
      (List.length l <= 100)%nat /\
      (forall f u, In (f, u) l ->
         In f (follows (db w)) /\ Follow.following_id f = User.user_id user /\
         Follow.status f = "pending" /\
         In u (users (db w)) /\ User.user_id u = Follow.follower_id f) /\
      (forall follow_id action pending request' w' user' w1' l',
         find_one (pending_follow_filter follow_id (User.user_id user)) (follows (db w))
           = Some pending ->
         count_documents (follow_id_filter follow_id) (follows (db w)) = 1 ->
         db w' = db (snd (respond_follow_request follow_id request action w)) ->
         get_current_user request' w' = (Return (Some user'), w1') ->
         get_follow_requests request' w' = (Return l', w1') ->
         forall f u, In (f, u) l' -> Follow.follow_id f <> follow_id).
Proof.
  intros request w user w1 Hauth.
  assert (Hentries : forall rq v usr v1 l0,
             get_current_user rq v = (Return (Some usr), v1) ->
             get_follow_requests rq v = (Return l0, v1) ->
             forall f u, In (f, u) l0 ->
               In f (follows (db v)) /\ Follow.following_id f = User.user_id usr /\
               Follow.status f = "pending" /\
               In u (users (db v)) /\ User.user_id u = Follow.follower_id f).
  { intros rq v usr v1 l0 Ha Hl f u Hin.
    pose proof (get_follow_requests_run _ _ _ _ Ha) as Hrun.
    remember (to_list 100 (filter (following_status_filter (User.user_id usr) "pending")
                                  (follows (db v)))) as reqs eqn:Hreqs.
    rewrite Hrun in Hl. injection Hl as <-.
    apply in_flat_map_option in Hin as (f0 & Hf0 & Hu).
    destruct (find_one (user_filter (Follow.follower_id f0)) (users (db v))) as [u0|] eqn:Hfu;
      [|discriminate]. cbn in Hu. injection Hu as <- <-.
    rewrite Hreqs in Hf0.
    apply in_to_list, filter_In in Hf0 as [Hf0 Hflt].
    apply andb_prop in Hflt as [H1 H2]. apply String.eqb_eq in H1, H2.
    destruct (find_one_some_in _ _ _ Hfu) as [Hin Hid].
    apply String.eqb_eq in Hid. repeat split; assumption. }
  eexists. split; [apply (get_follow_requests_run _ _ _ _ Hauth)|].
  split.
  { etransitivity; [apply flat_map_option_length | apply to_list_length]. }
  split.
  { intros f u Hin. apply (Hentries _ _ _ _ _ Hauth (get_follow_requests_run _ _ _ _ Hauth)).
    exact Hin. }
  intros follow_id action pending request' w' user' w1' l' Hpend Hone Hdb' Hauth' Hl' f u Hin
         Hid.
  destruct (Hentries _ _ _ _ _ Hauth' Hl' f u Hin) as (Hf & _ & Hst & _).
  rewrite Hdb', (respond_follow_request_run _ _ action _ _ _ _ Hauth Hpend) in Hf.
  cbn [snd] in Hf. rewrite with_db_db in Hf. cbn [follows set_follows] in Hf.
  assert (Hflt : follow_id_filter follow_id f = true)
    by (unfold follow_id_filter; now rewrite Hid, String.eqb_refl).
  destruct (update_one_unique _ _ _ f Hone Hf Hflt) as (x & _ & ->).
  cbn in Hst. now apply new_status_not_pending in Hst.
Qed.

Lemma get_follow_requests_sound_witness :
  let w := Demo.world (Demo.store [Demo.edge "pending"] [] []) in
  let w' := snd (respond_follow_request "follow_1" (Demo.as_user "tok-bob") "accept" w) in
  fst (get_follow_requests (Demo.as_user "tok-bob") w)
    = Return [(Demo.edge "pending", Demo.alice)] /\
  forall f u,
    In (f, u) (match fst (get_follow_requests (Demo.as_user "tok-bob") w') with
               | Return l => l | Raise _ => [] end) ->
    Follow.follow_id f <> "follow_1".
Proof.
  intros w w'. split; [reflexivity|].
  destruct (get_follow_requests_sound (Demo.as_user "tok-bob") w Demo.bob _ eq_refl)
    as (l & _ & _ & _ & H).
  intros f u Hin.
  apply (H "follow_1" "accept" (Demo.edge "pending") (Demo.as_user "tok-bob") w' Demo.bob
           (snd (get_current_user (Demo.as_user "tok-bob") w'))
           (match fst (get_follow_requests (Demo.as_user "tok-bob") w') with
            | Return l => l | Raise _ => [] end)
           eq_refl eq_refl eq_refl eq_refl eq_refl f u Hin).
Defined.
